(** * Ransomware-Web-Scraping: a shallow embedding of the discovery pipeline

    The development follows the Python sources

      - [src/storage.py]  ([URLStorage], [MultiSourceStorage]),
      - [src/scraper.py]  ([URLScraper]),
      - [src/main.py]     ([identify_new_urls_per_source], [main]),

    and proves the properties the specification states about them.

    Modelling conventions.

      - A Python [str] is the [string] of its UTF-8 encoding. What Python
        does character by character ([\d] and [int], which take the decimal
        digits of every script, and slices) is done on the characters of
        that encoding.
      - A [dict] whose iteration order matters (results per source) is an
        association list in insertion order; a [dict] used as a finite map
        (the persisted [urls] object) is a [gmap]; a [set] is a [gset].
      - Effects are threaded through a state-and-exception monad [M] over a
        [World]: the storage files, the wall clock, the HTTP peer, the random
        generator and the trace of observable events (requests and sleeps).
        Pure code that may raise returns an [Outcome].
      - The file system is taken as the program leaves it: a storage file
        holds a document of the persisted format (the only documents the
        program writes) or cannot be read; the directories of the storage
        can be created and a storage file can be written. A file of
        another JSON shape, a path that cannot be created and a failing
        write lie outside the model, and no statement below is about them.
      - What lies outside the repository is part of the environment [Env]:
        the answers of the peer (with the retries of the session's adapter
        inside one [session.get]), the documents [BeautifulSoup] finds,
        [urljoin], [urlparse] and the enumeration order of a [set].
        [re], [int] and [datetime.strptime] are those of CPython 3.11
        (Unicode 14.0), [re] and [strptime] for the patterns and the formats
        of the program.
      - Logging is not modelled. *)

From Stdlib Require Import ZArith Ascii String List Lia Bool.
From Stdlib Require Import DecimalString SpecFloat.
From stdpp Require Import base option gmap strings list fin_maps.

Open Scope string_scope.

#[local] Set Warnings "-clear-no-such-hyp".
#[local] Set Warnings "-register-all".

(** ** The world and the monad *)

(** One entry of the persisted [urls] object. *)
Record SeenRecord := mkSeen { first_seen : string; source : string }.

(** The document of one storage file:
    [{"urls": {...}, "last_updated": ...}]. *)
Record StoreData := mkData {
  urls : gmap string SeenRecord;
  last_updated : option string
}.

(** The content of a storage file: a document of the persisted format, or
    something [json.load] rejects. An unreadable file behaves like
    [Corrupt]. JSON of another shape is outside the model. *)
Inductive File :=
| Json (d : StoreData)
| Corrupt.

(** The exceptions the modelled code distinguishes. [HTTPError], [Timeout]
    and [RequestException] are those of [requests.exceptions] (the last one
    stands for the members of that hierarchy other than the first two);
    [OtherException] is any exception outside the classes named here. *)
Inductive Exn :=
| ValueError
| IndexError
| HTTPError (status_code : Z)
| Timeout
| RequestException
| OtherException.

Inductive Outcome (A : Type) :=
| Returned (a : A)
| Raised (e : Exn).
Arguments Returned {A} a.
Arguments Raised {A} e.

Inductive Event :=
| EvRequest (url : string) (user_agent : string)
| EvSleep (seconds : Z).

(** The environment a run executes in; it is read, never written. *)
Record Env := mkEnv {
  (** [datetime.now().isoformat()] at the n-th reading of the clock *)
  env_now : nat -> string;
  (** what the n-th [session.get(url, headers={'User-Agent': ua})] followed
      by [raise_for_status()] gives: [response.text], or the exception *)
  env_http : nat -> string -> string -> Outcome string;
  (** the index [random.choice] draws at its n-th call *)
  env_choice : nat -> nat;
  (** [BeautifulSoup(xml_content, 'lxml-xml').find_all('url')]: for every
      [<url>] tag the stripped text of its [<loc>] and of its [<lastmod>],
      when it has them; or the exception of the parser *)
  env_sitemap : string -> Outcome (list (option string * option string));
  (** [BeautifulSoup(html_content, 'html.parser').find_all('a', href=True)]:
      the [href] of every link; or the exception of the parser *)
  env_hrefs : string -> Outcome (list string);
  (** [urljoin(base_url, href)] *)
  env_urljoin : string -> string -> Outcome string;
  (** [urlparse(url).netloc] *)
  env_netloc : string -> Outcome string;
  (** [list(set(urls))]: the order in which a set is enumerated *)
  env_list_set : list string -> list string
}.

Record World := mkWorld {
  env : Env;
  files : gmap string File;
  clock_reads : nat;
  requests : nat;
  draws : nat;
  trace : list Event
}.

Definition M (A : Type) : Type := World -> Outcome A * World.

Definition ret {A} (a : A) : M A := fun w => (Returned a, w).

Definition bind {A B} (c : M A) (k : A -> M B) : M B :=
  fun w =>
    match c w with
    | (Returned a, w') => k a w'
    | (Raised e, w') => (Raised e, w')
    end.

Definition raise {A} (e : Exn) : M A := fun w => (Raised e, w).

(** [try: c  except Exception: h] *)
Definition try_except {A} (c : M A) (h : Exn -> M A) : M A :=
  fun w =>
    match c w with
    | (Returned a, w') => (Returned a, w')
    | (Raised e, w') => h e w'
    end.

Notation "'let*' x ':=' c1 'in' c2" := (bind c1 (fun x => c2))
  (at level 10, x name, c1 at level 100, c2 at level 200).
Notation "c1 ';;' c2" := (bind c1 (fun _ => c2))
  (at level 100, c2 at level 200, right associativity).

Definition get_world : M World := fun w => (Returned w, w).

Definition set_files (f : gmap string File) : M unit :=
  fun w => (Returned tt,
            mkWorld (env w) f (clock_reads w) (requests w) (draws w) (trace w)).

Definition emit (e : Event) : M unit :=
  fun w => (Returned tt,
            mkWorld (env w) (files w) (clock_reads w) (requests w) (draws w)
                    (trace w ++ [e])).

(** [time.sleep(seconds)] *)
Definition time_sleep (seconds : Z) : M unit := emit (EvSleep seconds).

(** [datetime.now().isoformat()] *)
Definition datetime_now_isoformat : M string :=
  fun w => (Returned (env_now (env w) (clock_reads w)),
            mkWorld (env w) (files w) (S (clock_reads w)) (requests w) (draws w)
                    (trace w)).

(** ** storage.py *)

Module URLStorage.

(** [{"urls": {}, "last_updated": None}] *)
Definition empty_data : StoreData := mkData ∅ None.

(** [_load_data]: the document of the file, or the empty document when the
    file is missing, unreadable or not JSON (both [except] branches). *)
Definition _load_data (storage_path : string) : M StoreData :=
  let* w := get_world in
  match files w !! storage_path with
  | Some (Json d) => ret d
  | Some Corrupt => ret empty_data
  | None => ret empty_data
  end.

(** [_save_data]: the file is overwritten with the document. The write is
    taken to succeed; an error of the write, which the code logs and raises
    again, is outside the model. *)
Definition _save_data (storage_path : string) (data : StoreData) : M unit :=
  let* w := get_world in
  set_files (<[storage_path := Json data]> (files w)).

(** [_ensure_storage_file] *)
Definition _ensure_storage_file (storage_path : string) : M unit :=
  let* w := get_world in
  match files w !! storage_path with
  | None => _save_data storage_path empty_data
  | Some _ => ret tt
  end.

(** [__init__]. The [mkdir] of the parent directory is taken to succeed:
    directories are not part of the world. *)
Definition init (storage_path : string) : M string :=
  _ensure_storage_file storage_path ;; ret storage_path.

(** [get_seen_urls]: [set(data.get("urls", {}).keys())] *)
Definition get_seen_urls (storage_path : string) : M (gset string) :=
  let* data := _load_data storage_path in
  ret (dom (urls data)).

(** One iteration of the loop of [add_urls], on the pair of the [urls]
    object and [new_count]. *)
Definition add_urls_step (timestamp src : string)
    (acc : gmap string SeenRecord * nat) (url : string)
    : gmap string SeenRecord * nat :=
  match acc.1 !! url with
  | None => (<[url := mkSeen timestamp src]> acc.1, S acc.2)
  | Some _ => acc
  end.

(** [add_urls] *)
Definition add_urls (storage_path : string) (urls_ : list string)
    (src : string) : M nat :=
  let* data := _load_data storage_path in
  let* timestamp := datetime_now_isoformat in
  let acc := fold_left (add_urls_step timestamp src) urls_ (urls data, 0) in
  _save_data storage_path (mkData acc.1 (Some timestamp)) ;;
  ret acc.2.

End URLStorage.

Module MultiSourceStorage.

(** The texts between the slashes of a path. *)
Fixpoint split_slash (s : string) : list string :=
  match s with
  | EmptyString => [EmptyString]
  | String c s' =>
      if Ascii.eqb c "/" then EmptyString :: split_slash s'
      else match split_slash s' with
           | h :: t => String c h :: t
           | [] => [String c EmptyString]
           end
  end.

(** The root [Path] keeps: one slash, or two when the path starts with
    exactly two. *)
Definition path_root (s : string) : string :=
  if String.prefix "///" s then "/"
  else if String.prefix "//" s then "//"
  else if String.prefix "/" s then "/"
  else "".

(** The components [Path] keeps: the empty ones and [.] are dropped. *)
Definition path_parts (s : string) : list string :=
  List.filter (fun part => negb (String.eqb part "" || String.eqb part "."))
              (split_slash s).

Fixpoint join_parts (parts : list string) : string :=
  match parts with
  | [] => EmptyString
  | part :: parts' => part ++ "/" ++ join_parts parts'
  end.

(** [str(Path(base_dir) / name)] for a file name [name], on a POSIX
    system: the normal form of [base_dir], then the name. *)
Definition path_join (base_dir name : string) : string :=
  path_root base_dir ++ join_parts (path_parts base_dir) ++ name.

(** The storage file name of every source, in the order of the
    [self.storages] dictionary. *)
Definition storage_files : list (string * string) :=
  [ ("dexpose.io", "dexpose_urls.json");
    ("ransomware.live", "ransomware_live_urls.json");
    ("redpacketsecurity.com", "redpacket_security_urls.json") ].

(** A [MultiSourceStorage] object: [storages] maps a source to the path of
    its [URLStorage]. *)
Record t := mk {
  base_dir : string;
  storages : list (string * string)
}.

Fixpoint init_storages (base : string) (l : list (string * string))
    : M (list (string * string)) :=
  match l with
  | [] => ret []
  | (src, name) :: l' =>
      let* st := URLStorage.init (path_join base name) in
      let* rest := init_storages base l' in
      ret ((src, st) :: rest)
  end.

(** [__init__]. The [mkdir] of the base directory is taken to succeed, as
    in [URLStorage.init]. *)
Definition init (base : string) : M t :=
  let* sts := init_storages base storage_files in
  ret (mk base sts).

(** [dict] lookup in an association list. *)
Fixpoint dict_get {V} (k : string) (d : list (string * V)) : option V :=
  match d with
  | [] => None
  | (k', v) :: d' => if String.eqb k k' then Some v else dict_get k d'
  end.

(** [get_storage_for_source] *)
Definition get_storage_for_source (self : t) (src : string) : M string :=
  match dict_get src (storages self) with
  | None => raise ValueError
  | Some st => ret st
  end.

(** [get_seen_urls_for_source] *)
Definition get_seen_urls_for_source (self : t) (src : string)
    : M (gset string) :=
  let* storage := get_storage_for_source self src in
  URLStorage.get_seen_urls storage.

(** [add_urls_for_source] *)
Definition add_urls_for_source (self : t) (src : string)
    (urls_ : list string) : M nat :=
  let* storage := get_storage_for_source self src in
  URLStorage.add_urls storage urls_ src.

End MultiSourceStorage.

(** ** main.py *)

(** [d[k] = v] on a dictionary kept in insertion order. *)
Fixpoint dict_set {V} (k : string) (v : V) (d : list (string * V))
    : list (string * V) :=
  match d with
  | [] => [(k, v)]
  | (k', v') :: d' =>
      if String.eqb k k' then (k, v) :: d' else (k', v') :: dict_set k v d'
  end.

(** The loop of [identify_new_urls_per_source] over [all_urls.items()], with
    the dictionary [new_urls] built so far. *)
Fixpoint identify_loop (items : list (string * list string))
    (storage : MultiSourceStorage.t) (new_urls : list (string * list string))
    : M (list (string * list string)) :=
  match items with
  | [] => ret new_urls
  | (src, urls_) :: items' =>
      let* seen_urls :=
        MultiSourceStorage.get_seen_urls_for_source storage src in
      let new_for_source := filter (fun url => url ∉ seen_urls) urls_ in
      match new_for_source with
      | [] => identify_loop items' storage new_urls
      | _ :: _ =>
          identify_loop items' storage (dict_set src new_for_source new_urls)
      end
  end.

(** [identify_new_urls_per_source] *)
Definition identify_new_urls_per_source (all_urls : list (string * list string))
    (storage : MultiSourceStorage.t) : M (list (string * list string)) :=
  identify_loop all_urls storage [].

(** The loop "Update storage for each source" of [main]. *)
Fixpoint update_storage (items : list (string * list string))
    (storage : MultiSourceStorage.t) : M unit :=
  match items with
  | [] => ret tt
  | (src, urls_) :: items' =>
      match urls_ with
      | [] => update_storage items' storage
      | _ :: _ =>
          let* new_count :=
            MultiSourceStorage.add_urls_for_source storage src urls_ in
          update_storage items' storage
      end
  end.

(** [sum(len(urls) for urls in new_urls.values())] *)
Definition total_len (d : list (string * list string)) : nat :=
  list_sum (map (fun kv => length kv.2) d).

(** The part of [main] between scraping and notification: the report
    [new_urls], its total, and the update of the stores. *)
Definition main_dedup (all_urls : list (string * list string))
    (storage : MultiSourceStorage.t) : M (list (string * list string) * nat) :=
  let* new_urls := identify_new_urls_per_source all_urls storage in
  let total_new := total_len new_urls in
  update_storage all_urls storage ;;
  ret (new_urls, total_new).

(** ** Pure code that may raise *)

(** [try: o  except: h] for pure code. *)
Definition catch {A} (o : Outcome A) (h : Exn -> Outcome A) : Outcome A :=
  match o with
  | Returned a => Returned a
  | Raised e => h e
  end.

Definition obind {A B} (o : Outcome A) (k : A -> Outcome B) : Outcome B :=
  match o with
  | Returned a => k a
  | Raised e => Raised e
  end.

Notation "'try*' x ':=' c1 'in' c2" := (obind c1 (fun x => c2))
  (at level 10, x name, c1 at level 100, c2 at level 200).

(** Run a pure computation inside [M]. *)
Definition lift {A} (o : Outcome A) : M A := fun w => (o, w).

(** ** Text, [int] and [datetime]

    A [str] is held as its UTF-8 encoding. A character is a byte that is
    no continuation byte, with the continuation bytes that follow it; the
    operations of Python that count characters ([s[i:j]], the character
    classes of [re], [int]) work on these. *)

Definition code (c : ascii) : N := N_of_ascii c.

Definition in_range (lo hi c : ascii) : bool :=
  (code lo <=? code c)%N && (code c <=? code hi)%N.

Definition is_digit (c : ascii) : bool := in_range "0" "9" c.

(** White space among the ASCII characters. *)
Definition is_space (c : ascii) : bool :=
  (code c =? 32)%N || ((9 <=? code c)%N && (code c <=? 13)%N).

Definition lower (c : ascii) : ascii :=
  if in_range "A" "Z" c then ascii_of_N (code c + 32) else c.

(** A byte [10xxxxxx]. *)
Definition is_continuation (c : ascii) : bool :=
  (128 <=? code c)%N && (code c <? 192)%N.

(** The continuation bytes a text starts with, and what follows them. *)
Fixpoint continuation (s : string) : string * string :=
  match s with
  | String c s' =>
      if is_continuation c
      then let (t, r) := continuation s' in (String c t, r)
      else (EmptyString, s)
  | EmptyString => (EmptyString, EmptyString)
  end.

(** The first character of a text, and the text after it. *)
Definition next_char (s : string) : option (string * string) :=
  match s with
  | EmptyString => None
  | String c s' => let (t, r) := continuation s' in Some (String c t, r)
  end.

Definition starts_continuation (s : string) : bool :=
  match s with
  | String c _ => is_continuation c
  | EmptyString => false
  end.

(** The characters of a text. *)
Fixpoint chars (s : string) : list string :=
  match s with
  | EmptyString => []
  | String c s' =>
      match chars s' with
      | t :: ts =>
          if starts_continuation s' then String c t :: ts
          else String c EmptyString :: t :: ts
      | [] => [String c EmptyString]
      end
  end.

(** The text of a list of characters. *)
Fixpoint text (l : list string) : string :=
  match l with
  | [] => EmptyString
  | t :: l' => t ++ text l'
  end.

(** The code point a character encodes, when it is the UTF-8 encoding of
    one: the shortest encoding of a code point up to [10FFFF] that is no
    surrogate. *)
Definition code_point (t : string) : option N :=
  match t with
  | String c0 EmptyString =>
      if (code c0 <? 128)%N then Some (code c0) else None
  | String c0 (String c1 EmptyString) =>
      let cp := ((code c0 - 192) * 64 + (code c1 - 128))%N in
      if (192 <=? code c0)%N && (code c0 <? 224)%N && (128 <=? cp)%N
      then Some cp else None
  | String c0 (String c1 (String c2 EmptyString)) =>
      let cp := ((code c0 - 224) * 4096 + (code c1 - 128) * 64
                 + (code c2 - 128))%N in
      if (224 <=? code c0)%N && (code c0 <? 240)%N && (2048 <=? cp)%N
         && negb ((55296 <=? cp)%N && (cp <? 57344)%N)
      then Some cp else None
  | String c0 (String c1 (String c2 (String c3 EmptyString))) =>
      let cp := ((code c0 - 240) * 262144 + (code c1 - 128) * 4096
                 + (code c2 - 128) * 64 + (code c3 - 128))%N in
      if (240 <=? code c0)%N && (code c0 <? 248)%N && (65536 <=? cp)%N
         && (cp <? 1114112)%N
      then Some cp else None
  | _ => None
  end.

(** The decimal digits of Unicode (general category [Nd]; Unicode 14.0, the
    version of CPython 3.11) come in runs of ten, from the digit zero to the
    digit nine of a script: the code points of the zeros. *)
Definition decimal_zeros : list N :=
  [48%N; 1632%N; 1776%N; 1984%N; 2406%N; 2534%N; 2662%N; 2790%N; 2918%N;
    3046%N; 3174%N; 3302%N; 3430%N; 3558%N; 3664%N; 3792%N; 3872%N; 4160%N;
    4240%N; 6112%N; 6160%N; 6470%N; 6608%N; 6784%N; 6800%N; 6992%N; 7088%N;
    7232%N; 7248%N; 42528%N; 43216%N; 43264%N; 43472%N; 43504%N; 43600%N;
    44016%N; 65296%N; 66720%N; 68912%N; 69734%N; 69872%N; 69942%N; 70096%N;
    70384%N; 70736%N; 70864%N; 71248%N; 71360%N; 71472%N; 71904%N; 72016%N;
    72784%N; 73040%N; 73120%N; 92768%N; 92864%N; 93008%N; 120782%N;
    120792%N; 120802%N; 120812%N; 120822%N; 123200%N; 123632%N; 125264%N;
    130032%N ].

(** The value of a code point that is a decimal digit: what
    [Py_UNICODE_TODECIMAL] gives, on which both [\d] and [int] rest. *)
Definition decimal_value (cp : N) : option Z :=
  match find (fun z => (z <=? cp)%N && (cp <? z + 10)%N) decimal_zeros with
  | Some z => Some (Z.of_N (cp - z))
  | None => None
  end.

(** The value of a character that is a decimal digit. *)
Definition decimal (t : string) : option Z :=
  match code_point t with
  | Some cp => decimal_value cp
  | None => None
  end.

Definition is_decimal (t : string) : bool :=
  match decimal t with Some _ => true | None => false end.

(** The white space [int] strips: the ASCII blanks and the characters
    beyond ASCII for which [str.isspace] holds. *)
Definition int_space (cp : N) : bool :=
  ((9 <=? cp) && (cp <=? 13) || (cp =? 32) || (cp =? 133) || (cp =? 160)
   || (cp =? 5760) || (8192 <=? cp) && (cp <=? 8202) || (cp =? 8232)
   || (cp =? 8233) || (cp =? 8239) || (cp =? 8287) || (cp =? 12288))%N.

(** What a character is to [int]. *)
Inductive IntChar :=
| IDigit (v : Z)
| ISpace
| ISign (negative : bool)
| IUnderscore
| IOther.

Definition int_char (t : string) : IntChar :=
  match code_point t with
  | None => IOther
  | Some cp =>
      match decimal_value cp with
      | Some v => IDigit v
      | None =>
          if int_space cp then ISpace
          else if (cp =? 43)%N then ISign false
          else if (cp =? 45)%N then ISign true
          else if (cp =? 95)%N then IUnderscore
          else IOther
      end
  end.

Fixpoint drop_spaces (l : list IntChar) : list IntChar :=
  match l with
  | ISpace :: l' => drop_spaces l'
  | _ => l
  end.

(** The digits of a literal, single underscores between them allowed, and
    white space to the end: the value read after [acc] and the number of
    digits read after [n]. [after_digit] tells whether a digit came just
    before. *)
Fixpoint digits_value (after_digit : bool) (acc : Z) (n : nat)
    (l : list IntChar) : option (Z * nat) :=
  match l with
  | [] => if after_digit then Some (acc, n) else None
  | IDigit v :: l' => digits_value true (acc * 10 + v) (S n) l'
  | IUnderscore :: l' =>
      if after_digit then
        match l' with
        | IDigit _ :: _ => digits_value false acc n l'
        | _ => None
        end
      else None
  | ISpace :: l' =>
      if after_digit then
        match drop_spaces l' with
        | [] => Some (acc, n)
        | _ => None
        end
      else None
  | _ => None
  end.

(** [int(s)] on a [str]: white space around, a sign, decimal digits of any
    script with single underscores between them; more than 4300 digits are
    refused (the default of [sys.get_int_max_str_digits()]). *)
Definition int_ (s : string) : Outcome Z :=
  let l := drop_spaces (map int_char (chars s)) in
  let '(negative, l') :=
    match l with
    | ISign negative :: l' => (negative, l')
    | _ => (false, l)
    end in
  match digits_value false 0 0 l' with
  | Some (v, n) =>
      if (n <=? 4300)%nat then Returned (if negative then (- v)%Z else v)
      else Raised ValueError
  | None => Raised ValueError
  end.

(** A naive [datetime.datetime]; the microsecond is always 0 in this
    program. *)
Record datetime := mkDatetime {
  year : Z; month : Z; day : Z; hour : Z; minute : Z; second : Z
}.

Definition is_leap (y : Z) : bool :=
  ((y mod 4 =? 0) && (negb (y mod 100 =? 0) || (y mod 400 =? 0)))%Z.

Definition days_in_month (y m : Z) : Z :=
  if (m =? 2)%Z then (if is_leap y then 29 else 28)
  else if ((m =? 4) || (m =? 6) || (m =? 9) || (m =? 11))%Z then 30
  else 31.

(** The range checks of the [date] constructor. *)
Definition valid_date (y m d : Z) : bool :=
  ((1 <=? y) && (y <=? 9999) && (1 <=? m) && (m <=? 12) &&
   (1 <=? d) && (d <=? days_in_month y m))%Z.

(** The range checks of the time fields. *)
Definition valid_time (h mi s : Z) : bool :=
  ((0 <=? h) && (h <=? 23) && (0 <=? mi) && (mi <=? 59) &&
   (0 <=? s) && (s <=? 59))%Z.

(** [datetime(year, month, day, hour, minute, second)] *)
Definition datetime_ (y m d h mi s : Z) : Outcome datetime :=
  if valid_date y m d && valid_time h mi s
  then Returned (mkDatetime y m d h mi s)
  else Raised ValueError.

(** Comparison of naive datetimes: lexicographic on the fields. *)
Definition datetime_key (a : datetime) : list Z :=
  [year a; month a; day a; hour a; minute a; second a].

Fixpoint lex_compare (a b : list Z) : comparison :=
  match a, b with
  | [], [] => Eq
  | [], _ :: _ => Lt
  | _ :: _, [] => Gt
  | x :: a', y :: b' =>
      match (x ?= y)%Z with
      | Eq => lex_compare a' b'
      | c => c
      end
  end.

Definition datetime_compare (a b : datetime) : comparison :=
  lex_compare (datetime_key a) (datetime_key b).

(** [a >= b] *)
Definition datetime_ge (a b : datetime) : bool :=
  match datetime_compare a b with
  | Lt => false
  | _ => true
  end.

(** [a < b] *)
Definition datetime_lt (a b : datetime) : bool :=
  match datetime_compare a b with
  | Lt => true
  | _ => false
  end.

(** ** Regular expressions: the fragment of [re] the program uses *)

Inductive regex :=
| Chr (c : ascii)                 (** a literal ASCII character *)
| Cls (lo hi : ascii)             (** [[lo-hi]] for ASCII [lo] and [hi] *)
| Dec                             (** [\d]: a decimal digit of any script *)
| Eps                             (** the empty pattern *)
| Cat (r1 r2 : regex)             (** [r1 r2] *)
| Alt (r1 r2 : regex)             (** [r1|r2], the left branch first *)
| Grp (name : string) (r : regex) (** a capturing group *).

Definition digit : regex := Dec.

(** [r?], greedy. *)
Definition opt (r : regex) : regex := Alt r Eps.

(** [r{n}] *)
Fixpoint rep (n : nat) (r : regex) : regex :=
  match n with
  | O => Eps
  | S O => r
  | S n' => Cat r (rep n' r)
  end.

Definition chr_matches (ignorecase : bool) (c c' : ascii) : bool :=
  if ignorecase then Ascii.eqb (lower c) (lower c') else Ascii.eqb c c'.

(** The text a sub-match consumed: what [s] has in front of its suffix
    [rest]. *)
Definition consumed (s rest : string) : string :=
  substring 0 (String.length s - String.length rest) s.

(** The backtracking matcher, in continuation-passing style: [k] receives
    the rest of the subject and the groups captured so far; a [None] from [k]
    makes the matcher try its next alternative, in the priority order of
    [re]. *)
Fixpoint rmatch {A} (ignorecase : bool) (r : regex) (s : string)
    (groups : list (string * string))
    (k : string -> list (string * string) -> option A) : option A :=
  match r with
  | Chr c =>
      match s with
      | String c' s' => if chr_matches ignorecase c c' then k s' groups else None
      | EmptyString => None
      end
  | Cls lo hi =>
      match s with
      | String c' s' => if in_range lo hi c' then k s' groups else None
      | EmptyString => None
      end
  | Dec =>
      match next_char s with
      | Some (t, s') => if is_decimal t then k s' groups else None
      | None => None
      end
  | Eps => k s groups
  | Cat r1 r2 =>
      rmatch ignorecase r1 s groups
        (fun s' groups' => rmatch ignorecase r2 s' groups' k)
  | Alt r1 r2 =>
      match rmatch ignorecase r1 s groups k with
      | Some x => Some x
      | None => rmatch ignorecase r2 s groups k
      end
  | Grp name r1 =>
      rmatch ignorecase r1 s groups
        (fun s' groups' => k s' (groups' ++ [(name, consumed s s')])%list)
  end.

(** A match object: the unmatched rest of the subject (so that [end()] is
    the length of the subject minus the length of [rest]) and the groups in
    the order they closed. *)
Record Match := mkMatch {
  rest : string;
  groups : list (string * string)
}.

(** [re.match(r, s)] *)
Definition re_match (ignorecase : bool) (r : regex) (s : string)
    : option Match :=
  rmatch ignorecase r s [] (fun s' g => Some (mkMatch s' g)).

(** [re.search(r, s)]: the match at the leftmost position that has one. *)
Fixpoint re_search (r : regex) (s : string) : option Match :=
  match re_match false r s with
  | Some m => Some m
  | None =>
      match s with
      | EmptyString => None
      | String _ s' => re_search r s'
      end
  end.

(** [m.group(name)] for a group that took part in the match. *)
Fixpoint group (name : string) (g : list (string * string)) : option string :=
  match g with
  | [] => None
  | (n, v) :: g' => if String.eqb name n then Some v else group name g'
  end.

(** ** [datetime.strptime], after CPython's [_strptime.py] *)

Module TimeRE.

(** The regular expression of a directive ([TimeRE.__init__]). *)
Definition directive (c : ascii) : option regex :=
  if Ascii.eqb c "d" then
    (* (?P<d>3[0-1]|[1-2]\d|0[1-9]|[1-9]| [1-9]) *)
    Some (Grp "d" (Alt (Cat (Chr "3") (Cls "0" "1"))
                  (Alt (Cat (Cls "1" "2") digit)
                  (Alt (Cat (Chr "0") (Cls "1" "9"))
                  (Alt (Cls "1" "9")
                       (Cat (Chr " ") (Cls "1" "9")))))))
  else if Ascii.eqb c "H" then
    (* (?P<H>2[0-3]|[0-1]\d|\d) *)
    Some (Grp "H" (Alt (Cat (Chr "2") (Cls "0" "3"))
                  (Alt (Cat (Cls "0" "1") digit)
                       digit)))
  else if Ascii.eqb c "m" then
    (* (?P<m>1[0-2]|0[1-9]|[1-9]) *)
    Some (Grp "m" (Alt (Cat (Chr "1") (Cls "0" "2"))
                  (Alt (Cat (Chr "0") (Cls "1" "9"))
                       (Cls "1" "9"))))
  else if Ascii.eqb c "M" then
    (* (?P<M>[0-5]\d|\d) *)
    Some (Grp "M" (Alt (Cat (Cls "0" "5") digit) digit))
  else if Ascii.eqb c "S" then
    (* (?P<S>6[0-1]|[0-5]\d|\d) *)
    Some (Grp "S" (Alt (Cat (Chr "6") (Cls "0" "1"))
                  (Alt (Cat (Cls "0" "5") digit)
                       digit)))
  else if Ascii.eqb c "Y" then
    (* (?P<Y>\d\d\d\d) *)
    Some (Grp "Y" (rep 4 digit))
  else None.

(** [TimeRE.pattern]: directives become their expressions, every other
    character of the format stands for itself. White space in a format
    (which [pattern] turns into [\s+]) and the directives this program never
    uses are rejected. *)
Fixpoint pattern (format : string) : option regex :=
  match format with
  | EmptyString => Some Eps
  | String c format' =>
      if Ascii.eqb c "%" then
        match format' with
        | EmptyString => None
        | String d format'' =>
            match directive d, pattern format'' with
            | Some r, Some r' => Some (Cat r r')
            | _, _ => None
            end
        end
      else if is_space c then None
      else
        match pattern format' with
        | Some r' => Some (Cat (Chr c) r')
        | None => None
        end
  end.

End TimeRE.

(** The integer value of a group, or [dflt] when the format has no such
    directive. *)
Definition group_int (name : string) (g : list (string * string)) (dflt : Z)
    : Outcome Z :=
  match group name g with
  | Some v => int_ v
  | None => Returned dflt
  end.

(** [datetime.strptime(data_string, format)]: the format's expression is
    matched, ignoring case, at the start of the string; text left over is an
    error; the fields are converted and the date is validated. *)
Definition strptime (data_string format : string) : Outcome datetime :=
  match TimeRE.pattern format with
  | None => Raised ValueError
  | Some format_regex =>
      match re_match true format_regex data_string with
      | None => Raised ValueError
      | Some found =>
          match rest found with
          | String _ _ => Raised ValueError
          | EmptyString =>
              let g := groups found in
              try* m := group_int "m" g 1 in
              try* d := group_int "d" g 1 in
              try* h := group_int "H" g 0 in
              try* mi := group_int "M" g 0 in
              try* s := group_int "S" g 0 in
              try* y := group_int "Y" g
                          (if ((m =? 2) && (d =? 29))%Z then 1904 else 1900) in
              datetime_ y m d h mi s
          end
      end
  end.

(** ** String methods *)

(** [s.split(sep)[0]] for a one-character separator. *)
Fixpoint split_head (sep : ascii) (s : string) : string :=
  match s with
  | EmptyString => EmptyString
  | String c s' => if Ascii.eqb c sep then EmptyString
                   else String c (split_head sep s')
  end.

(** [s.replace(old, new)] for a non-empty [old]; [skip] counts the
    characters of an occurrence still to be dropped. *)
Fixpoint replace_from (skip : nat) (old new s : string) : string :=
  match s with
  | EmptyString => EmptyString
  | String c s' =>
      match skip with
      | S n => replace_from n old new s'
      | O =>
          if String.prefix old s
          then new ++ replace_from (String.length old - 1) old new s'
          else String c (replace_from 0 old new s')
      end
  end.

Definition replace (old new s : string) : string := replace_from 0 old new s.

(** [s[i:j]] for [0 <= i <= j]: the characters from the [i]-th to the one
    before the [j]-th. *)
Definition slice (i j : nat) (s : string) : string :=
  text (take (j - i) (drop i (chars s))).

(** ** scraper.py *)

Module URLScraper.

Definition USER_AGENTS : list string :=
  [ "Mozilla/5.0 (Windows NT 10.0; Win64; x64) AppleWebKit/537.36 (KHTML, like Gecko) Chrome/120.0.0.0 Safari/537.36";
    "Mozilla/5.0 (Macintosh; Intel Mac OS X 10_15_7) AppleWebKit/537.36 (KHTML, like Gecko) Chrome/120.0.0.0 Safari/537.36";
    "Mozilla/5.0 (X11; Linux x86_64) AppleWebKit/537.36 (KHTML, like Gecko) Chrome/120.0.0.0 Safari/537.36";
    "Mozilla/5.0 (Windows NT 10.0; Win64; x64; rv:109.0) Gecko/20100101 Firefox/121.0" ].

(** The fields of a scraper. The session is part of the world: its retry
    adapter acts inside one [session.get]. *)
Record t := mk {
  timeout : Z;
  max_retries : Z;
  filter_date : datetime
}.

(** [datetime(2025, 1, 14)] *)
Definition default_filter_date : datetime := mkDatetime 2025 1 14 0 0 0.

(** [_parse_filter_date] *)
Definition _parse_filter_date (date_str : string) : Outcome datetime :=
  catch (strptime date_str "%Y-%m-%d")
    (fun e =>
       match e with
       | ValueError => datetime_ 2025 1 14 0 0 0
       | _ => Raised e
       end).

(** [__init__] *)
Definition init (timeout_ max_retries_ : Z) (filter_date_ : string)
    : Outcome t :=
  try* d := _parse_filter_date filter_date_ in
  Returned (mk timeout_ max_retries_ d).

(** [random.choice(self.USER_AGENTS)] *)
Definition random_choice_user_agent : M string :=
  fun w =>
    (Returned (nth (env_choice (env w) (draws w) mod length USER_AGENTS)
                   USER_AGENTS ""),
     mkWorld (env w) (files w) (clock_reads w) (requests w) (S (draws w))
             (trace w)).

(** [self.session.get(url, ...)], [raise_for_status()] and
    [response.text]. *)
Definition session_get (url user_agent : string) : M string :=
  fun w =>
    (env_http (env w) (requests w) url user_agent,
     mkWorld (env w) (files w) (clock_reads w) (S (requests w)) (draws w)
             (trace w ++ [EvRequest url user_agent])).

(** The body of [fetch_url], with [self_fetch_url] for the recursive
    call. *)
Definition fetch_url_body (self_fetch_url : string -> bool -> M (option string))
    (url : string) (use_random_ua : bool) : M (option string) :=
  try_except
    (let* user_agent :=
       (if use_random_ua then random_choice_user_agent
        else ret (nth 0 USER_AGENTS "")) in
     let* text := session_get url user_agent in
     ret (Some text))
    (fun e =>
       match e with
       | HTTPError status_code =>
           if (status_code =? 403)%Z then
             if negb use_random_ua then
               time_sleep 2 ;;
               self_fetch_url url true
             else ret None
           else ret None
       | Timeout => ret None
       | RequestException => ret None
       | _ => raise e
       end).

(** [fetch_url], by recursion on a bound of the call depth; at depth zero
    the interpreter would give up. *)
Fixpoint fetch_url_depth (depth : nat) (url : string) (use_random_ua : bool)
    : M (option string) :=
  match depth with
  | O => raise OtherException
  | S depth' => fetch_url_body (fetch_url_depth depth') url use_random_ua
  end.

(** [fetch_url]: two nested calls are all that is ever needed (see
    [fetch_url_depth_enough]). *)
Definition fetch_url (url : string) (use_random_ua : bool)
    : M (option string) :=
  fetch_url_depth 2 url use_random_ua.

(** [datetime(int(year), int(month), int(day))] *)
Definition datetime_of_strings (y m d : string) : Outcome datetime :=
  try* y' := int_ y in
  try* m' := int_ m in
  try* d' := int_ d in
  datetime_ y' m' d' 0 0 0.

(** [r'/(\d{4})/(\d{1,2})/(\d{1,2})/'] *)
Definition pattern1 : regex :=
  Cat (Chr "/") (Cat (Grp "1" (rep 4 digit))
 (Cat (Chr "/") (Cat (Grp "2" (Cat digit (opt digit)))
 (Cat (Chr "/") (Cat (Grp "3" (Cat digit (opt digit)))
      (Chr "/")))))).

(** [r'/(\d{4})-(\d{2})-(\d{2})'] *)
Definition pattern2 : regex :=
  Cat (Chr "/") (Cat (Grp "1" (rep 4 digit))
 (Cat (Chr "-") (Cat (Grp "2" (rep 2 digit))
 (Cat (Chr "-") (Grp "3" (rep 2 digit)))))).

(** [r'/(\d{8})'] *)
Definition pattern3 : regex :=
  Cat (Chr "/") (Grp "1" (rep 8 digit)).

(** The [try] block under pattern 1 and pattern 2:
    [year, month, day = match.groups()] and the constructor. *)
Definition date_of_groups (m : Match) : Outcome datetime :=
  match groups m with
  | [(_, y); (_, mo); (_, d)] => datetime_of_strings y mo d
  | _ => Raised ValueError
  end.

(** The [try] block under pattern 3. *)
Definition date_of_digits (m : Match) : Outcome datetime :=
  match group "1" (groups m) with
  | Some date_str =>
      try* y := int_ (slice 0 4 date_str) in
      try* mo := int_ (slice 4 6 date_str) in
      try* d := int_ (slice 6 8 date_str) in
      datetime_ y mo d 0 0 0
  | None => Raised IndexError
  end.

(** [if match: try: ... return d  except classes: pass]: the date, or
    [None] to go on with what follows; an exception outside [classes]
    propagates. *)
Definition attempt (m : option Match) (body : Match -> Outcome datetime)
    (caught : Exn -> bool) : Outcome (option datetime) :=
  match m with
  | None => Returned None
  | Some found =>
      match body found with
      | Returned d => Returned (Some d)
      | Raised e => if caught e then Returned None else Raised e
      end
  end.

Definition is_ValueError (e : Exn) : bool :=
  match e with ValueError => true | _ => false end.

Definition is_ValueError_or_IndexError (e : Exn) : bool :=
  match e with ValueError | IndexError => true | _ => false end.

(** [_extract_date_from_url] *)
Definition _extract_date_from_url (url : string) : Outcome (option datetime) :=
  try* r1 := attempt (re_search pattern1 url) date_of_groups is_ValueError in
  match r1 with
  | Some d => Returned (Some d)
  | None =>
      try* r2 := attempt (re_search pattern2 url) date_of_groups
                   is_ValueError in
      match r2 with
      | Some d => Returned (Some d)
      | None =>
          try* r3 := attempt (re_search pattern3 url) date_of_digits
                       is_ValueError_or_IndexError in
          match r3 with
          | Some d => Returned (Some d)
          | None => Returned None
          end
      end
  end.

(** The formats of [_parse_sitemap_date]. *)
Definition formats : list string :=
  [ "%Y-%m-%dT%H:%M:%S%z"; "%Y-%m-%dT%H:%M:%S"; "%Y-%m-%d" ].

(** The loop of [_parse_sitemap_date] over the formats. *)
Fixpoint parse_loop (lastmod : string) (fmts : list string)
    : Outcome (option datetime) :=
  match fmts with
  | [] => Returned None
  | fmt :: fmts' =>
      let cleaned := split_head "Z" (split_head "+" lastmod) in
      match strptime cleaned (replace "%z" "" fmt) with
      | Returned d => Returned (Some d)
      | Raised ValueError => parse_loop lastmod fmts'
      | Raised e => Raised e
      end
  end.

(** [_parse_sitemap_date] *)
Definition _parse_sitemap_date (lastmod : string) : Outcome (option datetime) :=
  match lastmod with
  | EmptyString => Returned None
  | _ => parse_loop lastmod formats
  end.

(** Truth value of an optional string: [None] and [''] are false. *)
Definition truthy (s : option string) : bool :=
  match s with
  | None | Some EmptyString => false
  | Some _ => true
  end.

(** [_filter_url_by_date] *)
Definition _filter_url_by_date (self : t) (url : string)
    (lastmod : option string) : Outcome bool :=
  try* by_lastmod :=
    (match lastmod with
     | Some l =>
         if truthy lastmod then
           try* date := _parse_sitemap_date l in
           match date with
           | Some d => Returned (Some (datetime_ge d (filter_date self)))
           | None => Returned None
           end
         else Returned None
     | None => Returned None
     end) in
  match by_lastmod with
  | Some is_valid => Returned is_valid
  | None =>
      try* date := _extract_date_from_url url in
      match date with
      | Some d => Returned (datetime_ge d (filter_date self))
      | None => Returned true
      end
  end.

(** The loop of [parse_xml_sitemap] over the [<url>] tags. An exception
    ends it; the [except] clause of the caller keeps the URLs appended so
    far. *)
Fixpoint sitemap_loop (self : t)
    (url_tags : list (option string * option string)) (urls_ : list string)
    : list string :=
  match url_tags with
  | [] => urls_
  | (None, _) :: tags' => sitemap_loop self tags' urls_
  | (Some url, lastmod) :: tags' =>
      match _filter_url_by_date self url lastmod with
      | Returned true => sitemap_loop self tags' (urls_ ++ [url])
      | Returned false => sitemap_loop self tags' urls_
      | Raised _ => urls_
      end
  end.

(** [parse_xml_sitemap] *)
Definition parse_xml_sitemap (self : t) (xml_content source_name : string)
    : M (list string) :=
  let* w := get_world in
  match env_sitemap (env w) xml_content with
  | Returned url_tags => ret (sitemap_loop self url_tags [])
  | Raised _ => ret []
  end.

(** The loop of [parse_html_links] over the links: the URLs appended, and
    whether the loop ran to its end. *)
Fixpoint links_loop (self : t) (e : Env) (base_url : string)
    (hrefs : list string) (urls_ : list string) : list string * bool :=
  match hrefs with
  | [] => (urls_, true)
  | href :: hrefs' =>
      match env_urljoin e base_url href with
      | Raised _ => (urls_, false)
      | Returned absolute_url =>
          match env_netloc e absolute_url, env_netloc e base_url with
          | Returned n1, Returned n2 =>
              if String.eqb n1 n2 then
                match _filter_url_by_date self absolute_url None with
                | Returned true =>
                    links_loop self e base_url hrefs' (urls_ ++ [absolute_url])
                | Returned false => links_loop self e base_url hrefs' urls_
                | Raised _ => (urls_, false)
                end
              else links_loop self e base_url hrefs' urls_
          | _, _ => (urls_, false)
          end
      end
  end.

(** [parse_html_links] *)
Definition parse_html_links (self : t)
    (html_content base_url source_name : string) : M (list string) :=
  let* w := get_world in
  match env_hrefs (env w) html_content with
  | Returned hrefs =>
      match links_loop self (env w) base_url hrefs [] with
      | (urls_, true) => ret (env_list_set (env w) urls_)
      | (urls_, false) => ret urls_
      end
  | Raised _ => ret []
  end.

(** [if content:] *)
Definition has_content (content : option string) : option string :=
  match content with
  | Some (String c s) => Some (String c s)
  | _ => None
  end.

(** [scrape_dexpose] *)
Definition scrape_dexpose (self : t) : M (list string) :=
  let url := "https://dexpose.io/sitemap-0.xml" in
  let* content := fetch_url url false in
  match has_content content with
  | Some text => parse_xml_sitemap self text "dexpose.io"
  | None => ret []
  end.

(** [scrape_ransomware_live] *)
Definition scrape_ransomware_live (self : t) : M (list string) :=
  let url := "https://www.ransomware.live/sitemap.xml" in
  let* content := fetch_url url false in
  match has_content content with
  | Some text => parse_xml_sitemap self text "ransomware.live"
  | None => ret []
  end.

(** [scrape_redpacket_security] *)
Definition scrape_redpacket_security (self : t) : M (list string) :=
  let url := "https://www.redpacketsecurity.com/" in
  let* content := fetch_url url true in
  match has_content content with
  | Some text => parse_html_links self text url "redpacketsecurity.com"
  | None => ret []
  end.

(** The list [sources] of [scrape_all_sources]. *)
Definition sources (self : t) : list (string * M (list string)) :=
  [ ("dexpose.io", scrape_dexpose self);
    ("ransomware.live", scrape_ransomware_live self);
    ("redpacketsecurity.com", scrape_redpacket_security self) ].

(** The loop of [scrape_all_sources], with the dictionary [results] built
    so far. *)
Fixpoint scrape_loop (srcs : list (string * M (list string)))
    (results : list (string * list string))
    : M (list (string * list string)) :=
  match srcs with
  | [] => ret results
  | (source_name, scrape_func) :: srcs' =>
      let* results' :=
        try_except
          (let* urls_ := scrape_func in
           let results' := dict_set source_name urls_ results in
           time_sleep 2 ;;
           ret results')
          (fun e => ret (dict_set source_name [] results)) in
      scrape_loop srcs' results'
  end.

(** [scrape_all_sources] *)
Definition scrape_all_sources (self : t) : M (list (string * list string)) :=
  scrape_loop (sources self) [].

End URLScraper.

(** [main], from the construction of the components to the update of the
    stores: the report [new_urls] and its total. *)
Definition main_pipeline (storage_base_dir : string) (timeout max_retries : Z)
    (filter_date : string) : M (list (string * list string) * nat) :=
  let* storage := MultiSourceStorage.init storage_base_dir in
  let* scraper := lift (URLScraper.init timeout max_retries filter_date) in
  let* all_urls := URLScraper.scrape_all_sources scraper in
  main_dedup all_urls storage.

(** ** Observations used in the statements *)

(** The document [_load_data] reads from a storage file in a world. *)
Definition stored (w : World) (storage_path : string) : StoreData :=
  match URLStorage._load_data storage_path w with
  | (Returned d, _) => d
  | (Raised _, _) => URLStorage.empty_data
  end.

(** What [get_seen_urls_for_source] answers in a world (the empty set when it
    raises). *)
Definition seen (w : World) (storage : MultiSourceStorage.t) (src : string)
    : gset string :=
  match MultiSourceStorage.get_seen_urls_for_source storage src w with
  | (Returned s, _) => s
  | (Raised _, _) => ∅
  end.

(** The value a report holds for a source; a source without entry has no
    URLs. *)
Definition report_urls (report : list (string * list string)) (src : string)
    : list string :=
  match MultiSourceStorage.dict_get src report with
  | Some l => l
  | None => []
  end.

(** Two worlds in which every storage file reads the same and everything
    but the files is equal. *)
Definition same_stores (w w' : World) : Prop :=
  (forall q, stored w' q = stored w q) /\
  env w' = env w /\ clock_reads w' = clock_reads w /\
  requests w' = requests w /\ draws w' = draws w /\ trace w' = trace w.

(** Two worlds in which every storage file reads the same. *)
Definition same_reading (w w' : World) : Prop :=
  forall q, stored w' q = stored w q.

(** The storage object [MultiSourceStorage(base_dir)] builds. *)
Definition storage_at (base_dir : string) : MultiSourceStorage.t :=
  MultiSourceStorage.mk base_dir
    [ ("dexpose.io",
       MultiSourceStorage.path_join base_dir "dexpose_urls.json");
      ("ransomware.live",
       MultiSourceStorage.path_join base_dir "ransomware_live_urls.json");
      ("redpacketsecurity.com",
       MultiSourceStorage.path_join base_dir "redpacket_security_urls.json") ].

(** The sources that have a store. *)
Definition known_sources : list string :=
  map fst MultiSourceStorage.storage_files.

(** ** The date rules of the specification, as scanners

    The rules of section 4.3 written without regular expressions, to be
    compared with what the code does. *)

(** The longest run of at most [n] decimal digits [s] starts with, one
    character each, and what follows it. A digit is a decimal digit of any
    script, as [\d] has it. *)
Fixpoint take_digits (n : nat) (s : string) : list string * string :=
  match n with
  | O => ([], s)
  | S n' =>
      match next_char s with
      | Some (t, r) =>
          if is_decimal t
          then let (ds, r') := take_digits n' r in (t :: ds, r')
          else ([], s)
      | None => ([], s)
      end
  end.

(** Between [lo] and [hi] digits, as many as there are. *)
Definition digits_then (lo hi : nat) (s : string)
    : option (list string * string) :=
  let (ds, r) := take_digits hi s in
  if (lo <=? length ds)%nat then Some (ds, r) else None.

(** The character [c], then the rest. *)
Definition expect (c : ascii) (s : string) : option string :=
  match s with
  | String c' s' => if Ascii.eqb c c' then Some s' else None
  | EmptyString => None
  end.

(** [s] starts with [/YYYY/MM/DD/], month and day of one or two digits:
    the digits of the year, of the month and of the day. *)
Definition segment_at (s : string)
    : option (list string * list string * list string) :=
  s1 ← expect "/" s;
  '(y, s2) ← digits_then 4 4 s1;
  s3 ← expect "/" s2;
  '(m, s4) ← digits_then 1 2 s3;
  s5 ← expect "/" s4;
  '(d, s6) ← digits_then 1 2 s5;
  _ ← expect "/" s6;
  Some (y, m, d).

(** [s] starts with [/YYYY-MM-DD]. *)
Definition dashed_at (s : string)
    : option (list string * list string * list string) :=
  s1 ← expect "/" s;
  '(y, s2) ← digits_then 4 4 s1;
  s3 ← expect "-" s2;
  '(m, s4) ← digits_then 2 2 s3;
  s5 ← expect "-" s4;
  '(d, _) ← digits_then 2 2 s5;
  Some (y, m, d).

(** [s] starts with [/YYYYMMDD]. *)
Definition compact_at (s : string)
    : option (list string * list string * list string) :=
  s1 ← expect "/" s;
  '(ds, _) ← digits_then 8 8 s1;
  Some (take 4 ds, take 2 (drop 4 ds), drop 6 ds).

(** The groups a match of one of the first two patterns holds. *)
Definition groups_of (ymd : list string * list string * list string)
    : list (string * string) :=
  let '(y, m, d) := ymd in [("1", text y); ("2", text m); ("3", text d)].

(** The first position of [s], from the left, at which [rule] applies. *)
Fixpoint leftmost {A} (rule : string -> option A) (s : string) : option A :=
  match rule s with
  | Some x => Some x
  | None =>
      match s with
      | EmptyString => None
      | String _ s' => leftmost rule s'
      end
  end.

(** The number a list of digits writes, read after [acc]. *)
Fixpoint number_from (acc : Z) (ds : list string) : Z :=
  match ds with
  | [] => acc
  | t :: ds' => number_from (acc * 10 + default 0%Z (decimal t)) ds'
  end.

Definition number (ds : list string) : Z := number_from 0 ds.

(** The day the three numbers name, when there is such a day. *)
Definition calendar_date (ymd : list string * list string * list string)
    : option datetime :=
  let '(y, m, d) := ymd in
  if valid_date (number y) (number m) (number d)
  then Some (mkDatetime (number y) (number m) (number d) 0 0 0)
  else None.

(** Continuation bytes only. *)
Fixpoint all_continuation (s : string) : bool :=
  match s with
  | EmptyString => true
  | String c s' => is_continuation c && all_continuation s'
  end.

(** One character that is a decimal digit. *)
Definition digit_char (t : string) : bool :=
  is_decimal t &&
  match t with
  | String c t' => negb (is_continuation c) && all_continuation t'
  | EmptyString => false
  end.

(** One rule: its leftmost occurrence in the URL, if that is a calendar
    date. *)
Definition url_rule
    (rule : string -> option (list string * list string * list string))
    (url : string) : option datetime :=
  leftmost rule url ≫= calendar_date.

(** The rules in their order; a rule that does not give a date hands over
    to the next one. *)
Definition url_date (url : string) : option datetime :=
  match url_rule segment_at url with
  | Some d => Some d
  | None =>
      match url_rule dashed_at url with
      | Some d => Some d
      | None => url_rule compact_at url
      end
  end.

(** ** The last-modified hint by the rule of the specification

    Section 4.3, rule 1: the hint is parsed as a full timestamp with a zone
    offset, as a full timestamp without one, or as a bare calendar date;
    a zone suffix is stripped before parsing. The zone suffixes are those
    of the timestamps a sitemap holds: [Z], [+hh:mm] and [-hh:mm]. *)

Definition zone_suffix (z : string) : bool :=
  match z with
  | String c EmptyString => Ascii.eqb c "Z"
  | String sg (String h1 (String h2 (String colon (String m1
      (String m2 EmptyString))))) =>
      (Ascii.eqb sg "+" || Ascii.eqb sg "-") && Ascii.eqb colon ":" &&
      is_digit h1 && is_digit h2 && is_digit m1 && is_digit m2
  | _ => false
  end.

(** The hint without the zone suffix it ends with, if it ends with one. *)
Fixpoint strip_zone (s : string) : string :=
  if zone_suffix s then EmptyString
  else match s with
       | EmptyString => EmptyString
       | String c s' => String c (strip_zone s')
       end.

(** A text read in a format, when it can be. *)
Definition parsed (s format : string) : option datetime :=
  match strptime s format with
  | Returned d => Some d
  | Raised _ => None
  end.

Definition spec_hint_date (hint : option string) : option datetime :=
  match hint with
  | Some h =>
      match parsed (strip_zone h) "%Y-%m-%dT%H:%M:%S" with
      | Some d => Some d
      | None => parsed (strip_zone h) "%Y-%m-%d"
      end
  | None => None
  end.

(** The derived date of a candidate by the precedence of section 4.3: the
    hint by rule 1, else the URL by rule 2. *)
Definition spec_derived_date (url : string) (hint : option string)
    : option datetime :=
  match spec_hint_date hint with
  | Some d => Some d
  | None => url_date url
  end.

(** ** The date the code compares

    What [_filter_url_by_date] derives: the date [_parse_sitemap_date]
    reads from the hint, else the date of the URL. These two definitions
    serve the proofs about the code; they are no reading of the
    specification. *)
Definition parsed_hint (lastmod : option string) : option datetime :=
  match lastmod with
  | Some l =>
      match URLScraper._parse_sitemap_date l with
      | Returned (Some d) => Some d
      | _ => None
      end
  | None => None
  end.

Definition compared_date (url : string) (lastmod : option string)
    : option datetime :=
  match parsed_hint lastmod with
  | Some d => Some d
  | None => url_date url
  end.

(** [d] is strictly before [D]. *)
Definition before (d D : datetime) : Prop := datetime_compare d D = Lt.

(** [d] is [D] or later. *)
Definition not_before (d D : datetime) : Prop := datetime_compare d D <> Lt.

(** ** Fetched content

    What a run scrapes when the peer gives, for each URL, one answer to
    every request. *)

(** What [fetch_url] makes of that answer. *)
Definition fetch_result (resp : Outcome string) : Outcome (option string) :=
  match resp with
  | Returned text => Returned (Some text)
  | Raised (HTTPError _) => Returned None
  | Raised Timeout => Returned None
  | Raised RequestException => Returned None
  | Raised e => Raised e
  end.

(** The URLs [parse_xml_sitemap] returns for a document. *)
Definition sitemap_urls (e : Env) (self : URLScraper.t) (xml_content : string)
    : list string :=
  match env_sitemap e xml_content with
  | Returned url_tags => URLScraper.sitemap_loop self url_tags []
  | Raised _ => []
  end.

(** The URLs [parse_html_links] returns for a document. *)
Definition links_urls (e : Env) (self : URLScraper.t)
    (html_content base_url : string) : list string :=
  match env_hrefs e html_content with
  | Returned hrefs =>
      match URLScraper.links_loop self e base_url hrefs [] with
      | (urls_, true) => env_list_set e urls_
      | (urls_, false) => urls_
      end
  | Raised _ => []
  end.

(** The entry of a source in the results: the URLs parsed from the
    content fetched, nothing when the fetch gave no content or raised. *)
Definition source_entry (resp : Outcome string) (parse : string -> list string)
    : list string :=
  match fetch_result resp with
  | Returned content =>
      match URLScraper.has_content content with
      | Some text => parse text
      | None => []
      end
  | Raised _ => []
  end.

(** The results of [scrape_all_sources] for the content an environment
    serves. *)
Definition content_results (e : Env) (self : URLScraper.t)
    : list (string * list string) :=
  [ ("dexpose.io",
     source_entry (env_http e 0 "https://dexpose.io/sitemap-0.xml" "")
       (sitemap_urls e self));
    ("ransomware.live",
     source_entry (env_http e 0 "https://www.ransomware.live/sitemap.xml" "")
       (sitemap_urls e self));
    ("redpacketsecurity.com",
     source_entry (env_http e 0 "https://www.redpacketsecurity.com/" "")
       (fun text => links_urls e self text
                      "https://www.redpacketsecurity.com/")) ].

(** [e'] serves the content [e] serves: each URL has one answer, the same
    in both and whatever the request number and the identity; the parsers
    read a document alike; a set is enumerated in any order. Clock and
    random draws are free. *)
Definition same_content (e e' : Env) : Prop :=
  (forall n m url ua ua', env_http e n url ua = env_http e' m url ua') /\
  (forall x, env_sitemap e' x = env_sitemap e x) /\
  (forall x, env_hrefs e' x = env_hrefs e x) /\
  (forall b h, env_urljoin e' b h = env_urljoin e b h) /\
  (forall u, env_netloc e' u = env_netloc e u) /\
  (forall l u, u ∈ env_list_set e' l -> u ∈ env_list_set e l).

(** ** Sample worlds *)

(** A clock that ticks once a day, a peer that answers every request with an
    empty sitemap body, and parsers that find nothing. *)
Definition sample_env : Env :=
  mkEnv (fun n => match n with
                  | 0 => "2025-01-15T08:00:00"
                  | 1 => "2025-01-16T08:00:00"
                  | _ => "2025-01-17T08:00:00"
                  end)
        (fun _ _ _ => Returned "<urlset/>")
        (fun _ => 0)
        (fun _ => Returned [])
        (fun _ => Returned [])
        (fun base href => Returned href)
        (fun url => Returned "")
        (fun l => l).

Definition world_of (e : Env) (f : gmap string File) : World :=
  mkWorld e f 0 0 0 [].

(** A store of [dexpose.io] that has seen one URL on 2025-01-10. *)
Definition one_url_store : gmap string File :=
  {[ "data/dexpose_urls.json" :=
       Json (mkData {[ "https://dexpose.io/a" :=
                         mkSeen "2025-01-10T08:00:00" "dexpose.io" ]}
                    (Some "2025-01-10T08:00:00")) ]}.

(** A peer that serves two sitemaps and a page, and parsers that read
    them: the first sitemap has an entry before the cutoff, one after it and
    one without date; the page has a link twice. *)
Definition content_env : Env :=
  mkEnv (env_now sample_env)
        (fun _ url _ =>
           if String.eqb url "https://dexpose.io/sitemap-0.xml"
           then Returned "sitemap of dexpose"
           else if String.eqb url "https://www.ransomware.live/sitemap.xml"
           then Raised (HTTPError 403)
           else Returned "page of redpacket")
        (fun _ => 1)
        (fun xml_content =>
           if String.eqb xml_content "sitemap of dexpose"
           then Returned
                  [ (Some "https://dexpose.io/one", Some "2025-01-10");
                    (Some "https://dexpose.io/two", Some "2025-01-15T08:00:00Z");
                    (Some "https://dexpose.io/three", None) ]
           else Returned [])
        (fun _ => Returned ["/2025/02/01/a"; "/2025/02/01/a"])
        (fun base href => Returned (base ++ href))
        (fun _ => Returned "www.redpacketsecurity.com")
        (fun l => remove_dups l).

(** A store of [dexpose.io] that has seen a URL of another site. *)
Definition shared_url_store : gmap string File :=
  {[ "data/dexpose_urls.json" :=
       Json (mkData {[ "https://leaks.example/x" :=
                         mkSeen "2025-01-10T08:00:00" "dexpose.io" ]}
                    (Some "2025-01-10T08:00:00")) ]}.

(** What a run scraped: two URLs under [dexpose.io], one of them also under
    [ransomware.live]. *)
Definition sample_scraped : list (string * list string) :=
  [ ("dexpose.io", ["https://dexpose.io/a"; "https://dexpose.io/b"]);
    ("ransomware.live", ["https://dexpose.io/a"]) ].

(** A peer that denies the first request and answers the later ones. *)
Definition denying_env : Env :=
  mkEnv (env_now sample_env)
        (fun n _ _ => match n with
                      | 0 => Raised (HTTPError 403)
                      | _ => Returned "<urlset/>"
                      end)
        (fun _ => 2)
        (env_sitemap sample_env) (env_hrefs sample_env)
        (env_urljoin sample_env) (env_netloc sample_env)
        (env_list_set sample_env).

(** A peer that denies every request. *)
Definition blocking_env : Env :=
  mkEnv (env_now sample_env)
        (fun _ _ _ => Raised (HTTPError 403))
        (fun _ => 2)
        (env_sitemap sample_env) (env_hrefs sample_env)
        (env_urljoin sample_env) (env_netloc sample_env)
        (env_list_set sample_env).

(** A peer at which the first [session.get] of a run raises an exception
    that is not a [RequestException], and the later ones are served. *)
Definition failing_env : Env :=
  mkEnv (env_now sample_env)
        (fun n _ _ => match n with
                      | 0 => Raised OtherException
                      | _ => Returned "<urlset/>"
                      end)
        (fun _ => 2)
        (env_sitemap sample_env) (env_hrefs sample_env)
        (env_urljoin sample_env) (env_netloc sample_env)
        (env_list_set sample_env).

(** [URLScraper()] with its default arguments. *)
Definition sample_scraper : URLScraper.t :=
  URLScraper.mk 30 3 URLScraper.default_filter_date.

(** The user agent [random.choice] draws next in a world. *)
Definition next_choice (w : World) : string :=
  nth (env_choice (env w) (draws w) mod length URLScraper.USER_AGENTS)
      URLScraper.USER_AGENTS "".

(** [USER_AGENTS[0]] *)
Definition default_user_agent : string := nth 0 URLScraper.USER_AGENTS "".

(** ** storage.py: statistics *)

Module StorageStats.

(** The dictionary [get_stats] returns. *)
Record Stats := mkStats {
  stats_total_urls : nat;
  stats_last_updated : option string;
  stats_sources : gmap string nat;
  stats_file : string
}.

(** [sources[source] = sources.get(source, 0) + 1] *)
Definition count_source (url_data : SeenRecord) (sources : gmap string nat)
    : gmap string nat :=
  <[source url_data := default 0 (sources !! source url_data) + 1]> sources.

(** [get_stats] *)
Definition get_stats (storage_path : string) : M Stats :=
  let* data := URLStorage._load_data storage_path in
  let sources := map_fold (fun _ url_data acc => count_source url_data acc)
                   ∅ (urls data) in
  ret (mkStats (size (urls data)) (last_updated data) sources storage_path).

(** [max(l)] on strings, from a first element [m]: a later element takes
    over when it is greater. *)
Fixpoint max_from (m : string) (l : list string) : string :=
  match l with
  | [] => m
  | x :: l' => max_from (if String.ltb m x then x else m) l'
  end.

(** [max(last_updates) if last_updates else None] *)
Definition max_or_none (l : list string) : option string :=
  match l with
  | [] => None
  | x :: l' => Some (max_from x l')
  end.

(** The dictionary [get_combined_stats] returns. *)
Record CombinedStats := mkCombined {
  total_urls_across_all_sources : nat;
  urls_per_source : list (string * nat);
  combined_last_updated : option string;
  number_of_sources : nat
}.

(** The loop of [get_combined_stats], on [total_urls], [all_sources] and
    [last_updates]. *)
Fixpoint combined_loop (storages : list (string * string))
    (total_urls : nat) (all_sources : list (string * nat))
    (last_updates : list string)
    : M (nat * list (string * nat) * list string) :=
  match storages with
  | [] => ret (total_urls, all_sources, last_updates)
  | (src, storage) :: storages' =>
      let* source_stats := get_stats storage in
      combined_loop storages'
        (total_urls + stats_total_urls source_stats)
        (dict_set src (stats_total_urls source_stats) all_sources)
        (if URLScraper.truthy (stats_last_updated source_stats)
         then last_updates ++ [default "" (stats_last_updated source_stats)]
         else last_updates)
  end.

(** [MultiSourceStorage.get_combined_stats] *)
Definition get_combined_stats (self : MultiSourceStorage.t)
    : M CombinedStats :=
  let* r := combined_loop (MultiSourceStorage.storages self) 0 [] [] in
  ret (mkCombined r.1.1 r.1.2 (max_or_none r.2)
         (length (MultiSourceStorage.storages self))).

End StorageStats.

(** The number of records of a store that name a source. *)
Definition records_of (src : string) (m : gmap string SeenRecord) : nat :=
  size (filter (fun kv : string * SeenRecord => source kv.2 = src) m).

(** The sum of the counters of a dictionary. *)
Definition counters_sum (m : gmap string nat) : nat :=
  map_fold (fun _ n acc => n + acc) 0 m.

(** The non-empty [last_updated] values of the stores of a storage
    object, in the order of its sources. *)
Definition update_dates (w : World) (self : MultiSourceStorage.t)
    : list string :=
  omap (fun sp : string * string =>
          match last_updated (stored w sp.2) with
          | Some (String c t) => Some (String c t)
          | _ => None
          end)
       (MultiSourceStorage.storages self).

(** ** Observations on the scraper *)

(** Whether the date filter keeps a candidate under the cutoff [D]: the
    date the code compares is [D] or later, or there is none. *)
Definition kept (D : datetime) (url : string) (lastmod : option string)
    : bool :=
  match compared_date url lastmod with
  | Some d => datetime_ge d D
  | None => true
  end.

(** The [<loc>]s of the [<url>] tags the filter keeps, in the order of the
    document. *)
Definition kept_locs (D : datetime)
    (url_tags : list (option string * option string)) : list string :=
  omap (fun tag : option string * option string =>
          match tag with
          | (Some url, lastmod) => if kept D url lastmod then Some url else None
          | (None, _) => None
          end) url_tags.

(** ** main.py: the configuration

    [load_config] reads a JSON document. The values of the document are
    dynamically typed, and the function looks at their truth value only;
    the exceptions it handles are not those of the scraper, so the module
    has its own. *)

Module Config.

(** A value [json.load] returns: [None], a [bool], an [int], a [float], a
    [str], a [list], or a [dict] in the order of the document. *)
Inductive JSON :=
| JNull
| JBool (b : bool)
| JInt (z : Z)
| JFloat (f : spec_float)
| JStr (s : string)
| JList (l : list JSON)
| JDict (d : list (string * JSON)).

(** The exceptions met in [load_config], with the message of those the
    function builds or reads. *)
Inductive Error :=
| FileNotFoundError (msg : string)
| JSONDecodeError (msg : string)
| ValueError (msg : string)
| AttributeError
| OtherError.

Inductive Result (A : Type) :=
| Ok (a : A)
| Err (e : Error).

Arguments Ok {A} a.
Arguments Err {A} e.

(** The dictionary [config]. *)
Record t := mk {
  smtp_host : JSON;
  smtp_port : JSON;
  smtp_user : JSON;
  smtp_password : JSON;
  from_email : JSON;
  to_emails : JSON;
  use_ssl : JSON;
  timeout : JSON;
  max_retries : JSON;
  filter_date : JSON;
  storage_base_dir : JSON
}.

(** The truth value of a value. *)
Definition truthy (v : JSON) : bool :=
  match v with
  | JNull => false
  | JBool b => b
  | JInt z => negb (z =? 0)%Z
  | JFloat (S754_zero _) => false
  | JFloat _ => true
  | JStr EmptyString => false
  | JStr _ => true
  | JList [] => false
  | JList _ => true
  | JDict [] => false
  | JDict _ => true
  end.

(** [email_config.get(key, default)]; a value that is no [dict] has no
    [get]. *)
Definition get (email_config : JSON) (key : string) (default : JSON)
    : Result JSON :=
  match email_config with
  | JDict d =>
      Ok match MultiSourceStorage.dict_get key d with
         | Some v => v
         | None => default
         end
  | _ => Err AttributeError
  end.

Definition rbind {A B} (r : Result A) (k : A -> Result B) : Result B :=
  match r with
  | Ok a => k a
  | Err e => Err e
  end.

(** [sep.join(l)] *)
Fixpoint join (sep : string) (l : list string) : string :=
  match l with
  | [] => ""
  | [x] => x
  | x :: l' => x ++ sep ++ join sep l'
  end.

(** [[key for key in required if not config.get(key)]] *)
Definition missing (config : t) : list string :=
  (if truthy (smtp_host config) then [] else ["smtp_host"]) ++
  (if truthy (smtp_user config) then [] else ["smtp_user"]) ++
  (if truthy (smtp_password config) then [] else ["smtp_password"]) ++
  (if truthy (from_email config) then [] else ["from_email"]).

(** The [try] block of [load_config], from the outcome of opening the
    file and decoding it. *)
Definition load_config_body (loaded : Result JSON) : Result t :=
  rbind loaded (fun email_config =>
  rbind (get email_config "smtp_server" JNull) (fun smtp_host_ =>
  rbind (get email_config "smtp_port" (JInt 587)) (fun smtp_port_ =>
  rbind (get email_config "sender_email" JNull) (fun smtp_user_ =>
  rbind (get email_config "sender_password" JNull) (fun smtp_password_ =>
  rbind (get email_config "sender_email" JNull) (fun from_email_ =>
  rbind (get email_config "receiver_emails" (JList [])) (fun to_emails_ =>
  rbind (get email_config "use_ssl" (JBool false)) (fun use_ssl_ =>
  rbind (get email_config "timeout" (JInt 30)) (fun timeout_ =>
  rbind (get email_config "max_retries" (JInt 3)) (fun max_retries_ =>
  rbind (get email_config "filter_date" (JStr "2025-01-14"))
    (fun filter_date_ =>
  let config :=
    mk smtp_host_ smtp_port_ smtp_user_ smtp_password_ from_email_
       to_emails_ use_ssl_ timeout_ max_retries_ filter_date_ (JStr "data") in
  match missing config with
  | _ :: _ =>
      Err (ValueError ("Missing required configuration: "
                       ++ join ", " (missing config)))
  | [] =>
      if negb (truthy (to_emails config)) then
        Err (ValueError "No receiver emails configured in 'receiver_emails'")
      else Ok config
  end))))))))))).

(** [load_config]: the [try] block and its two [except] clauses. *)
Definition load_config (config_path : string) (loaded : Result JSON)
    : Result t :=
  match load_config_body loaded with
  | Ok config => Ok config
  | Err (FileNotFoundError _) =>
      Err (FileNotFoundError
             ("Configuration file not found: " ++ config_path))
  | Err (JSONDecodeError msg) =>
      Err (ValueError ("Invalid JSON in configuration file: " ++ msg))
  | Err e => Err e
  end.

End Config.

(** ** email_sender.py: the plain-text body *)

Module EmailSender.

(** The line feed. *)
Definition nl : string := String (ascii_of_nat 10) EmptyString.

(** [c * n] *)
Fixpoint times (c : ascii) (n : nat) : string :=
  match n with
  | O => EmptyString
  | S n' => String c (times c n')
  end.

(** [len(s)] of a text held as UTF-8: the bytes that start a character. *)
Fixpoint len (s : string) : nat :=
  match s with
  | EmptyString => 0
  | String c s' =>
      (if (128 <=? code c)%N && (code c <? 192)%N then 0 else 1) + len s'
  end.

(** The decimal form of a length and of an [int] in an f-string. *)
Definition str_nat (n : nat) : string :=
  NilZero.string_of_uint (Nat.to_uint n).

Definition str_int (z : Z) : string :=
  NilZero.string_of_int (Z.to_int z).

(** [for url in urls: text += ...] *)
Fixpoint url_lines (urls_ : list string) (text : string) : string :=
  match urls_ with
  | [] => text
  | url :: urls' => url_lines urls' (text ++ ("  • " ++ url ++ nl))
  end.

(** [for source, urls in new_urls.items(): if urls: ...] *)
Fixpoint sources_loop (items : list (string * list string)) (text : string)
    : string :=
  match items with
  | [] => text
  | (src, urls_) :: items' =>
      match urls_ with
      | [] => sources_loop items' text
      | _ :: _ =>
          let text1 :=
            text ++ (nl ++ src ++ nl ++ times "-" (len src) ++ nl) in
          let text2 :=
            text1 ++ (str_nat (length urls_) ++ " new URL(s):" ++ nl ++ nl) in
          let text3 := url_lines urls_ text2 in
          sources_loop items' (text3 ++ nl)
      end
  end.

(** [_create_text_email], with the text
    [datetime.now().strftime('%Y-%m-%d %H:%M:%S')] gives. *)
Definition _create_text_email (now_ : string)
    (new_urls : list (string * list string)) (total_new : Z) : string :=
  let text :=
    nl ++ " Daily Ransomware Links" ++ nl ++ times "=" 50 ++ nl ++ nl ++
    "Date: " ++ now_ ++ nl ++
    "Total New URLs: " ++ str_int total_new ++ nl ++ nl in
  let text :=
    if (total_new =? 0)%Z
    then text ++ (" No new URLs discovered since the last run." ++ nl)
    else sources_loop new_urls text in
  let text := text ++ (nl ++ times "=" 50 ++ nl) in
  text ++ ("This is an automated report from your Daily URL Scraper." ++ nl).

End EmailSender.

(** A text occurs in another one. *)
Definition occurs (t s : string) : Prop :=
  exists a b, s = a ++ t ++ b.

(** * Properties *)

(** ** The store *)

Section Store.

Implicit Types (w : World) (p src ts : string) (l : list string)
  (m : gmap string SeenRecord).

Lemma load_data_eq p w :
  URLStorage._load_data p w = (Returned (stored w p), w).
Proof.
  unfold stored, URLStorage._load_data, bind, get_world, ret.
  destruct (files w !! p) as [[d|]|]; reflexivity.
Qed.

Lemma stored_lookup p w :
  stored w p =
    match files w !! p with
    | Some (Json d) => d
    | _ => URLStorage.empty_data
    end.
Proof.
  unfold stored, URLStorage._load_data, bind, get_world, ret.
  destruct (files w !! p) as [[d|]|]; reflexivity.
Qed.

(** The loop of [add_urls]: what the [urls] object holds at the end, and the
    counter. *)
Lemma add_urls_fold ts src l : forall m n,
  let acc := fold_left (URLStorage.add_urls_step ts src) l (m, n) in
  (forall u, acc.1 !! u =
     match m !! u with
     | Some r => Some r
     | None => if bool_decide (u ∈ l) then Some (mkSeen ts src) else None
     end) /\
  acc.2 = n + size ((list_to_set l : gset string) ∖ dom m).
Proof.
  induction l as [|a l IH]; intros m n; cbv zeta.
  - simpl. split.
    + intros u. by destruct (m !! u).
    + replace ((∅ : gset string) ∖ dom m) with (∅ : gset string) by set_solver.
      rewrite size_empty. lia.
  - simpl fold_left. unfold URLStorage.add_urls_step at 2 4. simpl fst; simpl snd.
    destruct (m !! a) as [r|] eqn:Ha.
    + destruct (IH m n) as [IH1 IH2]. split.
      * intros u. rewrite IH1. destruct (m !! u) eqn:Hu; [done|].
        assert (u ≠ a) by congruence.
        repeat case_bool_decide; set_solver.
      * rewrite IH2. f_equal. f_equal.
        assert (a ∈ dom m) by (apply elem_of_dom; eauto).
        set_solver.
    + destruct (IH (<[a:=mkSeen ts src]> m) (S n)) as [IH1 IH2]. split.
      * intros u. rewrite IH1.
        destruct (decide (a = u)) as [->|Hne].
        -- rewrite lookup_insert_eq, Ha.
           case_bool_decide; [done | set_solver].
        -- rewrite lookup_insert_ne by done.
           destruct (m !! u); [done|].
           repeat case_bool_decide; set_solver.
      * rewrite IH2. rewrite dom_insert_L.
        assert (a ∉ dom m) by (by apply not_elem_of_dom).
        replace ((list_to_set (a :: l) : gset string) ∖ dom m)
          with ({[a]} ∪ (list_to_set l : gset string) ∖ ({[a]} ∪ dom m)).
        -- assert (Hd : ({[a]} : gset string) ##
                         (list_to_set l : gset string) ∖ ({[a]} ∪ dom m))
             by set_solver.
           rewrite (size_union _ _ Hd), size_singleton. lia.
        -- apply set_eq. intros x. rewrite list_to_set_cons.
           destruct (decide (x = a)); set_solver.
Qed.

(** [add_urls] never raises; its result and the world it leaves. *)
Lemma add_urls_run p l src w :
  URLStorage.add_urls p l src w =
    (let ts := env_now (env w) (clock_reads w) in
     let acc := fold_left (URLStorage.add_urls_step ts src) l
                  (urls (stored w p), 0) in
     (Returned acc.2,
      mkWorld (env w) (<[p := Json (mkData acc.1 (Some ts))]> (files w))
              (S (clock_reads w)) (requests w) (draws w) (trace w))).
Proof.
  unfold URLStorage.add_urls, bind. rewrite load_data_eq.
  reflexivity.
Qed.

Lemma stored_insert p d (f : gmap string File) e c r dr t :
  stored (mkWorld e (<[p := Json d]> f) c r dr t) p = d.
Proof. rewrite stored_lookup. simpl. by rewrite lookup_insert_eq. Qed.

Lemma stored_insert_ne p q d (f : gmap string File) e c r dr t :
  p ≠ q ->
  stored (mkWorld e (<[p := Json d]> f) c r dr t) q =
  stored (mkWorld e f c r dr t) q.
Proof.
  intros. rewrite !stored_lookup. simpl. by rewrite lookup_insert_ne.
Qed.


(** A list with a known URL and a new one, written twice. *)
Example add_urls_mixed :
  exists w',
    URLStorage.add_urls "data/dexpose_urls.json"
      ["https://dexpose.io/a"; "https://dexpose.io/b"; "https://dexpose.io/b"]
      "dexpose.io" (world_of sample_env one_url_store) = (Returned 1, w') /\
    urls (stored w' "data/dexpose_urls.json") !! "https://dexpose.io/a"
      = Some (mkSeen "2025-01-10T08:00:00" "dexpose.io") /\
    urls (stored w' "data/dexpose_urls.json") !! "https://dexpose.io/b"
      = Some (mkSeen "2025-01-15T08:00:00" "dexpose.io").
Proof. eexists. split; [|split]; vm_compute; reflexivity. Qed.



End Store.

(** ** Dictionaries in insertion order *)

Section Dict.

Context {V : Type}.
Implicit Types (d : list (string * V)) (k : string) (v : V).

Lemma dict_get_set_eq k v d :
  MultiSourceStorage.dict_get k (dict_set k v d) = Some v.
Proof.
  induction d as [|[k' v'] d IH]; simpl.
  - by rewrite String.eqb_refl.
  - destruct (String.eqb_spec k k') as [->|Hne]; simpl.
    + by rewrite String.eqb_refl.
    + by destruct (String.eqb_spec k k').
Qed.

Lemma dict_get_set_ne k k' v d :
  k <> k' ->
  MultiSourceStorage.dict_get k' (dict_set k v d)
  = MultiSourceStorage.dict_get k' d.
Proof.
  intros Hne. induction d as [|[k2 v2] d IH]; simpl.
  - destruct (String.eqb_spec k' k); congruence.
  - destruct (String.eqb_spec k k2) as [->|Hne2]; simpl.
    + destruct (String.eqb_spec k' k2); congruence.
    + by rewrite IH.
Qed.

Lemma dict_get_None k d :
  k ∉ d.*1 -> MultiSourceStorage.dict_get k d = None.
Proof.
  induction d as [|[k' v'] d IH]; simpl; [done|].
  rewrite not_elem_of_cons. intros [Hne Hd].
  destruct (String.eqb_spec k k'); [done | auto].
Qed.

Lemma dict_get_Some_elem k v d :
  MultiSourceStorage.dict_get k d = Some v -> (k, v) ∈ d.
Proof.
  induction d as [|[k' v'] d IH]; simpl; [done|].
  destruct (String.eqb_spec k k') as [->|Hne].
  - intros [= ->]. by left.
  - intros. right. auto.
Qed.

Lemma dict_set_keys k v d k' :
  k' ∈ (dict_set k v d).*1 <-> k' = k \/ k' ∈ d.*1.
Proof.
  induction d as [|[k2 v2] d IH]; simpl.
  - rewrite list_elem_of_singleton. set_solver.
  - destruct (String.eqb_spec k k2) as [->|Hne]; simpl.
    + rewrite !elem_of_cons. tauto.
    + rewrite !elem_of_cons, IH. tauto.
Qed.

End Dict.

(** ** The stores of the sources *)

Section MultiSource.

Implicit Types (w : World) (st : MultiSourceStorage.t) (s p : string)
  (l : list string) (items : list (string * list string)).

Lemma same_stores_refl w : same_stores w w.
Proof. by repeat split. Qed.

Lemma same_stores_trans w1 w2 w3 :
  same_stores w1 w2 -> same_stores w2 w3 -> same_stores w1 w3.
Proof.
  intros (Ha & ? & ? & ? & ? & ?) (Hb & ? & ? & ? & ? & ?).
  split; [intros q; by rewrite Hb, Ha|].
  repeat split; congruence.
Qed.

Lemma storage_init_run p w :
  exists w', URLStorage.init p w = (Returned p, w') /\ same_stores w w'.
Proof.
  unfold URLStorage.init, URLStorage._ensure_storage_file,
    URLStorage._save_data, bind, get_world, set_files, ret.
  destruct (files w !! p) as [f|] eqn:Hp; simpl.
  - eexists. split; [reflexivity|]. apply same_stores_refl.
  - eexists. split; [reflexivity|]. repeat split; simpl.
    intros q. rewrite !stored_lookup. simpl.
    destruct (decide (p = q)) as [->|Hne].
    + by rewrite lookup_insert_eq, Hp.
    + by rewrite lookup_insert_ne.
Qed.

(** The constructor of [MultiSourceStorage] returns the storage object of
    the three sources; it creates the missing files as empty documents, so
    no store reads differently afterwards. *)
Lemma multi_init_run base w :
  exists w',
    MultiSourceStorage.init base w = (Returned (storage_at base), w') /\
    same_stores w w'.
Proof.
  unfold MultiSourceStorage.init, MultiSourceStorage.storage_files,
    MultiSourceStorage.init_storages.
  destruct (storage_init_run
              (MultiSourceStorage.path_join base "dexpose_urls.json") w)
    as (w1 & E1 & S1).
  destruct (storage_init_run
              (MultiSourceStorage.path_join base "ransomware_live_urls.json") w1)
    as (w2 & E2 & S2).
  destruct (storage_init_run
              (MultiSourceStorage.path_join base "redpacket_security_urls.json") w2)
    as (w3 & E3 & S3).
  exists w3. split.
  - unfold bind at 1 2. rewrite E1. unfold bind at 1 2. rewrite E2.
    unfold bind at 1 2. rewrite E3. reflexivity.
  - eauto using same_stores_trans.
Qed.

Lemma string_app_inv_head (a b c : string) : a ++ b = a ++ c -> b = c.
Proof. induction a as [|x a IH]; simpl; [done|]. intros [= H]. auto. Qed.

(** Different sources have different storage files. *)
Lemma storage_at_distinct base s1 s2 p1 p2 :
  MultiSourceStorage.dict_get s1 (MultiSourceStorage.storages (storage_at base))
    = Some p1 ->
  MultiSourceStorage.dict_get s2 (MultiSourceStorage.storages (storage_at base))
    = Some p2 ->
  s1 <> s2 -> p1 <> p2.
Proof.
  unfold storage_at, MultiSourceStorage.path_join.
  generalize (MultiSourceStorage.path_root base)
             (MultiSourceStorage.join_parts
                (MultiSourceStorage.path_parts base)).
  intros root dir.
  cbn [MultiSourceStorage.storages MultiSourceStorage.dict_get].
  repeat match goal with
         | |- context [String.eqb ?a ?b] => destruct (String.eqb_spec a b)
         end; intros H1 H2 Hne E; simplify_eq;
    try (do 2 apply string_app_inv_head in E; discriminate).
Qed.

Lemma storage_at_known base s :
  s ∈ known_sources <->
  is_Some (MultiSourceStorage.dict_get s
             (MultiSourceStorage.storages (storage_at base))).
Proof.
  unfold known_sources, storage_at. simpl.
  repeat match goal with
         | |- context [String.eqb ?a ?b] => destruct (String.eqb_spec a b)
         end; subst; split; intros H; eauto; try set_solver.
Qed.

Lemma get_seen_run st s w :
  MultiSourceStorage.get_seen_urls_for_source st s w =
    match MultiSourceStorage.dict_get s (MultiSourceStorage.storages st) with
    | Some p => (Returned (dom (urls (stored w p))), w)
    | None => (Raised ValueError, w)
    end.
Proof.
  unfold MultiSourceStorage.get_seen_urls_for_source,
    MultiSourceStorage.get_storage_for_source, URLStorage.get_seen_urls.
  destruct (MultiSourceStorage.dict_get s (MultiSourceStorage.storages st));
    [|reflexivity].
  unfold bind, ret. simpl. by rewrite load_data_eq.
Qed.

Lemma seen_eq st s p w :
  MultiSourceStorage.dict_get s (MultiSourceStorage.storages st) = Some p ->
  seen w st s = dom (urls (stored w p)).
Proof. intros H. unfold seen. by rewrite get_seen_run, H. Qed.

Lemma seen_same_reading st s w w' :
  same_reading w w' -> seen w' st s = seen w st s.
Proof.
  intros H. unfold seen. rewrite !get_seen_run.
  destruct (MultiSourceStorage.dict_get s (MultiSourceStorage.storages st));
    [|done].
  by rewrite H.
Qed.

Lemma seen_same_stores st s w w' :
  same_stores w w' -> seen w' st s = seen w st s.
Proof. intros [H _]. by apply seen_same_reading. Qed.

Lemma same_files_reading w w' : files w' = files w -> same_reading w w'.
Proof. intros H q. by rewrite !stored_lookup, H. Qed.

Lemma add_for_source_run st s l w :
  MultiSourceStorage.add_urls_for_source st s l w =
    match MultiSourceStorage.dict_get s (MultiSourceStorage.storages st) with
    | Some p => URLStorage.add_urls p l s w
    | None => (Raised ValueError, w)
    end.
Proof.
  unfold MultiSourceStorage.add_urls_for_source,
    MultiSourceStorage.get_storage_for_source.
  by destruct (MultiSourceStorage.dict_get s (MultiSourceStorage.storages st)).
Qed.

End MultiSource.

(** ** Identification of the new URLs and update of the stores *)

Section Dedup.

Implicit Types (w : World) (st : MultiSourceStorage.t) (s p : string)
  (l : list string) (items acc report : list (string * list string)).

Lemma report_urls_set_eq s l acc :
  report_urls (dict_set s l acc) s = l.
Proof. unfold report_urls. by rewrite dict_get_set_eq. Qed.

Lemma report_urls_set_ne s s' l acc :
  s <> s' -> report_urls (dict_set s l acc) s' = report_urls acc s'.
Proof. intros. unfold report_urls. by rewrite dict_get_set_ne. Qed.

(** The loop of [identify_new_urls_per_source] reads the stores and writes
    nothing; a source gets an entry, the scraped URLs its store has not seen
    in their order, exactly when there is such a URL. *)
Lemma identify_loop_spec st items : forall acc w,
  NoDup items.*1 ->
  (forall s, s ∈ items.*1 ->
     is_Some (MultiSourceStorage.dict_get s (MultiSourceStorage.storages st))) ->
  exists report,
    identify_loop items st acc w = (Returned report, w) /\
    (forall s, report_urls report s =
       match MultiSourceStorage.dict_get s items with
       | Some l =>
           match filter (fun u => u ∉ seen w st s) l with
           | [] => report_urls acc s
           | l' => l'
           end
       | None => report_urls acc s
       end) /\
    ((forall s l, (s, l) ∈ items -> filter (fun u => u ∉ seen w st s) l = []) ->
     report = acc).
Proof.
  induction items as [|[k l] items IH]; intros acc w Hnd Hknown.
  - exists acc. simpl. by repeat split.
  - apply NoDup_cons in Hnd as [Hk Hnd]. simpl in Hk.
    destruct (Hknown k) as [p Hp]; [by left|].
    assert (Hknown' : forall s, s ∈ items.*1 ->
      is_Some (MultiSourceStorage.dict_get s (MultiSourceStorage.storages st))).
    { intros s Hs. apply Hknown. by right. }
    simpl identify_loop. unfold bind at 1. rewrite get_seen_run, Hp.
    rewrite <- (seen_eq st k p w Hp).
    destruct (filter (fun u => u ∉ seen w st k) l) as [|u0 l'] eqn:Hf.
    + destruct (IH acc w Hnd Hknown') as (report & Hrun & Hget & Hsame).
      exists report. split; [exact Hrun|]. split.
      * intros s. rewrite Hget. simpl.
        destruct (String.eqb_spec s k) as [->|Hne]; [|done].
        by rewrite (dict_get_None k items Hk), Hf.
      * intros Hall. apply Hsame. intros s l0 Hin. apply Hall. by right.
    + destruct (IH (dict_set k (u0 :: l') acc) w Hnd Hknown')
        as (report & Hrun & Hget & Hsame).
      exists report. split; [exact Hrun|]. split.
      * intros s. rewrite Hget. simpl.
        destruct (String.eqb_spec s k) as [->|Hne].
        -- by rewrite (dict_get_None k items Hk), Hf, report_urls_set_eq.
        -- by rewrite report_urls_set_ne.
      * intros Hall. specialize (Hall k l (list_elem_of_here _ _)). congruence.
Qed.

(** The records of a store after [add_urls], and the other files. *)
Lemma add_urls_seen p l s w :
  exists n w',
    URLStorage.add_urls p l s w = (Returned n, w') /\
    dom (urls (stored w' p)) = dom (urls (stored w p)) ∪ list_to_set l /\
    (forall q, q <> p -> stored w' q = stored w q) /\
    env w' = env w.
Proof.
  rewrite add_urls_run. cbv zeta.
  set (ts := env_now (env w) (clock_reads w)).
  destruct (add_urls_fold ts s l (urls (stored w p)) 0) as [Hm _].
  eexists _, _. split; [reflexivity|]. split; [|split; [|reflexivity]].
  - rewrite stored_insert. simpl. apply set_eq. intros u.
    rewrite elem_of_union, !elem_of_dom, Hm, elem_of_list_to_set.
    destruct (urls (stored w p) !! u) eqn:Hu.
    + split; [by left | eauto].
    + case_bool_decide.
      * split; [by right | eauto].
      * split; [by intros [] | intros [[]|]; done].
  - intros q Hq. rewrite stored_insert_ne by done.
    by rewrite !stored_lookup.
Qed.

(** The update loop of [main] returns; afterwards the store of a source
    holds what it held and the URLs scraped for that source, nothing else. *)
Lemma update_storage_spec st items : forall w,
  NoDup items.*1 ->
  (forall s, s ∈ items.*1 ->
     is_Some (MultiSourceStorage.dict_get s (MultiSourceStorage.storages st))) ->
  (forall s1 s2 p1 p2,
     MultiSourceStorage.dict_get s1 (MultiSourceStorage.storages st) = Some p1 ->
     MultiSourceStorage.dict_get s2 (MultiSourceStorage.storages st) = Some p2 ->
     s1 <> s2 -> p1 <> p2) ->
  exists w',
    update_storage items st w = (Returned tt, w') /\
    (forall s,
       is_Some (MultiSourceStorage.dict_get s (MultiSourceStorage.storages st)) ->
       seen w' st s = seen w st s ∪ list_to_set (report_urls items s)) /\
    env w' = env w.
Proof.
  induction items as [|[k l] items IH]; intros w Hnd Hknown Hdist.
  - exists w. split; [reflexivity|]. split; [|done].
    intros s _. unfold report_urls. simpl. set_solver.
  - apply NoDup_cons in Hnd as [Hk Hnd]. simpl in Hk.
    destruct (Hknown k) as [p Hp]; [by left|].
    assert (Hknown' : forall s, s ∈ items.*1 ->
      is_Some (MultiSourceStorage.dict_get s (MultiSourceStorage.storages st))).
    { intros s Hs. apply Hknown. by right. }
    assert (Hrep : forall s, report_urls ((k, l) :: items) s =
                     if String.eqb s k then l else report_urls items s).
    { intros s. unfold report_urls. simpl. by destruct (String.eqb s k). }
    assert (Hrk : report_urls items k = []).
    { unfold report_urls. by rewrite (dict_get_None k items Hk). }
    simpl update_storage. destruct l as [|u0 l'].
    + destruct (IH w Hnd Hknown' Hdist) as (w' & Hrun & Hseen & Henv).
      exists w'. split; [exact Hrun|]. split; [|exact Henv].
      intros s Hs. rewrite Hseen, Hrep by done.
      destruct (String.eqb_spec s k) as [->|Hne]; [|done]. by rewrite Hrk.
    + unfold bind at 1. rewrite add_for_source_run, Hp.
      destruct (add_urls_seen p (u0 :: l') k w)
        as (n & w1 & Hadd & Hdom & Hoth & Henv1).
      rewrite Hadd.
      destruct (IH w1 Hnd Hknown' Hdist) as (w' & Hrun & Hseen & Henv).
      exists w'. split; [exact Hrun|]. split; [|congruence].
      intros s Hs. rewrite Hseen, Hrep by done.
      destruct Hs as [q Hq].
      destruct (String.eqb_spec s k) as [->|Hne].
      * rewrite Hrk. rewrite (seen_eq st k p w1 Hp), (seen_eq st k p w Hp), Hdom.
        set_solver.
      * rewrite (seen_eq st s q w1 Hq), (seen_eq st s q w Hq).
        rewrite Hoth; [done|]. by apply (Hdist s k).
Qed.

Lemma filter_nil_intro {A} (P : A -> Prop) `{forall x, Decision (P x)}
    (xs : list A) :
  (forall x, x ∈ xs -> ~ P x) -> filter P xs = [].
Proof.
  intros Hall. destruct (filter P xs) as [|x xs'] eqn:Hf; [done|].
  assert (Hx : x ∈ filter P xs) by (rewrite Hf; by left).
  apply list_elem_of_filter in Hx as [HP Hin]. by destruct (Hall x Hin).
Qed.

Lemma main_dedup_run st items w report w' :
  identify_new_urls_per_source items st w = (Returned report, w) ->
  update_storage items st w = (Returned tt, w') ->
  main_dedup items st w = (Returned (report, total_len report), w').
Proof.
  intros Hid Hup. unfold main_dedup, bind. by rewrite Hid, Hup.
Qed.

(** C1 (dedup correctness, per source). Let [all_urls] be a dictionary of
    scraped URLs over the configured sources. The storage is built and the
    new URLs are identified and stored without an exception; a URL reported
    for a source was not in the seen set of that source before and is in it
    afterwards; a URL is reported for a source exactly when it was scraped
    for that source and is not in the seen set of that very source, whatever
    the stores of the other sources hold; and the seen set of a source grows
    by the URLs scraped for that source only. *)
Theorem dedup_per_source base all_urls w0 :
  NoDup all_urls.*1 ->
  (forall s, s ∈ all_urls.*1 -> s ∈ known_sources) ->
  exists w report w',
    MultiSourceStorage.init base w0 = (Returned (storage_at base), w) /\
    main_dedup all_urls (storage_at base) w
      = (Returned (report, total_len report), w') /\
    (forall s, seen w (storage_at base) s = seen w0 (storage_at base) s) /\
    (forall s u, u ∈ report_urls report s ->
       (u ∉ seen w (storage_at base) s) /\ u ∈ seen w' (storage_at base) s) /\
    (forall s u, u ∈ report_urls report s <->
       u ∈ report_urls all_urls s /\ u ∉ seen w (storage_at base) s) /\
    (forall s, s ∈ known_sources ->
       seen w' (storage_at base) s
       = seen w (storage_at base) s ∪ list_to_set (report_urls all_urls s)).
Proof.
  intros Hnd Hknown.
  destruct (multi_init_run base w0) as (w & Hinit & Hsame).
  assert (Hk : forall s, s ∈ all_urls.*1 ->
    is_Some (MultiSourceStorage.dict_get s
               (MultiSourceStorage.storages (storage_at base)))).
  { intros s Hs. by apply storage_at_known, Hknown. }
  destruct (identify_loop_spec (storage_at base) all_urls [] w Hnd Hk)
    as (report & Hid & Hrep & _).
  destruct (update_storage_spec (storage_at base) all_urls w Hnd Hk
              (storage_at_distinct base)) as (w' & Hup & Hseen & _).
  assert (Hiff : forall s u, u ∈ report_urls report s <->
     u ∈ report_urls all_urls s /\ u ∉ seen w (storage_at base) s).
  { intros s u. rewrite Hrep. unfold report_urls at 2 3. simpl.
    destruct (MultiSourceStorage.dict_get s all_urls) as [l|]; [|set_solver].
    destruct (filter (fun u => u ∉ seen w (storage_at base) s) l) eqn:Hf.
    - split; [set_solver|]. intros [Hl Hn].
      assert (u ∈ filter (fun u => u ∉ seen w (storage_at base) s) l)
        by (by apply list_elem_of_filter).
      rewrite Hf in *. done.
    - rewrite <- Hf, list_elem_of_filter. tauto. }
  exists w, report, w'. split; [exact Hinit|].
  split; [by apply main_dedup_run|].
  split; [intros s; by apply seen_same_stores|].
  split; [|split; [exact Hiff|]].
  - intros s u Hu. apply Hiff in Hu as [Hin Hnot]. split; [done|].
    assert (Hs : s ∈ all_urls.*1).
    { unfold report_urls in Hin.
      destruct (MultiSourceStorage.dict_get s all_urls) as [lu|] eqn:Hg;
        [|set_solver].
      apply dict_get_Some_elem in Hg. apply list_elem_of_fmap.
      by exists (s, lu). }
    rewrite Hseen by (by apply Hk). set_solver.
  - intros s Hs. apply Hseen. by apply storage_at_known.
Qed.

(** [dedup_per_source] at the sample run: the hypotheses hold there. *)
Lemma dedup_per_source_witness :
  NoDup sample_scraped.*1 /\
  (forall s, s ∈ sample_scraped.*1 -> s ∈ known_sources) /\
  exists w report w',
    MultiSourceStorage.init "data" (world_of sample_env one_url_store)
      = (Returned (storage_at "data"), w) /\
    main_dedup sample_scraped (storage_at "data") w
      = (Returned (report, total_len report), w') /\
    (forall s, seen w (storage_at "data") s
               = seen (world_of sample_env one_url_store) (storage_at "data") s) /\
    (forall s u, u ∈ report_urls report s ->
       (u ∉ seen w (storage_at "data") s) /\
       u ∈ seen w' (storage_at "data") s) /\
    (forall s u, u ∈ report_urls report s <->
       u ∈ report_urls sample_scraped s /\ u ∉ seen w (storage_at "data") s) /\
    (forall s, s ∈ known_sources ->
       seen w' (storage_at "data") s
       = seen w (storage_at "data") s
         ∪ list_to_set (report_urls sample_scraped s)).
Proof.
  assert (H1 : NoDup sample_scraped.*1) by (simpl; apply NoDup_ListNoDup; repeat constructor; simpl; intuition discriminate).
  assert (H2 : forall s, s ∈ sample_scraped.*1 -> s ∈ known_sources)
    by (unfold known_sources; simpl; set_solver).
  split; [exact H1|]. split; [exact H2|].
  exact (dedup_per_source "data" sample_scraped
           (world_of sample_env one_url_store) H1 H2).
Defined.

(** The sample run, computed: [a], already seen by [dexpose.io], is new for
    [ransomware.live]; [b] is new for [dexpose.io]. *)
Example dedup_sample_run :
  exists w',
    main_dedup sample_scraped (storage_at "data")
      (world_of sample_env one_url_store)
    = (Returned ([ ("dexpose.io", ["https://dexpose.io/b"]);
                   ("ransomware.live", ["https://dexpose.io/a"]) ], 2), w').
Proof. eexists. vm_compute. reflexivity. Qed.

(** Cross-source isolation: a URL recorded under [dexpose.io] and scraped
    under [ransomware.live] is reported for [ransomware.live]. *)
Example cross_source_isolation :
  "https://leaks.example/x"
    ∈ seen (world_of sample_env shared_url_store) (storage_at "data")
        "dexpose.io" /\
  exists w',
    main_dedup [("ransomware.live", ["https://leaks.example/x"])]
      (storage_at "data") (world_of sample_env shared_url_store)
    = (Returned ([("ransomware.live", ["https://leaks.example/x"])], 1), w').
Proof.
  split.
  - erewrite seen_eq by reflexivity. apply elem_of_dom. vm_compute. eauto.
  - eexists. vm_compute. reflexivity.
Qed.

(** Replaying a run: once [all_urls] went through [main]'s update of the
    stores, any dictionary whose URLs are, source by source, among those of
    [all_urls] yields the empty report. *)
Lemma main_dedup_replay base all_urls all_urls2 w1 :
  NoDup all_urls.*1 ->
  (forall s, s ∈ all_urls.*1 -> s ∈ known_sources) ->
  NoDup all_urls2.*1 ->
  (forall s, s ∈ all_urls2.*1 -> s ∈ known_sources) ->
  (forall s u, u ∈ report_urls all_urls2 s -> u ∈ report_urls all_urls s) ->
  exists report1 w2,
    main_dedup all_urls (storage_at base) w1
      = (Returned (report1, total_len report1), w2) /\
    env w2 = env w1 /\
    forall w3, same_reading w2 w3 ->
      exists w4,
        main_dedup all_urls2 (storage_at base) w3 = (Returned ([], 0), w4).
Proof.
  intros Hnd Hknown Hnd2 Hknown2 Hsub.
  assert (Hk : forall s, s ∈ all_urls.*1 ->
    is_Some (MultiSourceStorage.dict_get s
               (MultiSourceStorage.storages (storage_at base))))
    by (intros s Hs; by apply storage_at_known, Hknown).
  assert (Hk2 : forall s, s ∈ all_urls2.*1 ->
    is_Some (MultiSourceStorage.dict_get s
               (MultiSourceStorage.storages (storage_at base))))
    by (intros s Hs; by apply storage_at_known, Hknown2).
  destruct (identify_loop_spec (storage_at base) all_urls [] w1 Hnd Hk)
    as (report & Hid & _ & _).
  destruct (update_storage_spec (storage_at base) all_urls w1 Hnd Hk
              (storage_at_distinct base)) as (w2 & Hup & Hseen & Henv).
  exists report, w2. split; [by apply main_dedup_run|].
  split; [exact Henv|].
  intros w3 Hsame.
  destruct (identify_loop_spec (storage_at base) all_urls2 [] w3 Hnd2 Hk2)
    as (report2 & Hid2 & _ & Hempty).
  destruct (update_storage_spec (storage_at base) all_urls2 w3 Hnd2 Hk2
              (storage_at_distinct base)) as (w4 & Hup2 & _ & _).
  exists w4. rewrite Hempty in Hid2.
  - by apply (main_dedup_run _ _ _ [] w4).
  - intros s l Hin.
    assert (Hs : s ∈ all_urls2.*1)
      by (apply list_elem_of_fmap; by exists (s, l)).
    assert (Hl : report_urls all_urls2 s = l).
    { unfold report_urls. clear -Hnd2 Hin.
      induction all_urls2 as [|[k v] d IH]; [by apply elem_of_nil in Hin|].
      apply NoDup_cons in Hnd2 as [Hk Hnd]. simpl.
      apply elem_of_cons in Hin as [[= <- <-]|Hin].
      - by rewrite String.eqb_refl.
      - destruct (String.eqb_spec s k) as [->|Hne]; [|by apply IH].
        exfalso. apply Hk. apply list_elem_of_fmap. by exists (k, l). }
    apply filter_nil_intro. intros u Hu Hnot. apply Hnot.
    rewrite (seen_same_reading _ _ _ _ Hsame), Hseen by (by apply Hk2).
    apply elem_of_union_r, elem_of_list_to_set, Hsub. by rewrite Hl.
Qed.

End Dedup.

(** ** The fetcher *)

Section Fetcher.

Import URLScraper.

Implicit Types (w : World) (url : string).

(** A call with a rotated identity never calls [fetch_url] again. *)
Lemma fetch_url_body_rotated self1 self2 url w :
  fetch_url_body self1 url true w = fetch_url_body self2 url true w.
Proof.
  unfold fetch_url_body, try_except, bind.
  destruct (random_choice_user_agent w) as [[ua|e] w1]; [|by destruct e].
  destruct (session_get url ua w1) as [[text|e] w2]; [done|].
  destruct e as [| |c| | |]; simpl; try done; by destruct (c =? 403)%Z.
Qed.

(** A call with the default identity uses the recursive call at a rotated
    identity only. *)
Lemma fetch_url_body_ext self1 self2 url b w :
  (forall w', self1 url true w' = self2 url true w') ->
  fetch_url_body self1 url b w = fetch_url_body self2 url b w.
Proof.
  intros Hself. destruct b; [apply fetch_url_body_rotated|].
  unfold fetch_url_body, try_except, bind. simpl.
  destruct (env_http _ _ _ _) as [text|e]; [done|]. simpl.
  destruct e as [| |c| | |]; try done. destruct (c =? 403)%Z; [|done].
  unfold bind, time_sleep, emit. simpl. apply Hself.
Qed.

(** Two nested calls are enough: a deeper bound gives the same result, so
    [fetch_url] is the fixed point of its body. *)
Lemma fetch_url_depth_enough n url b w :
  fetch_url_depth (2 + n) url b w = fetch_url url b w.
Proof.
  unfold fetch_url. simpl. apply fetch_url_body_ext. intros w'.
  apply fetch_url_body_rotated.
Qed.

Lemma fetch_url_unfold url b w :
  fetch_url url b w = fetch_url_body fetch_url url b w.
Proof.
  unfold fetch_url at 1. simpl. apply fetch_url_body_ext. intros w'.
  unfold fetch_url. simpl. apply fetch_url_body_rotated.
Qed.

(** C4 (403 denial policy). Let the attempt [fetch_url] makes first be
    denied with status 403. If that attempt used the default identity, then
    after a sleep of two seconds exactly one more request is made, with an
    identity drawn from the rotation pool; the fetch returns the body of that
    request when it has one, and no content when it is answered by an HTTP
    error, a second denial included. If the denied attempt already used a
    rotated identity, the fetch returns no content and nothing else is
    requested. *)
Theorem fetch_url_denial_policy url (use_random_ua : bool) w :
  let ua := if use_random_ua then next_choice w else default_user_agent in
  env_http (env w) (requests w) url ua = Raised (HTTPError 403) ->
  if use_random_ua then
    exists w',
      fetch_url url true w = (Returned None, w') /\
      trace w' = (trace w ++ [EvRequest url ua])%list /\
      requests w' = S (requests w)
  else
    let ua' := next_choice w in
    let second := env_http (env w) (S (requests w)) url ua' in
    exists r w',
      fetch_url url false w = (r, w') /\
      trace w' = (trace w ++ [EvRequest url ua; EvSleep 2; EvRequest url ua'])%list /\
      requests w' = S (S (requests w)) /\
      (forall text, second = Returned text -> r = Returned (Some text)) /\
      (forall c, second = Raised (HTTPError c) -> r = Returned None).
Proof.
  destruct use_random_ua; cbv zeta; intros Hdenied.
  - cbv [fetch_url fetch_url_depth fetch_url_body try_except bind
         random_choice_user_agent session_get ret negb].
    cbn [env files clock_reads requests draws trace].
    fold (next_choice w). rewrite Hdenied.
    eexists. split; [reflexivity|]. by split.
  - cbv [fetch_url fetch_url_depth fetch_url_body try_except bind
         random_choice_user_agent session_get time_sleep emit ret negb].
    cbn [env files clock_reads requests draws trace].
    fold default_user_agent. rewrite Hdenied.
    cbv beta iota. change (403 =? 403)%Z with true. cbv beta iota.
    cbn [env files clock_reads requests draws trace].
    fold (next_choice w).
    destruct (env_http (env w) (S (requests w)) url (next_choice w))
      as [text|e] eqn:Hsecond.
    + eexists _, _. split; [reflexivity|]. cbn [trace requests].
      rewrite <- !app_assoc. repeat split; [|done].
      by intros ? [= ->].
    + assert (Hshape : forall (o : Outcome (option string)),
        (forall c, e = HTTPError c -> o = Returned None) ->
        exists r w', (o, mkWorld (env w) (files w) (clock_reads w)
                          (S (S (requests w))) (S (draws w))
                          (((trace w ++ [EvRequest url default_user_agent])
                              ++ [EvSleep 2])
                              ++ [EvRequest url (next_choice w)])%list)
                     = (r, w') /\
          trace w' = (trace w ++ [EvRequest url default_user_agent; EvSleep 2;
                                  EvRequest url (next_choice w)])%list /\
          requests w' = S (S (requests w)) /\
          (forall text : string,
             Raised e = Returned text -> r = Returned (Some text)) /\
          (forall c, @Raised string e = Raised (HTTPError c) ->
             r = Returned None)).
      { intros o Ho. eexists _, _. split; [reflexivity|]. cbn [trace requests].
        rewrite <- !app_assoc. repeat split; [done|].
        intros c [= ->]. by apply (Ho c). }
      destruct e as [| |c| | |]; cbv beta iota;
        try destruct (c =? 403)%Z; apply Hshape; done.
Qed.

(** [fetch_url_denial_policy] at a peer that denies the first request of a
    run and serves the second one. *)
Lemma fetch_url_denial_policy_witness :
  env_http denying_env 0 "https://dexpose.io/sitemap-0.xml" default_user_agent
    = Raised (HTTPError 403) /\
  exists r w',
    fetch_url "https://dexpose.io/sitemap-0.xml" false (world_of denying_env ∅)
      = (r, w') /\
    trace w' = [EvRequest "https://dexpose.io/sitemap-0.xml" default_user_agent;
                EvSleep 2;
                EvRequest "https://dexpose.io/sitemap-0.xml"
                  (next_choice (world_of denying_env ∅))] /\
    requests w' = 2 /\
    (forall text,
       env_http denying_env 1 "https://dexpose.io/sitemap-0.xml"
         (next_choice (world_of denying_env ∅)) = Returned text ->
       r = Returned (Some text)) /\
    (forall c,
       env_http denying_env 1 "https://dexpose.io/sitemap-0.xml"
         (next_choice (world_of denying_env ∅)) = Raised (HTTPError c) ->
       r = Returned None).
Proof.
  split; [reflexivity|].
  exact (fetch_url_denial_policy "https://dexpose.io/sitemap-0.xml" false
           (world_of denying_env ∅) eq_refl).
Defined.

(** Denial, then content: the fetch yields the content of the retry. *)
Example denial_then_retry :
  exists w',
    fetch_url "https://dexpose.io/sitemap-0.xml" false (world_of denying_env ∅)
      = (Returned (Some "<urlset/>"), w') /\
    trace w' = [EvRequest "https://dexpose.io/sitemap-0.xml" default_user_agent;
                EvSleep 2;
                EvRequest "https://dexpose.io/sitemap-0.xml"
                  (nth 2 USER_AGENTS "")].
Proof. eexists. split; vm_compute; reflexivity. Qed.

(** Denial twice: no content, and two requests in all. *)
Example denial_twice :
  exists w',
    fetch_url "https://dexpose.io/sitemap-0.xml" false (world_of blocking_env ∅)
      = (Returned None, w') /\
    requests w' = 2 /\
    trace w' = [EvRequest "https://dexpose.io/sitemap-0.xml" default_user_agent;
                EvSleep 2;
                EvRequest "https://dexpose.io/sitemap-0.xml"
                  (nth 2 USER_AGENTS "")].
Proof. eexists. repeat split; vm_compute; reflexivity. Qed.

(** Denial of a request that already rotated its identity: one request. *)
Example denial_rotated :
  exists w',
    fetch_url "https://www.redpacketsecurity.com/" true (world_of blocking_env ∅)
      = (Returned None, w') /\
    requests w' = 1 /\
    trace w' = [EvRequest "https://www.redpacketsecurity.com/"
                  (nth 2 USER_AGENTS "")].
Proof. eexists. repeat split; vm_compute; reflexivity. Qed.

End Fetcher.

(** ** The loop over the sources *)

Section Sources.

Import URLScraper.

Implicit Types (w : World) (results : list (string * list string)).

(** One round of the loop of [scrape_all_sources]: a scrape function that
    returns has its URLs recorded and is followed by the sleep of two
    seconds; one that raises has the empty list recorded and is followed by
    nothing. *)
Lemma scrape_loop_step source_name scrape_func srcs results w :
  scrape_loop ((source_name, scrape_func) :: srcs) results w =
    match scrape_func w with
    | (Returned urls_, w1) =>
        scrape_loop srcs (dict_set source_name urls_ results)
          (mkWorld (env w1) (files w1) (clock_reads w1) (requests w1)
                   (draws w1) (trace w1 ++ [EvSleep 2]))
    | (Raised e, w1) =>
        scrape_loop srcs (dict_set source_name [] results) w1
    end.
Proof.
  cbn [scrape_loop]. unfold bind at 1. unfold try_except, bind.
  destruct (scrape_func w) as [[urls_|e] w1]; reflexivity.
Qed.

(** A failed fetch is not an exception of the scrape function: when the
    request of [scrape_dexpose] times out, the function returns the empty
    list, so the round above sleeps. *)
Lemma scrape_dexpose_timeout self w :
  env_http (env w) (requests w) "https://dexpose.io/sitemap-0.xml"
    default_user_agent = Raised Timeout ->
  exists w', scrape_dexpose self w = (Returned [], w').
Proof.
  intros H. unfold scrape_dexpose.
  cbv [fetch_url fetch_url_depth fetch_url_body try_except bind session_get
       ret].
  cbn [env files clock_reads requests draws trace].
  fold default_user_agent. rewrite H. cbv beta iota.
  eexists. reflexivity.
Qed.

(** C9 at a run in which the request of the first source raises an
    exception outside the [requests] hierarchy: the exception is caught by
    [scrape_all_sources], the source gets the empty list, and the trace has
    no sleep between the request of the first source and that of the
    second one; the other two sources are each followed by their sleep. *)
Lemma scrape_all_sources_no_delay_after_exception :
  exists w',
    scrape_all_sources sample_scraper (world_of failing_env ∅)
    = (Returned [ ("dexpose.io", []); ("ransomware.live", []);
                  ("redpacketsecurity.com", []) ], w') /\
    trace w' =
      [ EvRequest "https://dexpose.io/sitemap-0.xml" default_user_agent;
        EvRequest "https://www.ransomware.live/sitemap.xml" default_user_agent;
        EvSleep 2;
        EvRequest "https://www.redpacketsecurity.com/" (nth 2 USER_AGENTS "");
        EvSleep 2 ].
Proof. eexists. split; vm_compute; reflexivity. Qed.

(** The same run at a peer that serves every request: each of the three
    sources is followed by its sleep. *)
Example scrape_all_sources_delays :
  exists w',
    scrape_all_sources sample_scraper (world_of sample_env ∅)
    = (Returned [ ("dexpose.io", []); ("ransomware.live", []);
                  ("redpacketsecurity.com", []) ], w') /\
    trace w' =
      [ EvRequest "https://dexpose.io/sitemap-0.xml" default_user_agent;
        EvSleep 2;
        EvRequest "https://www.ransomware.live/sitemap.xml" default_user_agent;
        EvSleep 2;
        EvRequest "https://www.redpacketsecurity.com/" default_user_agent;
        EvSleep 2 ].
Proof. eexists. split; vm_compute; reflexivity. Qed.

End Sources.

(** ** Dates: what can be raised *)

Section Raises.

Import URLScraper.

Lemma int_raises s e : int_ s = Raised e -> e = ValueError.
Proof.
  unfold int_.
  destruct (match drop_spaces (map int_char (chars s)) with
            | ISign negative :: l' => (negative, l')
            | _ => (false, drop_spaces (map int_char (chars s)))
            end) as [negative l'].
  destruct (digits_value false 0 0 l') as [[v n]|]; [|congruence].
  destruct (n <=? 4300)%nat; congruence.
Qed.

Lemma datetime_raises y m d h mi s e :
  datetime_ y m d h mi s = Raised e -> e = ValueError.
Proof. unfold datetime_. destruct (_ && _); congruence. Qed.

Lemma group_int_raises name g dflt e :
  group_int name g dflt = Raised e -> e = ValueError.
Proof.
  unfold group_int. destruct (group name g); [apply int_raises | congruence].
Qed.

(** [strptime] raises nothing but [ValueError]. *)
Lemma strptime_raises data_string format e :
  strptime data_string format = Raised e -> e = ValueError.
Proof.
  unfold strptime.
  destruct (TimeRE.pattern format) as [r|]; [|congruence].
  destruct (re_match true r data_string) as [found|]; [|congruence].
  destruct (rest found); [|congruence].
  repeat match goal with
         | |- obind ?o _ = _ -> _ =>
             let H := fresh "H" in
             destruct o eqn:H; simpl;
             [| apply group_int_raises in H; congruence]
         end.
  apply datetime_raises.
Qed.

(** C10. Constructing the scraper never raises; a cutoff string that
    [strptime] rejects for the format [%Y-%m-%d] is replaced by
    2025-01-14. *)
Theorem invalid_filter_date_defaults timeout_ max_retries_ date_str :
  (forall d, strptime date_str "%Y-%m-%d" <> Returned d) ->
  _parse_filter_date date_str = Returned (mkDatetime 2025 1 14 0 0 0) /\
  init timeout_ max_retries_ date_str
    = Returned (mk timeout_ max_retries_ (mkDatetime 2025 1 14 0 0 0)).
Proof.
  intros Hbad.
  assert (H : _parse_filter_date date_str = Returned (mkDatetime 2025 1 14 0 0 0)).
  { unfold _parse_filter_date, catch.
    destruct (strptime date_str "%Y-%m-%d") as [d|e] eqn:Hp.
    - by destruct (Hbad d).
    - by rewrite (strptime_raises _ _ _ Hp). }
  split; [exact H|]. unfold init. by rewrite H.
Qed.

(** [invalid_filter_date_defaults] at a cutoff with month 13. *)
Lemma invalid_filter_date_defaults_witness :
  (forall d, strptime "2025-13-01" "%Y-%m-%d" <> Returned d) /\
  _parse_filter_date "2025-13-01" = Returned (mkDatetime 2025 1 14 0 0 0) /\
  init 30 3 "2025-13-01" = Returned (mk 30 3 (mkDatetime 2025 1 14 0 0 0)).
Proof.
  assert (H : forall d, strptime "2025-13-01" "%Y-%m-%d" <> Returned d)
    by (intros d; vm_compute; discriminate).
  split; [exact H|].
  exact (invalid_filter_date_defaults 30 3 "2025-13-01" H).
Defined.

(** The constructor returns for every cutoff string, valid or not. *)
Lemma init_returns timeout_ max_retries_ date_str :
  exists d, init timeout_ max_retries_ date_str
            = Returned (mk timeout_ max_retries_ d).
Proof.
  unfold init, _parse_filter_date, catch.
  destruct (strptime date_str "%Y-%m-%d") as [d|e] eqn:Hp; simpl; [eauto|].
  rewrite (strptime_raises _ _ _ Hp). simpl. eauto.
Qed.

Example filter_date_valid :
  _parse_filter_date "2024-12-01" = Returned (mkDatetime 2024 12 1 0 0 0).
Proof. reflexivity. Qed.

Example filter_date_other_format :
  _parse_filter_date "14/01/2025" = Returned default_filter_date.
Proof. reflexivity. Qed.

End Raises.

(** ** The last-modified hint *)

Section Hint.

Import URLScraper.

Implicit Types (lastmod ts zone : string) (c : ascii).

(** The text [_parse_sitemap_date] hands to [strptime]. *)
Lemma split_head_app c (a b : string) :
  split_head c (a ++ String c b) = split_head c a.
Proof.
  induction a as [|x a IH]; simpl.
  - by rewrite Ascii.eqb_refl.
  - destruct (Ascii.eqb x c); [done | by rewrite IH].
Qed.

Lemma split_head_app_absent c (a b : string) :
  split_head c a = a -> split_head c (a ++ b) = a ++ split_head c b.
Proof.
  induction a as [|x a IH]; simpl; [done|].
  destruct (Ascii.eqb x c); [done|]. intros [= H]. by rewrite IH.
Qed.

(** The three formats come down to two attempts on the cleaned hint: the
    first format without its [%z] is the second one. *)
Lemma parse_sitemap_date_unfold lastmod :
  lastmod <> "" ->
  _parse_sitemap_date lastmod =
    Returned
      (let cleaned := split_head "Z" (split_head "+" lastmod) in
       match strptime cleaned "%Y-%m-%dT%H:%M:%S" with
       | Returned d => Some d
       | Raised _ =>
           match strptime cleaned "%Y-%m-%d" with
           | Returned d => Some d
           | Raised _ => None
           end
       end).
Proof.
  intros Hne. unfold _parse_sitemap_date.
  destruct lastmod as [|c0 l0]; [done|].
  unfold formats, parse_loop.
  change (replace "%z" "" "%Y-%m-%dT%H:%M:%S%z") with "%Y-%m-%dT%H:%M:%S".
  change (replace "%z" "" "%Y-%m-%dT%H:%M:%S") with "%Y-%m-%dT%H:%M:%S".
  change (replace "%z" "" "%Y-%m-%d") with "%Y-%m-%d".
  cbv zeta.
  set (cleaned := split_head "Z" (split_head "+" (String c0 l0))).
  destruct (strptime cleaned "%Y-%m-%dT%H:%M:%S") as [d|e] eqn:H1; [done|].
  rewrite (strptime_raises _ _ _ H1).
  destruct (strptime cleaned "%Y-%m-%d") as [d|e2] eqn:H2; [done|].
  by rewrite (strptime_raises _ _ _ H2).
Qed.

(** [_parse_sitemap_date] never raises. *)
Lemma parse_sitemap_date_returns lastmod :
  exists r, _parse_sitemap_date lastmod = Returned r.
Proof.
  destruct lastmod as [|c0 l0]; [by exists None|].
  rewrite parse_sitemap_date_unfold by done. eauto.
Qed.

(** A timestamp followed by an offset that starts with [+], or by [Z], is
    parsed as the timestamp alone. *)
Lemma parse_sitemap_date_plus ts zone d :
  split_head "Z" (split_head "+" ts) = ts ->
  strptime ts "%Y-%m-%dT%H:%M:%S" = Returned d ->
  _parse_sitemap_date (ts ++ String "+" zone) = Returned (Some d).
Proof.
  intros Hclean Hts.
  rewrite parse_sitemap_date_unfold by (by destruct ts).
  cbv zeta. by rewrite split_head_app, Hclean, Hts.
Qed.

Lemma parse_sitemap_date_Z ts zone d :
  split_head "+" ts = ts -> split_head "Z" ts = ts ->
  strptime ts "%Y-%m-%dT%H:%M:%S" = Returned d ->
  _parse_sitemap_date (ts ++ String "Z" zone) = Returned (Some d).
Proof.
  intros Hplus HZ Hts.
  rewrite parse_sitemap_date_unfold by (by destruct ts).
  cbv zeta. rewrite (split_head_app_absent "+" ts _ Hplus). simpl.
  by rewrite split_head_app, HZ, Hts.
Qed.

Example hint_with_positive_offset :
  _parse_sitemap_date "2025-01-14T10:00:00+00:00"
  = Returned (Some (mkDatetime 2025 1 14 10 0 0)).
Proof. reflexivity. Qed.

Example hint_with_Z :
  _parse_sitemap_date "2025-01-14T10:00:00Z"
  = Returned (Some (mkDatetime 2025 1 14 10 0 0)).
Proof. reflexivity. Qed.

Example hint_without_zone :
  _parse_sitemap_date "2025-01-14T10:00:00"
  = Returned (Some (mkDatetime 2025 1 14 10 0 0)).
Proof. reflexivity. Qed.

Example hint_bare_date :
  _parse_sitemap_date "2025-01-14"
  = Returned (Some (mkDatetime 2025 1 14 0 0 0)).
Proof. reflexivity. Qed.

(** C7 at a full timestamp with a negative zone offset: only [+] and [Z]
    are cut off, so [-05:00] stays in the text handed to [strptime], every
    format fails on it and no date is parsed; the same instant written with
    a positive offset is parsed. As a consequence an entry dated in June
    2024 passes the filter of 2025-01-14 by the permissive fallback. *)
Lemma parse_sitemap_date_negative_offset :
  split_head "Z" (split_head "+" "2025-01-14T10:00:00-05:00")
    = "2025-01-14T10:00:00-05:00" /\
  _parse_sitemap_date "2025-01-14T10:00:00-05:00" = Returned None /\
  _parse_sitemap_date "2025-01-14T10:00:00+05:00"
    = Returned (Some (mkDatetime 2025 1 14 10 0 0)) /\
  _filter_url_by_date sample_scraper "https://dexpose.io/post"
    (Some "2024-06-01T10:00:00-05:00") = Returned true /\
  _filter_url_by_date sample_scraper "https://dexpose.io/post"
    (Some "2024-06-01T10:00:00+05:00") = Returned false.
Proof. repeat split; vm_compute; reflexivity. Qed.

End Hint.

(** ** Dates embedded in a URL *)

Section UrlDate.

Import URLScraper.

Implicit Types (s r t : string) (ds : list string) (c : ascii)
  (g : list (string * string)).

(** *** Characters and digits *)

Lemma continuation_spec s :
  s = (continuation s).1 ++ (continuation s).2 /\
  all_continuation (continuation s).1 = true /\
  starts_continuation (continuation s).2 = false.
Proof.
  induction s as [|c s IH]; [done|]. cbn [continuation].
  destruct (is_continuation c) eqn:Hc; [|by rewrite <- Hc].
  destruct (continuation s) as [t r]. cbn in *.
  destruct IH as (H1 & H2 & H3).
  split; [by rewrite H1 at 1|]. by rewrite Hc, H2.
Qed.

Lemma next_char_spec s t r :
  next_char s = Some (t, r) ->
  s = t ++ r /\ starts_continuation r = false /\
  exists c t', t = String c t' /\ all_continuation t' = true /\
               s = String c (t' ++ r).
Proof.
  destruct s as [|c s]; [done|]. cbn [next_char].
  destruct (continuation_spec s) as (H1 & H2 & H3).
  destruct (continuation s) as [t' r']. cbn in *. intros [= <- <-].
  split; [by rewrite H1 at 1|]. split; [done|].
  exists c, t'. by rewrite H1 at 1.
Qed.

Lemma decimal_zeros_ascii :
  Forall (fun z => z = 48 \/ 1632 <= z)%N decimal_zeros.
Proof.
  unfold decimal_zeros.
  repeat (apply List.Forall_cons; [lia|]). apply List.Forall_nil.
Qed.

(** Below 128 the decimal digits are the ASCII digits. *)
Lemma decimal_value_ascii cp v :
  (cp < 128)%N -> decimal_value cp = Some v -> (48 <= cp <= 57)%N.
Proof.
  intros Hcp. unfold decimal_value.
  destruct (find _ decimal_zeros) as [z|] eqn:Hf; [|done]. intros _.
  apply find_some in Hf as [Hin Hz].
  apply andb_true_iff in Hz as [H1 H2].
  apply N.leb_le in H1. apply N.ltb_lt in H2.
  pose proof decimal_zeros_ascii as Hall.
  rewrite List.Forall_forall in Hall. destruct (Hall z Hin); lia.
Qed.

(** The first byte of a decimal digit is an ASCII digit or a lead byte. *)
Lemma decimal_first_byte c t' :
  is_decimal (String c t') = true ->
  is_digit c = true \/ (192 <= code c)%N.
Proof.
  unfold is_decimal, decimal, code_point.
  destruct t' as [|c1 [|c2 [|c3 [|c4 t']]]].
  - destruct (N.ltb_spec (code c) 128); [|done].
    destruct (decimal_value (code c)) as [v|] eqn:Hv; [|done]. intros _.
    left. pose proof (decimal_value_ascii _ _ H Hv).
    unfold is_digit, in_range. change (code "0") with 48%N.
    change (code "9") with 57%N.
    apply andb_true_iff. split; apply N.leb_le; lia.
  - cbv zeta. destruct (N.leb_spec 192 (code c)); [by right | done].
  - cbv zeta. destruct (N.leb_spec 224 (code c)); [right; lia | done].
  - cbv zeta. destruct (N.leb_spec 240 (code c)); [right; lia | done].
  - done.
Qed.

Lemma decimal_lead c t' :
  is_decimal (String c t') = true -> is_continuation c = false.
Proof.
  intros H. apply decimal_first_byte in H. unfold is_continuation.
  destruct H as [H|H].
  - unfold is_digit, in_range in H. change (code "9") with 57%N in H.
    apply andb_true_iff in H as [_ H]. apply N.leb_le in H.
    apply andb_false_iff. left. apply N.leb_gt. lia.
  - apply andb_false_iff. right. apply N.ltb_ge. lia.
Qed.

(** A decimal digit does not start with an ASCII character that is no
    digit. *)
Lemma decimal_not_ascii c0 s t r :
  is_digit c0 = false -> (code c0 < 192)%N ->
  next_char s = Some (t, r) -> is_decimal t = true ->
  expect c0 s = None.
Proof.
  intros H0 H192 Hn Hd.
  apply next_char_spec in Hn as (_ & _ & c & t' & -> & _ & ->).
  cbn [expect]. destruct (Ascii.eqb_spec c0 c) as [->|]; [|done].
  apply decimal_first_byte in Hd as [Hd|Hd]; [congruence | lia].
Qed.

Lemma next_char_digit_char s t r :
  next_char s = Some (t, r) -> is_decimal t = true -> digit_char t = true.
Proof.
  intros Hn Hd. unfold digit_char. rewrite Hd.
  apply next_char_spec in Hn as (_ & _ & c & t' & -> & Hc & _).
  by rewrite (decimal_lead _ _ Hd), Hc.
Qed.

Lemma chars_char c t' s :
  all_continuation t' = true -> starts_continuation s = false ->
  chars (String c t' ++ s) = String c t' :: chars s.
Proof.
  revert c. induction t' as [|c1 t' IH]; intros c Ht Hs.
  - change (String c "" ++ s) with (String c s). cbn [chars].
    rewrite Hs. by destruct (chars s).
  - cbn in Ht. apply andb_true_iff in Ht as [Hc1 Ht].
    change (String c (String c1 t') ++ s)
      with (String c (String c1 t' ++ s)).
    cbn [chars]. rewrite (IH c1 Ht Hs).
    change (String c1 t' ++ s) with (String c1 (t' ++ s)).
    cbn [starts_continuation]. by rewrite Hc1.
Qed.

Lemma digit_char_lead t s :
  digit_char t = true -> starts_continuation (t ++ s) = false.
Proof.
  unfold digit_char. destruct t as [|c t']; [by rewrite andb_false_r|].
  rewrite !andb_true_iff, negb_true_iff. by intros (_ & Hc & _).
Qed.

Lemma text_lead ds :
  Forall (fun t => digit_char t = true) ds ->
  starts_continuation (text ds) = false.
Proof.
  destruct 1 as [|t ds Ht _]; [done|]. cbn [text].
  by apply digit_char_lead.
Qed.

(** The characters of a text of digits are the digits. *)
Lemma chars_text ds :
  Forall (fun t => digit_char t = true) ds -> chars (text ds) = ds.
Proof.
  induction 1 as [|t ds Ht Hds IH]; [done|]. cbn [text].
  pose proof Ht as Ht'. unfold digit_char in Ht'.
  destruct t as [|c t']; [by rewrite andb_false_r in Ht'|].
  rewrite !andb_true_iff in Ht'. destruct Ht' as (_ & _ & Hc).
  rewrite chars_char; [by rewrite IH | done | by apply text_lead].
Qed.

Lemma string_app_assoc (a b c : string) : (a ++ b) ++ c = a ++ (b ++ c).
Proof.
  induction a as [|x a IH]; [done|].
  change (String x ((a ++ b) ++ c) = String x (a ++ (b ++ c))).
  by rewrite IH.
Qed.

Lemma string_app_nil_r (a : string) : a ++ "" = a.
Proof.
  induction a as [|x a IH]; [done|].
  change (String x (a ++ "") = String x a). by rewrite IH.
Qed.

Lemma string_length_app (a b : string) :
  String.length (a ++ b) = String.length a + String.length b.
Proof. induction a as [|x a IH]; simpl; [done | by rewrite IH]. Qed.

Lemma substring_prefix (a b : string) :
  substring 0 (String.length a) (a ++ b) = a.
Proof.
  induction a as [|x a IH]; simpl; [by destruct b | by rewrite IH].
Qed.

(** What a sub-match consumed is what stands in front of the rest. *)
Lemma consumed_app (a b : string) : consumed (a ++ b) b = a.
Proof.
  unfold consumed. rewrite string_length_app.
  replace (String.length a + String.length b - String.length b)
    with (String.length a) by lia.
  apply substring_prefix.
Qed.

Lemma take_digits_spec n : forall s,
  s = text (take_digits n s).1 ++ (take_digits n s).2 /\
  Forall (fun t => digit_char t = true) (take_digits n s).1 /\
  length (take_digits n s).1 <= n.
Proof.
  induction n as [|n IH]; intros s.
  - cbn. split; [done|]. split; [constructor | lia].
  - cbn [take_digits].
    destruct (next_char s) as [[t r]|] eqn:Hn;
      [|cbn; split; [done|]; split; [constructor | lia]].
    destruct (is_decimal t) eqn:Hd;
      [|cbn; split; [done|]; split; [constructor | lia]].
    destruct (IH r) as (H1 & H2 & H3).
    destruct (take_digits n r) as [ds r']. cbn in *.
    pose proof (next_char_digit_char _ _ _ Hn Hd) as Hdc.
    apply next_char_spec in Hn as (-> & _).
    split; [|split; [by constructor | lia]].
    rewrite H1 at 1. clear.
    induction t as [|x t IHt]; [done|].
    change (String x t ++ text ds ++ r')
      with (String x (t ++ text ds ++ r')).
    by rewrite IHt.
Qed.

Lemma digits_then_spec lo hi s ds r :
  digits_then lo hi s = Some (ds, r) ->
  s = text ds ++ r /\ Forall (fun t => digit_char t = true) ds /\
  lo <= length ds <= hi.
Proof.
  unfold digits_then. destruct (take_digits_spec hi s) as (H1 & H2 & H3).
  destruct (take_digits hi s) as [ds' r']. cbn in *.
  destruct (Nat.leb_spec lo (length ds')); [|done].
  intros [= <- <-]. repeat split; done.
Qed.

(** *** The matcher on the pieces of the three patterns *)

Lemma rmatch_Chr {A} c s g (k : string -> list (string * string) -> option A) :
  rmatch false (Chr c) s g k = expect c s ≫= fun s' => k s' g.
Proof.
  destruct s as [|c' s']; simpl; [done|].
  unfold chr_matches. by destruct (Ascii.eqb c c').
Qed.

(** [\d{n}] takes [n] digits or fails. *)
Lemma rmatch_rep_digit {A} n :
  forall s g (k : string -> list (string * string) -> option A),
  rmatch false (rep (S n) digit) s g k
  = digits_then (S n) (S n) s ≫= fun dr => k dr.2 g.
Proof.
  induction n as [|n IH]; intros s g k.
  - unfold digits_then. cbn [rep digit rmatch take_digits].
    destruct (next_char s) as [[t r]|]; [|done].
    by destruct (is_decimal t).
  - change (rep (S (S n)) digit) with (Cat digit (rep (S n) digit)).
    cbn [rmatch]. unfold digit at 1. cbn [rmatch].
    unfold digits_then.
    change (take_digits (S (S n)) s)
      with (match next_char s with
            | Some (t, r) =>
                if is_decimal t
                then let (ds, r') := take_digits (S n) r in (t :: ds, r')
                else ([], s)
            | None => ([], s)
            end).
    destruct (next_char s) as [[t r]|]; [|done].
    destruct (is_decimal t); [|done].
    rewrite IH. unfold digits_then.
    destruct (take_digits (S n) r) as [ds r']. cbn [length].
    change (S (S n) <=? S (length ds))%nat with (S n <=? length ds)%nat.
    by destruct (S n <=? length ds)%nat.
Qed.

(** [(\d{n})] captures them. *)
Lemma rmatch_group_digits {A} name n s g
    (k : string -> list (string * string) -> option A) :
  rmatch false (Grp name (rep (S n) digit)) s g k
  = digits_then (S n) (S n) s
      ≫= fun dr => k dr.2 (g ++ [(name, text dr.1)])%list.
Proof.
  cbn [rmatch]. rewrite rmatch_rep_digit.
  destruct (digits_then (S n) (S n) s) as [[ds r]|] eqn:Hd; [|done].
  simpl. apply digits_then_spec in Hd as (-> & _ & _).
  by rewrite consumed_app.
Qed.

Lemma text_app_one t r : text [t] ++ r = t ++ r.
Proof. cbn [text]. by rewrite string_app_nil_r. Qed.

(** [(\d{1,2})] in front of something that does not start with a digit
    takes the longest run: giving back the second digit cannot help. *)
Lemma rmatch_group_digit12 {A} name s g
    (k : string -> list (string * string) -> option A) :
  (forall s' t r g', next_char s' = Some (t, r) -> is_decimal t = true ->
                     k s' g' = None) ->
  rmatch false (Grp name (Cat digit (opt digit))) s g k
  = digits_then 1 2 s ≫= fun dr => k dr.2 (g ++ [(name, text dr.1)])%list.
Proof.
  intros Hk. unfold digits_then, opt, digit. cbn [rmatch take_digits].
  destruct (next_char s) as [[t r]|] eqn:Hn; [|done].
  destruct (is_decimal t) eqn:Hd; [|done].
  pose proof (next_char_spec _ _ _ Hn) as (Hs & _).
  assert (Hone : forall r', consumed (t ++ r') r' = text [t]).
  { intros r'. rewrite consumed_app. cbn [text].
    by rewrite string_app_nil_r. }
  destruct (next_char r) as [[t2 r2]|] eqn:Hn2.
  - destruct (is_decimal t2) eqn:Hd2.
    + pose proof (next_char_spec _ _ _ Hn2) as (Hr & _).
      assert (Htwo : consumed s r2 = text [t; t2]).
      { subst s r. replace (t ++ t2 ++ r2) with (text [t; t2] ++ r2);
          [apply consumed_app|].
        cbn [text]. by rewrite string_app_nil_r, string_app_assoc. }
      cbn. rewrite Htwo.
      destruct (k r2 (g ++ [(name, text [t; t2])])%list) eqn:Hks; [done|].
      by rewrite (Hk _ _ _ _ Hn2 Hd2).
    + cbn. subst s. by rewrite Hone.
  - cbn. subst s. by rewrite Hone.
Qed.

Lemma rmatch_Cat {A} (x1 x2 : regex) s g
    (k : string -> list (string * string) -> option A) :
  rmatch false (Cat x1 x2) s g k
  = rmatch false x1 s g (fun s' g' => rmatch false x2 s' g' k).
Proof. reflexivity. Qed.

(** A continuation that starts with an ASCII character which is not a
    digit fails on a string that starts with a digit. *)
Lemma rmatch_Chr_digit {A} c0 (x : regex) s t r g
    (k : string -> list (string * string) -> option A) :
  is_digit c0 = false -> (code c0 < 192)%N ->
  next_char s = Some (t, r) -> is_decimal t = true ->
  rmatch false (Cat (Chr c0) x) s g k = None.
Proof.
  intros H0 H1 Hn Hd. rewrite rmatch_Cat, rmatch_Chr.
  by rewrite (decimal_not_ascii c0 s t r).
Qed.

Lemma rmatch_Chr_digit_last {A} c0 s t r g
    (k : string -> list (string * string) -> option A) :
  is_digit c0 = false -> (code c0 < 192)%N ->
  next_char s = Some (t, r) -> is_decimal t = true ->
  rmatch false (Chr c0) s g k = None.
Proof.
  intros H0 H1 Hn Hd. rewrite rmatch_Chr.
  by rewrite (decimal_not_ascii c0 s t r).
Qed.

Ltac step_option :=
  cbn [mbind option_bind fst snd fmap option_fmap option_map].

(** *** The three patterns are the three scanners *)

Lemma re_match_pattern1 s :
  groups <$> re_match false pattern1 s = groups_of <$> segment_at s.
Proof.
  unfold re_match, pattern1, segment_at.
  rewrite rmatch_Cat, rmatch_Chr.
  destruct (expect "/" s) as [s1|]; step_option; [|done].
  rewrite rmatch_Cat, (rmatch_group_digits "1" 3).
  destruct (digits_then 4 4 s1) as [[y s2]|]; step_option; [|done].
  rewrite rmatch_Cat, rmatch_Chr.
  destruct (expect "/" s2) as [s3|]; step_option; [|done].
  rewrite rmatch_Cat, rmatch_group_digit12
    by (intros; by eapply rmatch_Chr_digit).
  destruct (digits_then 1 2 s3) as [[m s4]|]; step_option; [|done].
  rewrite rmatch_Cat, rmatch_Chr.
  destruct (expect "/" s4) as [s5|]; step_option; [|done].
  rewrite rmatch_Cat, rmatch_group_digit12
    by (intros; by eapply rmatch_Chr_digit_last).
  destruct (digits_then 1 2 s5) as [[d s6]|]; step_option; [|done].
  rewrite rmatch_Chr.
  destruct (expect "/" s6) as [s7|]; step_option; done.
Qed.

Lemma re_match_pattern2 s :
  groups <$> re_match false pattern2 s = groups_of <$> dashed_at s.
Proof.
  unfold re_match, pattern2, dashed_at.
  rewrite rmatch_Cat, rmatch_Chr.
  destruct (expect "/" s) as [s1|]; step_option; [|done].
  rewrite rmatch_Cat, (rmatch_group_digits "1" 3).
  destruct (digits_then 4 4 s1) as [[y s2]|]; step_option; [|done].
  rewrite rmatch_Cat, rmatch_Chr.
  destruct (expect "-" s2) as [s3|]; step_option; [|done].
  rewrite rmatch_Cat, (rmatch_group_digits "2" 1).
  destruct (digits_then 2 2 s3) as [[m s4]|]; step_option; [|done].
  rewrite rmatch_Cat, rmatch_Chr.
  destruct (expect "-" s4) as [s5|]; step_option; [|done].
  rewrite (rmatch_group_digits "3" 1).
  destruct (digits_then 2 2 s5) as [[d s6]|]; step_option; done.
Qed.

Lemma re_match_pattern3 s :
  (fun m => group "1" (groups m)) <$> re_match false pattern3 s
  = (fun dr => Some (text dr.1)) <$> (expect "/" s ≫= digits_then 8 8).
Proof.
  unfold re_match, pattern3.
  rewrite rmatch_Cat, rmatch_Chr.
  destruct (expect "/" s) as [s1|]; step_option; [|done].
  rewrite (rmatch_group_digits "1" 7).
  destruct (digits_then 8 8 s1) as [[ds r]|]; step_option; done.
Qed.

(** [re.search] finds the leftmost position at which the scanner
    applies. *)
Lemma re_search_leftmost {A B} (x : regex) (rule : string -> option A)
    (f : Match -> B) (h : A -> B) :
  (forall s, f <$> re_match false x s = h <$> rule s) ->
  forall s, f <$> re_search x s = h <$> leftmost rule s.
Proof.
  intros Hrule s. induction s as [|c s IH]; cbn [re_search leftmost].
  - specialize (Hrule "").
    destruct (re_match false x "") as [m|], (rule "") as [a|];
      simpl in *; congruence.
  - specialize (Hrule (String c s)).
    destruct (re_match false x (String c s)) as [m|],
             (rule (String c s)) as [a|]; simpl in *; congruence.
Qed.

(** [leftmost] gives the occurrence at the first position that has one:
    the string splits into a prefix, at no position of which the rule
    applies, and the suffix at which it does. *)
Lemma leftmost_first {A} (rule : string -> option A) s a :
  leftmost rule s = Some a ->
  exists pre suf,
    s = pre ++ suf /\ rule suf = Some a /\
    forall pre' suf',
      s = pre' ++ suf' -> String.length pre' < String.length pre ->
      rule suf' = None.
Proof.
  induction s as [|c s IH]; cbn [leftmost].
  - destruct (rule "") eqn:H; [|done]. intros [= ->].
    exists "", "". repeat split; [done|]. simpl. lia.
  - destruct (rule (String c s)) eqn:H.
    + intros [= ->]. exists "", (String c s). repeat split; [done|].
      simpl. lia.
    + intros Hl. destruct (IH Hl) as (pre & suf & -> & Hsuf & Hmin).
      exists (String c pre), suf. repeat split; [done|].
      intros pre' suf' Heq Hlen. destruct pre' as [|c' pre'].
      * change ("" ++ suf') with suf' in Heq. by rewrite <- Heq.
      * change (String c' pre' ++ suf') with (String c' (pre' ++ suf')) in Heq.
        injection Heq as -> Heq.
        apply (Hmin pre' suf' Heq). simpl in Hlen. lia.
Qed.

Lemma leftmost_None {A} (rule : string -> option A) s :
  leftmost rule s = None ->
  forall pre suf, s = pre ++ suf -> rule suf = None.
Proof.
  induction s as [|c s IH]; cbn [leftmost].
  - destruct (rule "") eqn:H; [done|]. intros _ pre suf Heq.
    destruct pre; [|done]. change ("" ++ suf) with suf in Heq.
    by rewrite <- Heq.
  - destruct (rule (String c s)) eqn:H; [done|]. intros Hl pre suf Heq.
    destruct pre as [|c' pre].
    + change ("" ++ suf) with suf in Heq. by rewrite <- Heq.
    + change (String c' pre ++ suf) with (String c' (pre ++ suf)) in Heq.
      injection Heq as -> Heq. by apply (IH Hl pre suf).
Qed.

Lemma leftmost_Some {A} (rule : string -> option A) s a :
  leftmost rule s = Some a -> exists s', rule s' = Some a.
Proof.
  induction s as [|c s IH]; cbn [leftmost].
  - destruct (rule "") eqn:H; [|done]. intros [= ->]. eauto.
  - destruct (rule (String c s)) eqn:H; [intros [= ->]; eauto | exact IH].
Qed.

(** *** Conversions *)

Lemma int_char_decimal t :
  digit_char t = true -> int_char t = IDigit (default 0%Z (decimal t)).
Proof.
  unfold digit_char, is_decimal, decimal, int_char.
  destruct (code_point t) as [cp|]; [|done].
  by destruct (decimal_value cp).
Qed.

Lemma digits_value_number ds : forall (b : bool) acc n,
  Forall (fun t => digit_char t = true) ds ->
  ds <> [] \/ b = true ->
  digits_value b acc n (map int_char ds)
  = Some (number_from acc ds, n + length ds).
Proof.
  induction ds as [|t ds IH]; intros b acc n Hds Hne.
  - destruct Hne as [?| ->]; [done|]. cbn. by rewrite Nat.add_0_r.
  - apply Forall_cons in Hds as [Ht Hds].
    cbn [map digits_value number_from length].
    rewrite (int_char_decimal t Ht), IH by auto.
    by rewrite Nat.add_succ_r.
Qed.

(** [int] of a non-empty text of digits is the number they write. *)
Lemma int_digits ds :
  Forall (fun t => digit_char t = true) ds -> ds <> [] ->
  length ds <= 4300 ->
  int_ (text ds) = Returned (number ds).
Proof.
  intros Hds Hne Hlen. unfold int_. rewrite (chars_text ds Hds).
  destruct ds as [|t ds]; [done|].
  pose proof Hds as Hds'. apply Forall_cons in Hds' as [Ht _].
  cbn [map]. rewrite (int_char_decimal t Ht). cbn [drop_spaces].
  rewrite <- (int_char_decimal t Ht).
  change (int_char t :: map int_char ds) with (map int_char (t :: ds)).
  rewrite (digits_value_number (t :: ds) false 0 0 Hds) by (by left).
  cbn [Nat.add]. destruct (Nat.leb_spec (length (t :: ds)) 4300); [done|lia].
Qed.

Lemma digits_then_nonempty lo hi s ds r :
  0 < lo -> hi <= 4300 -> digits_then lo hi s = Some (ds, r) ->
  Forall (fun t => digit_char t = true) ds /\ ds <> [] /\
  length ds <= 4300.
Proof.
  intros Hlo Hhi H. apply digits_then_spec in H as (_ & Hd & Hlen & Hlen').
  split; [done|]. split; [|lia]. intros ->. simpl in Hlen. lia.
Qed.

(** The constructor call under the first two patterns, on texts of
    digits. *)
Lemma datetime_of_digit_strings y m d :
  (Forall (fun t => digit_char t = true) y /\ y <> [] /\ length y <= 4300) ->
  (Forall (fun t => digit_char t = true) m /\ m <> [] /\ length m <= 4300) ->
  (Forall (fun t => digit_char t = true) d /\ d <> [] /\ length d <= 4300) ->
  datetime_of_strings (text y) (text m) (text d) =
    match calendar_date (y, m, d) with
    | Some dt => Returned dt
    | None => Raised ValueError
    end.
Proof.
  intros (? & ? & ?) (? & ? & ?) (? & ? & ?).
  unfold datetime_of_strings, calendar_date, datetime_.
  rewrite !int_digits by done. simpl.
  rewrite andb_true_r. by destruct (valid_date _ _ _).
Qed.

Lemma segment_at_digits s y m d :
  segment_at s = Some (y, m, d) ->
  (Forall (fun t => digit_char t = true) y /\ y <> [] /\ length y <= 4300) /\
  (Forall (fun t => digit_char t = true) m /\ m <> [] /\ length m <= 4300) /\
  (Forall (fun t => digit_char t = true) d /\ d <> [] /\ length d <= 4300).
Proof.
  unfold segment_at.
  destruct (expect "/" s) as [s1|]; step_option; [|done].
  destruct (digits_then 4 4 s1) as [[y' s2]|] eqn:Hy; step_option; [|done].
  destruct (expect "/" s2) as [s3|]; step_option; [|done].
  destruct (digits_then 1 2 s3) as [[m' s4]|] eqn:Hm; step_option; [|done].
  destruct (expect "/" s4) as [s5|]; step_option; [|done].
  destruct (digits_then 1 2 s5) as [[d' s6]|] eqn:Hd; step_option; [|done].
  destruct (expect "/" s6) as [s7|]; step_option; [|done].
  intros [= <- <- <-].
  apply digits_then_nonempty in Hy; [|lia..].
  apply digits_then_nonempty in Hm; [|lia..].
  apply digits_then_nonempty in Hd; [|lia..].
  done.
Qed.

Lemma dashed_at_digits s y m d :
  dashed_at s = Some (y, m, d) ->
  (Forall (fun t => digit_char t = true) y /\ y <> [] /\ length y <= 4300) /\
  (Forall (fun t => digit_char t = true) m /\ m <> [] /\ length m <= 4300) /\
  (Forall (fun t => digit_char t = true) d /\ d <> [] /\ length d <= 4300).
Proof.
  unfold dashed_at.
  destruct (expect "/" s) as [s1|]; step_option; [|done].
  destruct (digits_then 4 4 s1) as [[y' s2]|] eqn:Hy; step_option; [|done].
  destruct (expect "-" s2) as [s3|]; step_option; [|done].
  destruct (digits_then 2 2 s3) as [[m' s4]|] eqn:Hm; step_option; [|done].
  destruct (expect "-" s4) as [s5|]; step_option; [|done].
  destruct (digits_then 2 2 s5) as [[d' s6]|] eqn:Hd; step_option; [|done].
  intros [= <- <- <-].
  apply digits_then_nonempty in Hy; [|lia..].
  apply digits_then_nonempty in Hm; [|lia..].
  apply digits_then_nonempty in Hd; [|lia..].
  done.
Qed.

(** *** The [try] blocks *)

(** Pattern 1 and pattern 2: the block gives the calendar date of the
    leftmost occurrence, and hands over when there is no occurrence or its
    numbers are no date. *)
Lemma attempt_rule (x : regex) rule url :
  (forall s, groups <$> re_match false x s = groups_of <$> rule s) ->
  (forall s y m d, rule s = Some (y, m, d) ->
     (Forall (fun t => digit_char t = true) y /\ y <> [] /\
      length y <= 4300) /\
     (Forall (fun t => digit_char t = true) m /\ m <> [] /\
      length m <= 4300) /\
     (Forall (fun t => digit_char t = true) d /\ d <> [] /\
      length d <= 4300)) ->
  attempt (re_search x url) date_of_groups is_ValueError
  = Returned (url_rule rule url).
Proof.
  intros Hx Hdigits.
  pose proof (re_search_leftmost x rule groups groups_of Hx url) as H.
  unfold url_rule.
  destruct (leftmost rule url) as [[[y m] d]|] eqn:Hl,
           (re_search x url) as [found|]; simpl in H; try done.
  injection H as Hg. apply leftmost_Some in Hl as [s' Hs'].
  destruct (Hdigits _ _ _ _ Hs') as (Hy & Hm & Hd).
  unfold attempt, date_of_groups. rewrite Hg. cbn [groups_of].
  rewrite datetime_of_digit_strings by done. step_option.
  by destruct (calendar_date (y, m, d)).
Qed.

Lemma leftmost_ext {A} (rule1 rule2 : string -> option A) s :
  (forall s', rule1 s' = rule2 s') -> leftmost rule1 s = leftmost rule2 s.
Proof.
  intros H. induction s as [|c s IH]; cbn [leftmost]; rewrite H; [done|].
  by rewrite IH.
Qed.

Lemma leftmost_fmap {A B} (rule : string -> option A) (f : A -> B) s :
  leftmost (fun s' => f <$> rule s') s = f <$> leftmost rule s.
Proof.
  induction s as [|c s IH]; cbn [leftmost].
  - by destruct (rule "").
  - by destruct (rule (String c s)).
Qed.

(** Pattern 3. *)
Lemma attempt_pattern3 url :
  attempt (re_search pattern3 url) date_of_digits is_ValueError_or_IndexError
  = Returned (url_rule compact_at url).
Proof.
  pose proof (re_search_leftmost pattern3
                (fun s => expect "/" s ≫= digits_then 8 8)
                (fun m => group "1" (groups m)) (fun dr => Some (text dr.1))
                re_match_pattern3 url) as H.
  unfold url_rule.
  rewrite (leftmost_ext compact_at
             (fun s => (fun dr : list string * string =>
                          (take 4 dr.1, take 2 (drop 4 dr.1), drop 6 dr.1))
                       <$> (expect "/" s ≫= digits_then 8 8))).
  2: { intros s'. unfold compact_at.
       destruct (expect "/" s') as [s1|]; step_option; [|done].
       by destruct (digits_then 8 8 s1) as [[ds r]|]. }
  rewrite leftmost_fmap.
  destruct (leftmost (fun s => expect "/" s ≫= digits_then 8 8) url)
    as [[ds r]|] eqn:Hl,
    (re_search pattern3 url) as [found|]; simpl in H; try done.
  injection H as Hg. apply leftmost_Some in Hl as [s' Hs'].
  destruct (expect "/" s') as [s1|]; [|done]. simpl in Hs'.
  apply digits_then_spec in Hs' as (_ & Hd & Hlen).
  unfold attempt, date_of_digits. rewrite Hg. step_option.
  unfold slice. rewrite (chars_text ds Hd).
  assert (H8 : length ds = 8) by lia.
  destruct ds as [|t1 [|t2 [|t3 [|t4 [|t5 [|t6 [|t7 [|t8 [|t9 ds]]]]]]]]];
    cbn in H8; try lia.
  cbn [Nat.sub take drop firstn skipn].
  repeat match goal with
         | H : Forall _ (_ :: _) |- _ =>
             apply Forall_cons in H as [? H]
         end.
  change (try* y' := int_ (text [t1; t2; t3; t4]) in
          try* m' := int_ (text [t5; t6]) in
          try* d' := int_ (text [t7; t8]) in
          datetime_ y' m' d' 0 0 0)
    with (datetime_of_strings (text [t1; t2; t3; t4]) (text [t5; t6])
            (text [t7; t8])).
  rewrite datetime_of_digit_strings
    by (split_and!; [repeat constructor; done | done | cbn; lia]).
  step_option.
  by destruct (calendar_date ([t1; t2; t3; t4], [t5; t6], [t7; t8])).
Qed.

(** [_extract_date_from_url] never raises, and gives the date of the first
    rule, in the order segment, dashed, compact, whose leftmost occurrence
    in the URL is a calendar date. *)
Lemma extract_date_from_url_rules url :
  _extract_date_from_url url = Returned (url_date url).
Proof.
  unfold _extract_date_from_url, url_date.
  rewrite (attempt_rule pattern1 segment_at url re_match_pattern1
             segment_at_digits). cbn [obind].
  destruct (url_rule segment_at url); [done|].
  rewrite (attempt_rule pattern2 dashed_at url re_match_pattern2
             dashed_at_digits). cbn [obind].
  destruct (url_rule dashed_at url); [done|].
  rewrite attempt_pattern3. cbn [obind].
  by destruct (url_rule compact_at url).
Qed.

End UrlDate.

(** ** The date filter *)

Section DateFilter.

Import URLScraper.

Implicit Types (self : URLScraper.t) (url : string) (lastmod : option string).

(** [_filter_url_by_date] never raises; it compares the date it derives
    for the candidate with the cutoff and lets a candidate without one
    pass. *)
Lemma filter_url_by_date_spec self url lastmod :
  _filter_url_by_date self url lastmod =
    Returned match compared_date url lastmod with
             | Some d => datetime_ge d (filter_date self)
             | None => true
             end.
Proof.
  unfold _filter_url_by_date, compared_date, parsed_hint.
  rewrite extract_date_from_url_rules.
  destruct lastmod as [l|]; [|cbn [obind]; by destruct (url_date url)].
  destruct l as [|c l]; [cbn; by destruct (url_date url)|].
  cbn [truthy].
  destruct (parse_sitemap_date_returns (String c l)) as [r Hr]. rewrite Hr.
  cbn [obind]. destruct r as [d|]; [done|].
  cbn [obind]. by destruct (url_date url).
Qed.

(** The comparison itself: on the date the code derives, the filter returns
    [False] when it is strictly before the cutoff, [True] when it is the
    cutoff or later, and [True] when there is none. *)
Lemma filter_compares_date self url lastmod :
  exists b,
    _filter_url_by_date self url lastmod = Returned b /\
    match compared_date url lastmod with
    | Some d =>
        (before d (filter_date self) -> b = false) /\
        (not_before d (filter_date self) -> b = true)
    | None => b = true
    end.
Proof.
  rewrite filter_url_by_date_spec. eexists. split; [reflexivity|].
  destruct (compared_date url lastmod) as [d|]; [|done].
  unfold before, not_before, datetime_ge.
  destruct (datetime_compare d (filter_date self)); split; congruence.
Qed.

(** C3 (cutoff monotonicity) at two candidates whose hint is a full
    timestamp with a negative zone offset, under the cutoff 2025-01-14.
    The derived date of the first one, by the rules of section 4.3, is
    2024-06-01, before the cutoff, and [_filter_url_by_date] includes it;
    the derived date of the second one is 2025-06-01, after the cutoff, and
    [_filter_url_by_date] excludes it, on the older date of its URL. In
    both cases [_parse_sitemap_date] reads no date from the hint. *)
Lemma cutoff_monotonicity_negative_offset :
  spec_derived_date "https://dexpose.io/post"
    (Some "2024-06-01T10:00:00-05:00") = Some (mkDatetime 2024 6 1 10 0 0) /\
  before (mkDatetime 2024 6 1 10 0 0) (filter_date sample_scraper) /\
  _filter_url_by_date sample_scraper "https://dexpose.io/post"
    (Some "2024-06-01T10:00:00-05:00") = Returned true /\
  spec_derived_date "https://dexpose.io/2020/01/01/post"
    (Some "2025-06-01T10:00:00-05:00") = Some (mkDatetime 2025 6 1 10 0 0) /\
  not_before (mkDatetime 2025 6 1 10 0 0) (filter_date sample_scraper) /\
  _filter_url_by_date sample_scraper "https://dexpose.io/2020/01/01/post"
    (Some "2025-06-01T10:00:00-05:00") = Returned false /\
  _parse_sitemap_date "2024-06-01T10:00:00-05:00" = Returned None /\
  _parse_sitemap_date "2025-06-01T10:00:00-05:00" = Returned None.
Proof. repeat split; vm_compute; (reflexivity || discriminate). Qed.

(** The rule of the specification on the hints of the scenarios: with a
    positive offset, with [Z], without zone, and a bare date. *)
Example spec_hint_dates :
  spec_hint_date (Some "2025-01-14T10:00:00+00:00")
    = Some (mkDatetime 2025 1 14 10 0 0) /\
  spec_hint_date (Some "2025-01-14T10:00:00Z")
    = Some (mkDatetime 2025 1 14 10 0 0) /\
  spec_hint_date (Some "2025-01-14T10:00:00")
    = Some (mkDatetime 2025 1 14 10 0 0) /\
  spec_hint_date (Some "2025-01-14") = Some (mkDatetime 2025 1 14 0 0 0) /\
  spec_hint_date (Some "yesterday") = None.
Proof. repeat split; vm_compute; reflexivity. Qed.

(** The comparison is inclusive: the cutoff itself passes. *)
Lemma datetime_compare_refl d : datetime_compare d d = Eq.
Proof.
  unfold datetime_compare, datetime_key. simpl.
  by rewrite !Z.compare_refl.
Qed.

Lemma cutoff_itself_passes d : not_before d d.
Proof. unfold not_before. by rewrite datetime_compare_refl. Qed.

(** Dates from the hint, around the cutoff of 2025-01-14. *)
Example filter_day_before :
  _filter_url_by_date sample_scraper "https://dexpose.io/post"
    (Some "2025-01-13T23:59:59+00:00") = Returned false.
Proof. reflexivity. Qed.

Example filter_cutoff_day :
  _filter_url_by_date sample_scraper "https://dexpose.io/post"
    (Some "2025-01-14") = Returned true.
Proof. reflexivity. Qed.

Example filter_no_date :
  _filter_url_by_date sample_scraper "https://dexpose.io/post" None
  = Returned true.
Proof. reflexivity. Qed.

(** The hint comes first: a recent hint wins over an old date in the URL. *)
Example filter_hint_before_url :
  _filter_url_by_date sample_scraper "https://dexpose.io/2020/01/01/post"
    (Some "2025-02-01") = Returned true.
Proof. reflexivity. Qed.

(** A structured index with mixed dates: entries of 2025-01-10, of
    2025-01-15 and without hint; the second and the third are kept. *)
Example sitemap_mixed_dates :
  sitemap_loop sample_scraper
    [ (Some "https://dexpose.io/one", Some "2025-01-10");
      (Some "https://dexpose.io/two", Some "2025-01-15");
      (Some "https://dexpose.io/three", None) ] []
  = ["https://dexpose.io/two"; "https://dexpose.io/three"].
Proof. reflexivity. Qed.

(** C8 (dates embedded in the URL). [_extract_date_from_url] returns the
    date of the first of the rules [/YYYY/MM/DD/] (month and day of one or
    two digits), [/YYYY-MM-DD] and [/YYYYMMDD] whose leftmost occurrence in
    the URL names a calendar date, the digits being decimal digits of any
    script; a rule without occurrence, or whose leftmost occurrence names no
    calendar date, hands over to the next rule; and this is the date the
    filter uses whenever the hint is absent, empty, or gives no date to
    [_parse_sitemap_date]. *)
Theorem url_date_precedence url :
  _extract_date_from_url url = Returned (url_date url) /\
  (forall d, url_rule segment_at url = Some d -> url_date url = Some d) /\
  (url_rule segment_at url = None ->
   forall d, url_rule dashed_at url = Some d -> url_date url = Some d) /\
  (url_rule segment_at url = None -> url_rule dashed_at url = None ->
   url_date url = url_rule compact_at url) /\
  (forall self lastmod,
     lastmod = None \/ lastmod = Some "" \/
     (exists l, lastmod = Some l /\ _parse_sitemap_date l = Returned None) ->
     _filter_url_by_date self url lastmod =
       Returned match url_date url with
                | Some d => datetime_ge d (filter_date self)
                | None => true
                end).
Proof.
  split; [apply extract_date_from_url_rules|].
  unfold url_date.
  split; [by intros d ->|]. split; [by intros -> d ->|].
  split; [by intros -> ->|].
  intros self lastmod Hhint. rewrite filter_url_by_date_spec.
  unfold compared_date, parsed_hint.
  destruct Hhint as [->| [->|(l & -> & ->)]]; done.
Qed.

Example url_segment_date :
  _extract_date_from_url "https://x.example/2025/01/14/post"
  = Returned (Some (mkDatetime 2025 1 14 0 0 0)).
Proof. reflexivity. Qed.

Example url_dashed_date :
  _extract_date_from_url "https://x.example/posts/2025-01-14-title"
  = Returned (Some (mkDatetime 2025 1 14 0 0 0)).
Proof. reflexivity. Qed.

Example url_compact_date :
  _extract_date_from_url "https://x.example/p/20250114"
  = Returned (Some (mkDatetime 2025 1 14 0 0 0)).
Proof. reflexivity. Qed.

(** Month 13 in a segment: the dashed rule takes over. *)
Example url_month_13_falls_through :
  url_rule segment_at "https://x.example/2025/13/01/2025-01-14-title" = None /\
  leftmost segment_at "https://x.example/2025/13/01/2025-01-14-title"
    = Some (["2"; "0"; "2"; "5"], ["1"; "3"], ["0"; "1"]) /\
  _extract_date_from_url "https://x.example/2025/13/01/2025-01-14-title"
    = Returned (Some (mkDatetime 2025 1 14 0 0 0)).
Proof. repeat split; reflexivity. Qed.

(** Month 13 and nothing else: no date. *)
Example url_month_13_alone :
  _extract_date_from_url "https://x.example/2025/13/01/title" = Returned None.
Proof. reflexivity. Qed.

(** Only the leftmost occurrence of a rule is looked at. *)
Example url_second_segment_ignored :
  _extract_date_from_url "https://x.example/2025/13/01/2025/01/14/"
  = Returned None.
Proof. reflexivity. Qed.

End DateFilter.

(** ** Replaying a run *)

Section Replay.

Import URLScraper.

Implicit Types (w : World) (self : URLScraper.t) (url : string)
  (resp : Outcome string).

(** At a peer with one answer per URL, [fetch_url] returns what
    [fetch_result] makes of that answer, and leaves the files alone. *)
Lemma fetch_url_content url b w resp :
  (forall n ua, env_http (env w) n url ua = resp) ->
  exists w',
    fetch_url url b w = (fetch_result resp, w') /\
    env w' = env w /\ files w' = files w.
Proof.
  intros H.
  cbv [fetch_url fetch_url_depth fetch_url_body try_except bind
       random_choice_user_agent session_get time_sleep emit ret negb].
  cbn [env files clock_reads requests draws trace].
  destruct b; rewrite H; (destruct resp as [text|e]; [by eexists|]).
  - destruct e as [| |c| | |]; cbv beta iota;
      try destruct (c =? 403)%Z; by eexists.
  - destruct e as [| |c| | |]; cbv beta iota; try by eexists.
    destruct (c =? 403)%Z; [|by eexists].
    cbn [env files clock_reads requests draws trace]. rewrite H.
    cbv beta iota. change (c =? 403)%Z with (c =? 403)%Z.
    destruct (c =? 403)%Z; by eexists.
Qed.

Lemma parse_xml_sitemap_run self xml_content source_name w :
  parse_xml_sitemap self xml_content source_name w
  = (Returned (sitemap_urls (env w) self xml_content), w).
Proof.
  unfold parse_xml_sitemap, sitemap_urls, bind, get_world.
  by destruct (env_sitemap (env w) xml_content).
Qed.

Lemma parse_html_links_run self html_content base_url source_name w :
  parse_html_links self html_content base_url source_name w
  = (Returned (links_urls (env w) self html_content base_url), w).
Proof.
  unfold parse_html_links, links_urls, bind, get_world.
  destruct (env_hrefs (env w) html_content) as [hrefs|]; [|done].
  by destruct (links_loop self (env w) base_url hrefs []) as [urls_ []].
Qed.

(** A scrape function: fetch, then parse what was fetched. *)
Lemma scrape_content url b (parse : string -> M (list string))
    (urls_of : Env -> string -> list string) w resp :
  (forall text w', parse text w' = (Returned (urls_of (env w') text), w')) ->
  (forall n ua, env_http (env w) n url ua = resp) ->
  exists w',
    (let* content := fetch_url url b in
     match has_content content with
     | Some text => parse text
     | None => ret []
     end) w
    = (match fetch_result resp with
       | Returned content =>
           Returned match has_content content with
                    | Some text => urls_of (env w) text
                    | None => []
                    end
       | Raised e => Raised e
       end, w') /\
    env w' = env w /\ files w' = files w.
Proof.
  intros Hparse H.
  destruct (fetch_url_content url b w resp H) as (w1 & Hf & He & Hfi).
  unfold bind. rewrite Hf.
  destruct (fetch_result resp) as [content|e]; [|by exists w1].
  destruct (has_content content) as [text|].
  - rewrite Hparse, He. by exists w1.
  - by exists w1.
Qed.

(** One round of the loop records the entry of the source. *)
Lemma scrape_round source_name url b (parse : string -> M (list string))
    (urls_of : Env -> string -> list string) srcs results w :
  (forall text w', parse text w' = (Returned (urls_of (env w') text), w')) ->
  (forall n u ua, env_http (env w) n u ua = env_http (env w) 0 u "") ->
  exists w1,
    scrape_loop
      ((source_name,
        let* content := fetch_url url b in
        match has_content content with
        | Some text => parse text
        | None => ret []
        end) :: srcs) results w
    = scrape_loop srcs
        (dict_set source_name
           (source_entry (env_http (env w) 0 url "") (urls_of (env w)))
           results) w1 /\
    env w1 = env w /\ files w1 = files w.
Proof.
  intros Hparse H. rewrite scrape_loop_step.
  destruct (scrape_content url b parse urls_of w (env_http (env w) 0 url "")
              Hparse (fun n ua => H n url ua)) as (w1 & Hs & He & Hf).
  rewrite Hs. unfold source_entry.
  destruct (fetch_result (env_http (env w) 0 url "")) as [content|e].
  - eexists. split; [reflexivity|]. done.
  - exists w1. done.
Qed.

(** At a peer with one answer per URL, [scrape_all_sources] returns the
    results of the content served, and leaves the files alone. *)
Lemma scrape_all_sources_content self w :
  (forall n u ua, env_http (env w) n u ua = env_http (env w) 0 u "") ->
  exists w',
    scrape_all_sources self w = (Returned (content_results (env w) self), w') /\
    env w' = env w /\ files w' = files w.
Proof.
  intros H. unfold scrape_all_sources, sources, scrape_dexpose,
    scrape_ransomware_live, scrape_redpacket_security. cbv zeta.
  destruct (scrape_round "dexpose.io" "https://dexpose.io/sitemap-0.xml" false
              (fun text => parse_xml_sitemap self text "dexpose.io")
              (fun e text => sitemap_urls e self text)
              [ ("ransomware.live",
                 let* content :=
                   fetch_url "https://www.ransomware.live/sitemap.xml" false in
                 match has_content content with
                 | Some text => parse_xml_sitemap self text "ransomware.live"
                 | None => ret []
                 end);
                ("redpacketsecurity.com",
                 let* content :=
                   fetch_url "https://www.redpacketsecurity.com/" true in
                 match has_content content with
                 | Some text =>
                     parse_html_links self text
                       "https://www.redpacketsecurity.com/"
                       "redpacketsecurity.com"
                 | None => ret []
                 end) ] [] w
              (fun text w' => parse_xml_sitemap_run self text _ w') H)
    as (w1 & R1 & E1 & F1).
  rewrite R1.
  assert (H1 : forall n u ua,
    env_http (env w1) n u ua = env_http (env w1) 0 u "") by (by rewrite E1).
  destruct (scrape_round "ransomware.live"
              "https://www.ransomware.live/sitemap.xml" false
              (fun text => parse_xml_sitemap self text "ransomware.live")
              (fun e text => sitemap_urls e self text)
              [ ("redpacketsecurity.com",
                 let* content :=
                   fetch_url "https://www.redpacketsecurity.com/" true in
                 match has_content content with
                 | Some text =>
                     parse_html_links self text
                       "https://www.redpacketsecurity.com/"
                       "redpacketsecurity.com"
                 | None => ret []
                 end) ]
              (dict_set "dexpose.io"
                 (source_entry
                    (env_http (env w) 0 "https://dexpose.io/sitemap-0.xml" "")
                    (fun text => sitemap_urls (env w) self text)) []) w1
              (fun text w' => parse_xml_sitemap_run self text _ w') H1)
    as (w2 & R2 & E2 & F2).
  rewrite R2.
  assert (H2 : forall n u ua,
    env_http (env w2) n u ua = env_http (env w2) 0 u "") by (by rewrite E2).
  destruct (scrape_round "redpacketsecurity.com"
              "https://www.redpacketsecurity.com/" true
              (fun text => parse_html_links self text
                             "https://www.redpacketsecurity.com/"
                             "redpacketsecurity.com")
              (fun e text => links_urls e self text
                               "https://www.redpacketsecurity.com/")
              []
              (dict_set "ransomware.live"
                 (source_entry
                    (env_http (env w1) 0
                       "https://www.ransomware.live/sitemap.xml" "")
                    (fun text => sitemap_urls (env w1) self text))
                 (dict_set "dexpose.io"
                    (source_entry
                       (env_http (env w) 0 "https://dexpose.io/sitemap-0.xml" "")
                       (fun text => sitemap_urls (env w) self text)) [])) w2
              (fun text w' => parse_html_links_run self text _ _ w') H2)
    as (w3 & R3 & E3 & F3).
  rewrite R3. exists w3. rewrite E2, E1. split; [reflexivity|].
  split; congruence.
Qed.

Lemma links_loop_same (e e' : Env) self base_url hrefs : forall urls_,
  (forall b h, env_urljoin e' b h = env_urljoin e b h) ->
  (forall u, env_netloc e' u = env_netloc e u) ->
  links_loop self e' base_url hrefs urls_ = links_loop self e base_url hrefs urls_.
Proof.
  intros urls_ Hj Hn. revert urls_.
  induction hrefs as [|href hrefs IH]; intros urls_; cbn [links_loop]; [done|].
  rewrite Hj. destruct (env_urljoin e base_url href) as [a|]; [|done].
  rewrite !Hn.
  destruct (env_netloc e a) as [n1|], (env_netloc e base_url) as [n2|];
    try done.
  destruct (String.eqb n1 n2); [|apply IH].
  destruct (_filter_url_by_date self a None) as [[]|]; [apply IH..|done].
Qed.

Lemma same_content_url_only (e e' : Env) :
  same_content e e' ->
  (forall n u ua, env_http e n u ua = env_http e 0 u "") /\
  (forall n u ua, env_http e' n u ua = env_http e' 0 u "") /\
  (forall u, env_http e' 0 u "" = env_http e 0 u "").
Proof.
  intros (H & _). repeat split; intros.
  - by rewrite (H n 0 u ua ""), (H 0 0 u "" "").
  - by rewrite <- (H 0 n u "" ua), <- (H 0 0 u "" "").
  - by rewrite <- (H 0 0 u "" "").
Qed.

(** An environment with the same content gives, source by source, URLs
    among those of the first. *)
Lemma content_results_same (e e' : Env) self s u :
  same_content e e' ->
  u ∈ report_urls (content_results e' self) s ->
  u ∈ report_urls (content_results e self) s.
Proof.
  intros Hsame.
  destruct (same_content_url_only e e' Hsame) as (_ & _ & Hhttp).
  destruct Hsame as (_ & Hsm & Hhr & Hj & Hn & Hset).
  assert (Hxml : forall x, sitemap_urls e' self x = sitemap_urls e self x).
  { intros x. unfold sitemap_urls. by rewrite Hsm. }
  unfold report_urls, content_results. cbn [MultiSourceStorage.dict_get].
  rewrite !Hhttp.
  destruct (String.eqb s "dexpose.io").
  { unfold source_entry. destruct (fetch_result _) as [c|]; [|done].
    destruct (has_content c); [|done]. by rewrite Hxml. }
  destruct (String.eqb s "ransomware.live").
  { unfold source_entry. destruct (fetch_result _) as [c|]; [|done].
    destruct (has_content c); [|done]. by rewrite Hxml. }
  destruct (String.eqb s "redpacketsecurity.com"); [|done].
  unfold source_entry. destruct (fetch_result _) as [c|]; [|done].
  destruct (has_content c) as [text|]; [|done].
  unfold links_urls. rewrite Hhr.
  destruct (env_hrefs e text) as [hrefs|]; [|done].
  rewrite (links_loop_same e e') by done.
  destruct (links_loop self e _ hrefs []) as [urls_ []]; [apply Hset | done].
Qed.

Lemma content_results_keys (e : Env) self :
  NoDup (content_results e self).*1 /\
  forall s, s ∈ (content_results e self).*1 -> s ∈ known_sources.
Proof.
  split; [|done]. cbn. apply NoDup_ListNoDup.
  repeat constructor; cbn; intuition discriminate.
Qed.

Lemma same_reading_trans w1 w2 w3 :
  same_reading w1 w2 -> same_reading w2 w3 -> same_reading w1 w3.
Proof. intros H1 H2 q. by rewrite H2, H1. Qed.

(** [main], up to the update of the stores, at a peer with one answer per
    URL: the scraper is built, the content is scraped, and [main_dedup]
    runs on it in a world whose stores read as at the start. *)
Lemma main_pipeline_content base timeout_ max_retries_ filter_date_ w :
  (forall n u ua, env_http (env w) n u ua = env_http (env w) 0 u "") ->
  exists self wb,
    init timeout_ max_retries_ filter_date_ = Returned self /\
    main_pipeline base timeout_ max_retries_ filter_date_ w
    = main_dedup (content_results (env w) self) (storage_at base) wb /\
    same_reading w wb /\ env wb = env w.
Proof.
  intros H.
  destruct (multi_init_run base w) as (wa & Hinit & Hsa).
  destruct (init_returns timeout_ max_retries_ filter_date_) as [d Hd].
  assert (Ea : env wa = env w) by (by destruct Hsa as (_ & ? & _)).
  destruct (scrape_all_sources_content (mk timeout_ max_retries_ d) wa)
    as (wb & Hscrape & Eb & Fb); [by rewrite Ea|].
  exists (mk timeout_ max_retries_ d), wb. split; [done|]. split.
  - unfold main_pipeline. unfold bind at 1. rewrite Hinit.
    unfold bind at 1. unfold lift. rewrite Hd.
    unfold bind at 1. rewrite Hscrape. by rewrite Ea.
  - split; [|congruence].
    apply (same_reading_trans _ wa);
      [by destruct Hsa as (? & _) | by apply same_files_reading].
Qed.

(** C5 (idempotence). Let the peer serve a fixed set of documents: one
    answer per URL. The pipeline of [main] (stores, scraper, scraping with
    its filter, identification of the new URLs, update of the stores) runs
    to its end; run again on the stores it left, at a peer that serves the
    same documents, it reports no URL at all: the report is the empty
    dictionary and the total is 0. This holds for the world the first run
    left, and for any world whose stores read the same, whatever its
    clock, its random draws and the order in which it enumerates a set. *)
Theorem pipeline_idempotent base timeout_ max_retries_ filter_date_ w0 :
  same_content (env w0) (env w0) ->
  exists report1 w1,
    main_pipeline base timeout_ max_retries_ filter_date_ w0
      = (Returned (report1, total_len report1), w1) /\
    (exists w2,
       main_pipeline base timeout_ max_retries_ filter_date_ w1
       = (Returned ([], 0), w2)) /\
    (forall w1',
       same_reading w1 w1' -> same_content (env w0) (env w1') ->
       exists w2,
         main_pipeline base timeout_ max_retries_ filter_date_ w1'
         = (Returned ([], 0), w2)).
Proof.
  intros Hfixed.
  destruct (same_content_url_only _ _ Hfixed) as (Hurl & _ & _).
  destruct (main_pipeline_content base timeout_ max_retries_ filter_date_ w0
              Hurl) as (self & wb & Hself & Hrun & Hread & Eb).
  destruct (content_results_keys (env w0) self) as [Hnd Hknown].
  assert (Hreplay : forall e',
    same_content (env w0) e' ->
    exists report1 w1,
      main_dedup (content_results (env w0) self) (storage_at base) wb
        = (Returned (report1, total_len report1), w1) /\
      env w1 = env wb /\
      forall w3, same_reading w1 w3 ->
        exists w4,
          main_dedup (content_results e' self) (storage_at base) w3
          = (Returned ([], 0), w4)).
  { intros e' He'.
    destruct (content_results_keys e' self) as [Hnd' Hknown'].
    apply (main_dedup_replay base _ _ wb Hnd Hknown Hnd' Hknown').
    intros s u. by apply content_results_same. }
  destruct (Hreplay (env w0) Hfixed) as (report1 & w1 & Hdedup & E1 & _).
  assert (Hsecond : forall w1',
    same_reading w1 w1' -> same_content (env w0) (env w1') ->
    exists w2,
      main_pipeline base timeout_ max_retries_ filter_date_ w1'
      = (Returned ([], 0), w2)).
  { intros w1' Hr Hc.
    destruct (same_content_url_only _ _ Hc) as (_ & Hurl' & _).
    destruct (main_pipeline_content base timeout_ max_retries_ filter_date_
                w1' Hurl') as (self' & wb' & Hself' & Hrun' & Hread' & _).
    assert (self' = self) as -> by congruence.
    destruct (Hreplay (env w1') Hc) as (r & w & Hd & _ & Hnext).
    assert (w = w1) as -> by congruence.
    rewrite Hrun'. apply Hnext. by apply (same_reading_trans _ w1'). }
  exists report1, w1. rewrite Hrun. split; [exact Hdedup|].
  split; [|exact Hsecond].
  apply Hsecond; [done|].
  assert (Ew : env w1 = env w0) by congruence. by rewrite Ew.
Qed.

Lemma content_env_fixed : same_content content_env content_env.
Proof.
  unfold same_content.
  split; [|split; [|split; [|split; [|split]]]]; intros;
    try reflexivity; assumption.
Qed.

(** [pipeline_idempotent] at the sample content. *)
Lemma pipeline_idempotent_witness :
  same_content content_env content_env /\
  exists report1 w1,
    main_pipeline "data" 30 3 "2025-01-14" (world_of content_env one_url_store)
      = (Returned (report1, total_len report1), w1) /\
    (exists w2,
       main_pipeline "data" 30 3 "2025-01-14" w1 = (Returned ([], 0), w2)) /\
    (forall w1',
       same_reading w1 w1' -> same_content content_env (env w1') ->
       exists w2,
         main_pipeline "data" 30 3 "2025-01-14" w1' = (Returned ([], 0), w2)).
Proof.
  split; [exact content_env_fixed|].
  exact (pipeline_idempotent "data" 30 3 "2025-01-14"
           (world_of content_env one_url_store) content_env_fixed).
Defined.

(** The two runs, computed: the first one reports three URLs (the entry of
    2025-01-10 is filtered out, the source that denies access twice gives
    nothing, the link that stands twice is reported once); the second one,
    in the world the first one left, reports none. *)
Example pipeline_twice :
  let run := main_pipeline "data" 30 3 "2025-01-14" in
  let w0 := world_of content_env one_url_store in
  (run w0).1
    = Returned
        ([ ("dexpose.io",
            ["https://dexpose.io/two"; "https://dexpose.io/three"]);
           ("redpacketsecurity.com",
            ["https://www.redpacketsecurity.com//2025/02/01/a"]) ], 3) /\
  (run (run w0).2).1 = Returned ([], 0).
Proof. split; vm_compute; reflexivity. Qed.

End Replay.

(** * Further properties *)

(** ** Statistics of a store *)

Section Statistics.

Import StorageStats.

Implicit Types (w : World) (p src : string) (m : gmap string SeenRecord)
  (acc : gmap string nat).

Lemma counters_sum_insert_fresh acc src n :
  acc !! src = None -> counters_sum (<[src := n]> acc) = n + counters_sum acc.
Proof.
  intros H. unfold counters_sum.
  rewrite map_fold_insert_L; [done | intros; lia | done].
Qed.

Lemma counters_sum_insert acc src n :
  counters_sum (<[src := n]> acc) + default 0 (acc !! src)
  = n + counters_sum acc.
Proof.
  destruct (acc !! src) as [c|] eqn:H; simpl.
  - rewrite <- (insert_delete_id acc src c H) at 2.
    rewrite <- (insert_delete_eq acc src n).
    rewrite !counters_sum_insert_fresh by apply lookup_delete_eq. lia.
  - rewrite counters_sum_insert_fresh by done. lia.
Qed.

(** The counting loop of [get_stats]: each source gets the number of
    records that name it, no source gets zero, and the counters add up to
    the number of records. *)
Lemma count_sources_spec m :
  let sources := map_fold (fun _ url_data acc => count_source url_data acc)
                   ∅ m in
  (forall src, default 0 (sources !! src) = records_of src m) /\
  (forall src, sources !! src <> Some 0) /\
  counters_sum sources = size m.
Proof.
  cbv zeta.
  apply (map_fold_weak_ind
           (fun acc m =>
              (forall src, default 0 (acc !! src) = records_of src m) /\
              (forall src, acc !! src <> Some 0) /\
              counters_sum acc = size m)).
  - split; [|split].
    + intros src. unfold records_of. by rewrite map_filter_empty.
    + intros src. by rewrite lookup_empty.
    + done.
  - intros u r m' acc Hu (Hc & Hz & Hs). unfold count_source.
    split; [|split].
    + intros src. unfold records_of.
      destruct (decide (source r = src)) as [<-|Hne].
      * rewrite lookup_insert_eq. simpl.
        rewrite map_filter_insert_True by done.
        rewrite map_size_insert_None
          by (by rewrite map_lookup_filter_None; left).
        rewrite Hc. unfold records_of. lia.
      * rewrite lookup_insert_ne by done.
        rewrite map_filter_insert_not'; [apply Hc | done |].
        intros y Hy. congruence.
    + intros src. destruct (decide (source r = src)) as [<-|Hne].
      * rewrite lookup_insert_eq. intros [= H]. lia.
      * rewrite lookup_insert_ne by done. apply Hz.
    + rewrite map_size_insert_None by done.
      pose proof (counters_sum_insert acc (source r)
                    (default 0 (acc !! source r) + 1)). lia.
Qed.

Lemma get_stats_run p w :
  get_stats p w =
    (Returned
       (mkStats (size (urls (stored w p))) (last_updated (stored w p))
          (map_fold (fun _ url_data acc => count_source url_data acc) ∅
             (urls (stored w p))) p), w).
Proof. unfold get_stats, bind. by rewrite load_data_eq. Qed.

(** Statistics of one store. [get_stats] reads the store and changes
    nothing. The total is the number of records; the counter of a source is
    the number of records that name it, and a source without record has no
    counter; the counters add up to the total; [last_updated] and the file
    name are those of the store. A file that is missing or cannot be read
    counts as an empty store. *)
Theorem get_stats_consistent p w :
  exists st,
    get_stats p w = (Returned st, w) /\
    stats_total_urls st = size (urls (stored w p)) /\
    (forall src,
       default 0 (stats_sources st !! src) = records_of src (urls (stored w p))) /\
    (forall src, stats_sources st !! src <> Some 0) /\
    counters_sum (stats_sources st) = stats_total_urls st /\
    stats_last_updated st = last_updated (stored w p) /\
    stats_file st = p /\
    (files w !! p = None \/ files w !! p = Some Corrupt ->
     stats_total_urls st = 0 /\ stats_sources st = ∅ /\
     stats_last_updated st = None).
Proof.
  rewrite get_stats_run. eexists. split; [reflexivity|]. cbn.
  destruct (count_sources_spec (urls (stored w p))) as (H1 & H2 & H3).
  repeat split; try done.
  all: rewrite stored_lookup; destruct H as [-> | ->]; done.
Qed.

Example get_stats_sample :
  exists st,
    get_stats "data/dexpose_urls.json" (world_of sample_env one_url_store)
      = (Returned st, world_of sample_env one_url_store) /\
    stats_total_urls st = 1 /\
    stats_sources st !! "dexpose.io" = Some 1 /\
    stats_sources st !! "ransomware.live" = None.
Proof. eexists. split; [reflexivity|]. repeat split; vm_compute; done. Qed.

(** *** The order of strings *)

Lemma string_compare_lt_trans (a : string) : forall b c,
  String.compare a b = Lt -> String.compare b c = Lt ->
  String.compare a c = Lt.
Proof.
  induction a as [|x a IH]; intros [|y b] [|z c]; simpl; try done.
  unfold Ascii.compare.
  destruct (N.compare_spec (N_of_ascii x) (N_of_ascii y)) as [Hxy|Hxy|Hxy];
    destruct (N.compare_spec (N_of_ascii y) (N_of_ascii z)) as [Hyz|Hyz|Hyz];
    try done; intros H1 H2.
  - rewrite (proj2 (N.compare_eq_iff _ _)) by congruence. by apply (IH b c).
  - by rewrite (proj2 (N.compare_lt_iff _ _)) by lia.
  - by rewrite (proj2 (N.compare_lt_iff _ _)) by lia.
  - by rewrite (proj2 (N.compare_lt_iff _ _)) by lia.
Qed.

Lemma string_compare_refl (a : string) : String.compare a a = Eq.
Proof.
  induction a as [|x a IH]; simpl; [done|].
  unfold Ascii.compare. by rewrite N.compare_refl.
Qed.

Lemma string_leb_refl (a : string) : String.leb a a = true.
Proof. unfold String.leb. by rewrite string_compare_refl. Qed.

Lemma string_leb_trans (a b c : string) :
  String.leb a b = true -> String.leb b c = true -> String.leb a c = true.
Proof.
  unfold String.leb.
  destruct (String.compare a b) eqn:Hab; [| |done];
    destruct (String.compare b c) eqn:Hbc; try done; intros _ _.
  - apply String.compare_eq_iff in Hab, Hbc. subst.
    by rewrite string_compare_refl.
  - apply String.compare_eq_iff in Hab. subst. by rewrite Hbc.
  - apply String.compare_eq_iff in Hbc. subst. by rewrite Hab.
  - by rewrite (string_compare_lt_trans a b c Hab Hbc).
Qed.

(** [max] returns an element that no element exceeds. *)
Lemma max_from_spec (l : list string) : forall t : string,
  max_from t l ∈ t :: l /\
  forall x, x ∈ t :: l -> String.leb x (max_from t l) = true.
Proof.
  induction l as [|y l IH]; intros t; simpl.
  - split; [by left|]. intros x Hx. apply list_elem_of_singleton in Hx as ->.
    apply string_leb_refl.
  - destruct (IH (if String.ltb t y then y else t)) as [Hin Hmax].
    assert (Hm : String.leb t (if String.ltb t y then y else t) = true /\
                 String.leb y (if String.ltb t y then y else t) = true).
    { unfold String.ltb, String.leb.
      destruct (String.compare t y) eqn:Hc.
      - apply String.compare_eq_iff in Hc as ->.
        by rewrite string_compare_refl.
      - by rewrite Hc, string_compare_refl.
      - by rewrite (String.compare_antisym y t), Hc, string_compare_refl. }
    destruct Hm as [Hm Hy]. split.
    + apply elem_of_cons in Hin as [->|Hin].
      * destruct (String.ltb t y); [right; by left | by left].
      * right. by right.
    + intros x Hx. apply elem_of_cons in Hx as [->|Hx].
      * eapply string_leb_trans; [exact Hm|]. apply Hmax. by left.
      * apply elem_of_cons in Hx as [->|Hx].
        -- eapply string_leb_trans; [exact Hy|]. apply Hmax. by left.
        -- apply Hmax. by right.
Qed.

Lemma max_or_none_spec (l : list string) :
  (max_or_none l = None <-> l = []) /\
  (forall t : string, max_or_none l = Some t ->
     t ∈ l /\ forall x, x ∈ l -> String.leb x t = true).
Proof.
  destruct l as [|y l]; simpl; [done|]. split; [done|].
  intros t [= <-]. apply max_from_spec.
Qed.

Lemma combined_loop_run w : forall (sts : list (string * string))
    (total : nat) (per : list (string * nat)) (dates : list string),
  combined_loop sts total per dates w =
    (Returned
       (total + list_sum (map (fun sp : string * string =>
                                 size (urls (stored w sp.2))) sts),
        fold_left (fun d (sp : string * string) =>
                     dict_set sp.1 (size (urls (stored w sp.2))) d) sts per,
        (dates ++ update_dates w (MultiSourceStorage.mk "" sts))%list), w).
Proof.
  induction sts as [|[src pth] sts IH]; intros total per dates.
  - cbn. by rewrite Nat.add_0_r, app_nil_r.
  - cbn [combined_loop]. unfold bind at 1. rewrite get_stats_run.
    cbn [stats_total_urls stats_last_updated]. rewrite IH.
    unfold update_dates. simpl.
    rewrite Nat.add_assoc.
    destruct (last_updated (stored w pth)) as [[|c t]|]; simpl;
      by rewrite <- ?app_assoc.
Qed.

(** Combined statistics. [get_combined_stats] reads the three stores and
    changes nothing. It lists the number of records of each source in the
    order of the sources, their sum as the total, and three as the number of
    sources; its [last_updated] is [None] exactly when no store has a
    non-empty [last_updated], and otherwise it is one of them that no other
    one exceeds in the order of strings. *)
Theorem get_combined_stats_spec base w :
  exists cs,
    get_combined_stats (storage_at base) w = (Returned cs, w) /\
    urls_per_source cs
      = map (fun sp : string * string => (sp.1, size (urls (stored w sp.2))))
          (MultiSourceStorage.storages (storage_at base)) /\
    total_urls_across_all_sources cs = list_sum (map snd (urls_per_source cs)) /\
    number_of_sources cs = 3 /\
    (combined_last_updated cs = None <-> update_dates w (storage_at base) = []) /\
    (forall t, combined_last_updated cs = Some t ->
       t ∈ update_dates w (storage_at base) /\
       forall t', t' ∈ update_dates w (storage_at base) ->
         String.leb t' t = true).
Proof.
  unfold get_combined_stats. unfold bind. rewrite combined_loop_run.
  eexists. split; [reflexivity|].
  cbn [urls_per_source total_urls_across_all_sources number_of_sources
       combined_last_updated fst snd].
  split; [reflexivity|]. split; [cbn; lia|]. split; [reflexivity|].
  change (([] ++ update_dates w (MultiSourceStorage.mk ""
             (MultiSourceStorage.storages (storage_at base))))%list)
    with (update_dates w (storage_at base)).
  apply max_or_none_spec.
Qed.

(** Three stores: the newest date is reported. *)
Example combined_stats_sample :
  exists cs,
    get_combined_stats (storage_at "data")
      (world_of sample_env
         (<["data/ransomware_live_urls.json" :=
              Json (mkData ∅ (Some "2025-01-12T08:00:00"))]> one_url_store))
    = (Returned cs,
       world_of sample_env
         (<["data/ransomware_live_urls.json" :=
              Json (mkData ∅ (Some "2025-01-12T08:00:00"))]> one_url_store)) /\
    total_urls_across_all_sources cs = 1 /\
    combined_last_updated cs = Some "2025-01-12T08:00:00".
Proof. eexists. split; [reflexivity|]. split; vm_compute; done. Qed.

End Statistics.

(** ** Edge cases of the stores *)

Section StoreEdges.

Implicit Types (w : World) (p src s : string) (l : list string)
  (items : list (string * list string)).

Lemma identify_loop_unknown st items : forall acc w s,
  s ∈ items.*1 ->
  MultiSourceStorage.dict_get s (MultiSourceStorage.storages st) = None ->
  identify_loop items st acc w = (Raised ValueError, w).
Proof.
  induction items as [|[k lk] items IH]; intros acc w s Hs Hnone.
  - by apply elem_of_nil in Hs.
  - cbn [identify_loop]. unfold bind at 1. rewrite get_seen_run.
    destruct (MultiSourceStorage.dict_get k (MultiSourceStorage.storages st))
      as [pk|] eqn:Hk; [|done].
    assert (Hs' : s ∈ items.*1).
    { cbn in Hs. apply elem_of_cons in Hs as [->|Hs]; [congruence | done]. }
    destruct (filter _ lk); by apply (IH _ _ s).
Qed.

(** A source without store. When the scraped results name a source that
    has no store, [main]'s identification of the new URLs raises
    [ValueError], and the world is left as it was: no store has been
    written, not even those of the sources that come first. *)
Theorem unknown_source_aborts base all_urls w s :
  s ∈ all_urls.*1 -> s ∉ known_sources ->
  main_dedup all_urls (storage_at base) w = (Raised ValueError, w).
Proof.
  intros Hs Hunknown. unfold main_dedup, identify_new_urls_per_source, bind.
  rewrite (identify_loop_unknown _ _ _ _ s Hs); [done|].
  destruct (MultiSourceStorage.dict_get s _) eqn:Hg; [|done].
  exfalso. apply Hunknown, (storage_at_known base). eauto.
Qed.

(** [unknown_source_aborts] at results that name a fourth source after a
    configured one. *)
Lemma unknown_source_aborts_witness :
  "example.org" ∈ ([("dexpose.io", ["https://dexpose.io/b"]);
                    ("example.org", ["https://example.org/x"])].*1) /\
  ("example.org" ∉ known_sources) /\
  main_dedup [("dexpose.io", ["https://dexpose.io/b"]);
              ("example.org", ["https://example.org/x"])]
    (storage_at "data") (world_of sample_env one_url_store)
  = (Raised ValueError, world_of sample_env one_url_store).
Proof.
  assert (H1 : "example.org"
                 ∈ [("dexpose.io", ["https://dexpose.io/b"]);
                    ("example.org", ["https://example.org/x"])].*1)
    by (cbn; set_solver).
  assert (H2 : "example.org" ∉ known_sources)
    by (unfold known_sources; cbn; set_solver).
  split; [exact H1|]. split; [exact H2|].
  exact (unknown_source_aborts "data" _ _ "example.org" H1 H2).
Defined.








End StoreEdges.

(** ** The scraper: fetching, parsing, and a whole run *)

Section ScraperEdges.

Import URLScraper.

Implicit Types (w : World) (self : URLScraper.t) (url : string).

Lemma next_choice_in w : next_choice w ∈ USER_AGENTS.
Proof.
  unfold next_choice. apply list_elem_of_In, nth_In, Nat.mod_upper_bound.
  discriminate.
Qed.

(** A fetch that starts with a rotated identity: one request. *)
Lemma fetch_url_true_run url w :
  fetch_url url true w =
    (fetch_result (env_http (env w) (requests w) url (next_choice w)),
     mkWorld (env w) (files w) (clock_reads w) (S (requests w)) (S (draws w))
             (trace w ++ [EvRequest url (next_choice w)])).
Proof.
  cbv [fetch_url fetch_url_depth fetch_url_body try_except bind
       random_choice_user_agent session_get ret raise negb].
  cbn [env files clock_reads requests draws trace].
  fold (next_choice w).
  destruct (env_http (env w) (requests w) url (next_choice w)) as [text|e];
    [done|].
  destruct e as [| |c| | |]; cbn [fetch_result]; try done.
  by destruct (c =? 403)%Z.
Qed.

(** A fetch that starts with the default identity: one request, and on a
    denial a sleep and a fetch with a rotated identity. *)
Lemma fetch_url_false_run url w :
  fetch_url url false w =
    let resp := env_http (env w) (requests w) url default_user_agent in
    let w1 := mkWorld (env w) (files w) (clock_reads w) (S (requests w))
                (draws w) (trace w ++ [EvRequest url default_user_agent]) in
    match resp with
    | Raised (HTTPError c) =>
        if (c =? 403)%Z then
          fetch_url url true
            (mkWorld (env w) (files w) (clock_reads w) (S (requests w))
               (draws w)
               ((trace w ++ [EvRequest url default_user_agent]) ++ [EvSleep 2]))
        else (Returned None, w1)
    | _ => (fetch_result resp, w1)
    end.
Proof.
  rewrite fetch_url_unfold.
  cbv [fetch_url_body try_except bind session_get time_sleep emit ret raise
       negb].
  cbn [env files clock_reads requests draws trace].
  fold default_user_agent. cbv zeta.
  destruct (env_http (env w) (requests w) url default_user_agent) as [text|e];
    [done|].
  destruct e as [| |c| | |]; cbn [fetch_result]; try done.
  by destruct (c =? 403)%Z.
Qed.

(** What a fetch leaves alone, and its number of requests. *)
Lemma fetch_url_frame url (b : bool) w :
  exists r w',
    fetch_url url b w = (r, w') /\
    env w' = env w /\ files w' = files w /\
    clock_reads w' = clock_reads w /\
    requests w < requests w' /\
    requests w' <= requests w + (if b then 1 else 2).
Proof.
  destruct b.
  - rewrite fetch_url_true_run. eexists _, _. split; [reflexivity|].
    cbn [env files clock_reads requests]. split_and!; try done; lia.
  - rewrite fetch_url_false_run. cbv zeta.
    destruct (env_http (env w) (requests w) url default_user_agent)
      as [text|e].
    + eexists _, _. split; [reflexivity|].
      cbn [env files clock_reads requests]. split_and!; try done; lia.
    + destruct e as [| |c| | |]; try destruct (c =? 403)%Z;
        rewrite ?fetch_url_true_run;
        (eexists _, _; split; [reflexivity|]);
        cbn [env files clock_reads requests]; split_and!; try done; lia.
Qed.

(** The effort of one fetch. [fetch_url] changes neither the files nor the
    clock, and never lets an exception of the [requests] hierarchy through.
    Either it makes one request and returns what that request gives (its
    text, or no content for an HTTP error, a timeout or another request
    error); or, when it started with the default identity and was denied
    with status 403, it sleeps two seconds, makes a second and last request
    with an identity of the rotation pool, and returns what that one gives.
    There is never a third request. *)
Theorem fetch_url_effort url (b : bool) w :
  exists r w',
    fetch_url url b w = (r, w') /\
    env w' = env w /\ files w' = files w /\
    clock_reads w' = clock_reads w /\
    (forall e, r = Raised e ->
       e = ValueError \/ e = IndexError \/ e = OtherException) /\
    ((exists ua,
        ua ∈ USER_AGENTS /\
        trace w' = (trace w ++ [EvRequest url ua])%list /\
        requests w' = S (requests w) /\
        r = fetch_result (env_http (env w) (requests w) url ua) /\
        (b = false ->
         ua = default_user_agent /\
         env_http (env w) (requests w) url ua <> Raised (HTTPError 403)))
     \/
     (exists ua,
        ua ∈ USER_AGENTS /\ b = false /\
        env_http (env w) (requests w) url default_user_agent
          = Raised (HTTPError 403) /\
        trace w' = (trace w ++ [EvRequest url default_user_agent; EvSleep 2;
                                EvRequest url ua])%list /\
        requests w' = S (S (requests w)) /\
        r = fetch_result (env_http (env w) (S (requests w)) url ua))).
Proof.
  assert (Hres : forall resp e, fetch_result resp = Raised e ->
            e = ValueError \/ e = IndexError \/ e = OtherException).
  { intros [text|[| |c| | |]] e; cbn; intros [= <-]; auto. }
  assert (Hdef : default_user_agent ∈ USER_AGENTS) by (by left).
  destruct b.
  - rewrite fetch_url_true_run. eexists _, _. split; [reflexivity|].
    cbn [env files clock_reads requests trace].
    split_and!; try done; [apply Hres|].
    left. exists (next_choice w). split_and!; try done. apply next_choice_in.
  - rewrite fetch_url_false_run. cbv zeta.
    destruct (env_http (env w) (requests w) url default_user_agent)
      as [text|e] eqn:Hfirst.
    + eexists _, _. split; [reflexivity|].
      cbn [env files clock_reads requests trace].
      split_and!; try done.
      left. exists default_user_agent. rewrite Hfirst. by split_and!.
    + destruct e as [| |c| | |];
        try (eexists _, _; split; [reflexivity|];
             cbn [env files clock_reads requests trace];
             split_and!; [done|done|done|apply Hres|];
             left; exists default_user_agent; rewrite Hfirst;
             by split_and!).
      destruct (c =? 403)%Z eqn:Hc.
      * apply Z.eqb_eq in Hc as ->. rewrite fetch_url_true_run.
        eexists _, _. split; [reflexivity|].
        cbn [env files clock_reads requests trace].
        split_and!; try done; [apply Hres|].
        right. exists (next_choice w).
        change (next_choice (mkWorld (env w) (files w) (clock_reads w)
                  (S (requests w)) (draws w)
                  ((trace w ++ [EvRequest url default_user_agent])
                     ++ [EvSleep 2])))
          with (next_choice w).
        rewrite <- !app_assoc. split_and!; try done. apply next_choice_in.
      * eexists _, _. split; [reflexivity|].
        cbn [env files clock_reads requests trace].
        split_and!; try done.
        left. exists default_user_agent. rewrite Hfirst.
        split_and!; try done. intros _. split; [done|].
        intros [= ->]. done.
Qed.

(** The loop of [parse_xml_sitemap] is never cut short by the filter. *)
Lemma sitemap_loop_kept self url_tags : forall urls_,
  sitemap_loop self url_tags urls_
  = (urls_ ++ kept_locs (filter_date self) url_tags)%list.
Proof.
  induction url_tags as [|[[u|] lastmod] tags IH]; intros urls_.
  - cbn. by rewrite app_nil_r.
  - cbn [sitemap_loop kept_locs omap list_omap].
    rewrite filter_url_by_date_spec. fold (kept (filter_date self) u lastmod).
    destruct (kept (filter_date self) u lastmod); rewrite IH;
      [by rewrite <- app_assoc | done].
  - cbn [sitemap_loop kept_locs omap list_omap]. apply IH.
Qed.

Lemma kept_spec D url lastmod :
  kept D url lastmod = true <->
  forall d, compared_date url lastmod = Some d -> not_before d D.
Proof.
  unfold kept, not_before, datetime_ge.
  destruct (compared_date url lastmod) as [d|]; [|by split].
  split.
  - intros H d' [= <-]. by destruct (datetime_compare d D).
  - intros H. specialize (H d eq_refl). by destruct (datetime_compare d D).
Qed.



Lemma kept_filter self url lastmod :
  kept (filter_date self) url lastmod = true <->
  URLScraper._filter_url_by_date self url lastmod = Returned true.
Proof.
  rewrite filter_url_by_date_spec. fold (kept (filter_date self) url lastmod).
  split; [by intros -> | by intros [= ->]].
Qed.



(** The sitemap of the sample peer: the entry of 2025-01-10 is dropped. *)
Example parse_xml_sitemap_sample :
  (parse_xml_sitemap sample_scraper "sitemap of dexpose" "dexpose.io"
     (world_of content_env ∅)).1
  = Returned ["https://dexpose.io/two"; "https://dexpose.io/three"].
Proof. vm_compute. reflexivity. Qed.

(** The loop of [parse_html_links]: what it appends, and what it appends
    when it runs to its end. *)
Lemma links_loop_spec self e base_url hrefs : forall acc r fin,
  links_loop self e base_url hrefs acc = (r, fin) ->
  (forall u, u ∈ acc -> u ∈ r) /\
  (forall u, u ∈ r ->
     u ∈ acc \/
     exists href n,
       href ∈ hrefs /\ env_urljoin e base_url href = Returned u /\
       env_netloc e u = Returned n /\ env_netloc e base_url = Returned n /\
       kept (filter_date self) u None = true) /\
  (fin = true ->
   forall href u n,
     href ∈ hrefs -> env_urljoin e base_url href = Returned u ->
     env_netloc e u = Returned n -> env_netloc e base_url = Returned n ->
     kept (filter_date self) u None = true -> u ∈ r).
Proof.
  induction hrefs as [|href hrefs IH]; intros acc r fin Hrun.
  - cbn in Hrun. injection Hrun as <- <-. split_and!; [done|by left|].
    intros _ href u n Hin. by apply elem_of_nil in Hin.
  - cbn [links_loop] in Hrun.
    destruct (env_urljoin e base_url href) as [au|ex] eqn:Hjoin.
    2:{ injection Hrun as <- <-. split_and!; [done|by left|done]. }
    destruct (env_netloc e au) as [n1|ex] eqn:Hn1.
    2:{ injection Hrun as <- <-. split_and!; [done|by left|done]. }
    destruct (env_netloc e base_url) as [n2|ex] eqn:Hn2.
    2:{ injection Hrun as <- <-. split_and!; [done|by left|done]. }
    rewrite filter_url_by_date_spec in Hrun.
    fold (kept (filter_date self) au None) in Hrun.
    destruct (String.eqb_spec n1 n2) as [->|Hne].
    + destruct (kept (filter_date self) au None) eqn:Hk.
      * destruct (IH _ _ _ Hrun) as (Hacc & Hsound & Hcompl). split_and!.
        -- intros u Hu. apply Hacc. set_solver.
        -- intros u Hu. destruct (Hsound u Hu) as [Ha|(h & n & ? & ?)].
           ++ apply elem_of_app in Ha as [?|Ha]; [by left|].
              apply list_elem_of_singleton in Ha as ->.
              right. exists href, n2. split_and!; try done. by left.
           ++ right. exists h, n. split; [by right | done].
        -- intros Hfin h u n Hin Hj H1 H2 Hku.
           apply elem_of_cons in Hin as [->|Hin]; [|by eapply Hcompl].
           assert (u = au) as -> by congruence. apply Hacc. set_solver.
      * destruct (IH _ _ _ Hrun) as (Hacc & Hsound & Hcompl). split_and!.
        -- done.
        -- intros u Hu. destruct (Hsound u Hu) as [?|(h & n & ? & ?)];
             [by left|].
           right. exists h, n. split; [by right | done].
        -- intros Hfin h u n Hin Hj H1 H2 Hku.
           apply elem_of_cons in Hin as [->|Hin]; [|by eapply Hcompl].
           assert (u = au) as -> by congruence. congruence.
    + destruct (IH _ _ _ Hrun) as (Hacc & Hsound & Hcompl). split_and!.
      * done.
      * intros u Hu. destruct (Hsound u Hu) as [?|(h & n & ? & ?)];
          [by left|].
        right. exists h, n. split; [by right | done].
      * intros Hfin h u n Hin Hj H1 H2 Hku.
        apply elem_of_cons in Hin as [->|Hin]; [|by eapply Hcompl].
        assert (u = au) as -> by congruence. congruence.
Qed.

(** The loop runs to its end when [urljoin] and [urlparse] answer. *)
Lemma links_loop_finishes self e base_url hrefs : forall acc,
  (forall href, href ∈ hrefs ->
     exists u n, env_urljoin e base_url href = Returned u /\
                 env_netloc e u = Returned n) ->
  (exists nb, env_netloc e base_url = Returned nb) ->
  (links_loop self e base_url hrefs acc).2 = true.
Proof.
  intros acc Hall [nb Hnb]. revert acc.
  induction hrefs as [|href hrefs IH]; intros acc; [done|].
  cbn [links_loop].
  destruct (Hall href) as (u & n & Hj & Hn); [by left|].
  rewrite Hj, Hn, Hnb, filter_url_by_date_spec.
  assert (Hall' : forall h, h ∈ hrefs ->
     exists u n, env_urljoin e base_url h = Returned u /\
                 env_netloc e u = Returned n)
    by (intros h Hh; apply Hall; by right).
  destruct (String.eqb n nb); [|by apply IH].
  destruct (match compared_date u None with
            | Some d => datetime_ge d (filter_date self)
            | None => true
            end); by apply IH.
Qed.

(** The links of a page. Let the parser read the page, and let the
    enumeration of a set give each of its elements once. Then
    [parse_html_links] changes nothing, and every URL it returns is the
    absolute form of a link of the page, lies on the host of the base URL,
    and is accepted by [_filter_url_by_date] without a hint. When moreover
    [urljoin] and [urlparse] answer for every link, the result has no
    duplicates and holds every such URL. *)
Theorem parse_html_links_same_site self html_content base_url source_name w
    hrefs :
  env_hrefs (env w) html_content = Returned hrefs ->
  (forall l u, u ∈ env_list_set (env w) l <-> u ∈ l) ->
  (forall l, NoDup (env_list_set (env w) l)) ->
  exists urls_,
    parse_html_links self html_content base_url source_name w
      = (Returned urls_, w) /\
    (forall u, u ∈ urls_ ->
       exists href n,
         href ∈ hrefs /\ env_urljoin (env w) base_url href = Returned u /\
         env_netloc (env w) u = Returned n /\
         env_netloc (env w) base_url = Returned n /\
         _filter_url_by_date self u None = Returned true) /\
    ((forall href, href ∈ hrefs ->
        exists u n, env_urljoin (env w) base_url href = Returned u /\
                    env_netloc (env w) u = Returned n) ->
     (exists nb, env_netloc (env w) base_url = Returned nb) ->
     NoDup urls_ /\
     forall href u n,
       href ∈ hrefs -> env_urljoin (env w) base_url href = Returned u ->
       env_netloc (env w) u = Returned n ->
       env_netloc (env w) base_url = Returned n ->
       _filter_url_by_date self u None = Returned true ->
       u ∈ urls_).
Proof.
  intros Hhrefs Hset Hnd. rewrite parse_html_links_run. unfold links_urls.
  rewrite Hhrefs.
  destruct (links_loop self (env w) base_url hrefs []) as [r fin] eqn:Hrun.
  destruct (links_loop_spec _ _ _ _ _ _ _ Hrun) as (_ & Hsound & Hcompl).
  assert (Hs : forall u, u ∈ r ->
    exists href n,
      href ∈ hrefs /\ env_urljoin (env w) base_url href = Returned u /\
      env_netloc (env w) u = Returned n /\
      env_netloc (env w) base_url = Returned n /\
      _filter_url_by_date self u None = Returned true).
  { intros u Hu. destruct (Hsound u Hu) as [Hnil|(h & n & ? & ? & ? & ? & Hk)];
      [by apply elem_of_nil in Hnil|].
    exists h, n. split_and!; try done. by apply kept_filter. }
  eexists. split; [reflexivity|]. split.
  - destruct fin; intros u Hu; apply Hs; [by apply Hset | done].
  - intros Hall Hnb.
    pose proof (links_loop_finishes self (env w) base_url hrefs [] Hall Hnb)
      as Hfin.
    rewrite Hrun in Hfin. cbn in Hfin. subst fin. split; [apply Hnd|].
    intros h u n Hin Hj H1 H2 Hd. apply Hset.
    apply (Hcompl eq_refl h u n); try done. by apply kept_filter.
Qed.

(** [parse_html_links_same_site] at the page of the sample peer, whose
    link occurs twice. *)
Lemma parse_html_links_same_site_witness :
  exists urls_,
    parse_html_links sample_scraper "page of redpacket"
      "https://www.redpacketsecurity.com/" "redpacketsecurity.com"
      (world_of content_env ∅) = (Returned urls_, world_of content_env ∅) /\
    (forall u, u ∈ urls_ ->
       exists href n,
         href ∈ ["/2025/02/01/a"; "/2025/02/01/a"] /\
         env_urljoin content_env "https://www.redpacketsecurity.com/" href
           = Returned u /\
         env_netloc content_env u = Returned n /\
         env_netloc content_env "https://www.redpacketsecurity.com/"
           = Returned n /\
         _filter_url_by_date sample_scraper u None = Returned true) /\
    ((forall href, href ∈ ["/2025/02/01/a"; "/2025/02/01/a"] ->
        exists u n,
          env_urljoin content_env "https://www.redpacketsecurity.com/" href
            = Returned u /\
          env_netloc content_env u = Returned n) ->
     (exists nb, env_netloc content_env "https://www.redpacketsecurity.com/"
                 = Returned nb) ->
     NoDup urls_ /\
     forall href u n,
       href ∈ ["/2025/02/01/a"; "/2025/02/01/a"] ->
       env_urljoin content_env "https://www.redpacketsecurity.com/" href
         = Returned u ->
       env_netloc content_env u = Returned n ->
       env_netloc content_env "https://www.redpacketsecurity.com/"
         = Returned n ->
       _filter_url_by_date sample_scraper u None = Returned true ->
       u ∈ urls_).
Proof.
  exact (parse_html_links_same_site sample_scraper "page of redpacket"
           "https://www.redpacketsecurity.com/" "redpacketsecurity.com"
           (world_of content_env ∅) _ eq_refl
           (fun l u => elem_of_remove_dups l u)
           (fun l => NoDup_remove_dups l)).
Defined.

(** The page of the sample peer: the link that occurs twice is returned
    once. *)
Example parse_html_links_sample :
  (parse_html_links sample_scraper "page of redpacket"
     "https://www.redpacketsecurity.com/" "redpacketsecurity.com"
     (world_of content_env ∅)).1
  = Returned ["https://www.redpacketsecurity.com//2025/02/01/a"].
Proof. vm_compute. reflexivity. Qed.

(** A scrape function: what it leaves alone, and its requests. *)
Lemma scrape_frame url (b : bool) (parse : string -> M (list string)) w :
  (forall text w1, exists l, parse text w1 = (Returned l, w1)) ->
  exists r w',
    (let* content := fetch_url url b in
     match has_content content with
     | Some text => parse text
     | None => ret []
     end) w = (r, w') /\
    env w' = env w /\ files w' = files w /\
    clock_reads w' = clock_reads w /\
    requests w < requests w' /\
    requests w' <= requests w + (if b then 1 else 2).
Proof.
  intros Hparse. unfold bind.
  destruct (fetch_url_frame url b w) as (r & w1 & -> & He & Hf & Hc & Hr).
  destruct r as [content|e]; [|by eexists _, _].
  destruct (has_content content) as [text|].
  - destruct (Hparse text w1) as [l ->]. by eexists _, _.
  - by eexists _, _.
Qed.

(** One round of the loop of [scrape_all_sources] keeps the frame. *)
Lemma scrape_round_frame source_name url (b : bool)
    (parse : string -> M (list string)) srcs results w :
  (forall text w1, exists l, parse text w1 = (Returned l, w1)) ->
  exists l w1,
    scrape_loop
      ((source_name,
        let* content := fetch_url url b in
        match has_content content with
        | Some text => parse text
        | None => ret []
        end) :: srcs) results w
    = scrape_loop srcs (dict_set source_name l results) w1 /\
    env w1 = env w /\ files w1 = files w /\
    clock_reads w1 = clock_reads w /\
    requests w < requests w1 /\
    requests w1 <= requests w + (if b then 1 else 2).
Proof.
  intros Hparse. rewrite scrape_loop_step.
  destruct (scrape_frame url b parse w Hparse)
    as (r & w1 & -> & He & Hf & Hc & Hr).
  destruct r as [l|e]; eexists _, _; (split; [reflexivity|]); by cbn.
Qed.

Lemma scrape_all_sources_frame self w :
  exists l1 l2 l3 w',
    scrape_all_sources self w
    = (Returned [ ("dexpose.io", l1); ("ransomware.live", l2);
                  ("redpacketsecurity.com", l3) ], w') /\
    env w' = env w /\ files w' = files w /\
    clock_reads w' = clock_reads w /\
    requests w + 3 <= requests w' <= requests w + 5.
Proof.
  assert (Hxml : forall name text w1, exists l,
            parse_xml_sitemap self text name w1 = (Returned l, w1))
    by (intros; rewrite parse_xml_sitemap_run; eauto).
  assert (Hhtml : forall base name text w1, exists l,
            parse_html_links self text base name w1 = (Returned l, w1))
    by (intros; rewrite parse_html_links_run; eauto).
  unfold scrape_all_sources, sources, scrape_dexpose, scrape_ransomware_live,
    scrape_redpacket_security. cbv zeta.
  destruct (scrape_round_frame "dexpose.io" "https://dexpose.io/sitemap-0.xml"
              false (fun text => parse_xml_sitemap self text "dexpose.io")
              [ ("ransomware.live",
                 let* content :=
                   fetch_url "https://www.ransomware.live/sitemap.xml" false in
                 match has_content content with
                 | Some text => parse_xml_sitemap self text "ransomware.live"
                 | None => ret []
                 end);
                ("redpacketsecurity.com",
                 let* content :=
                   fetch_url "https://www.redpacketsecurity.com/" true in
                 match has_content content with
                 | Some text =>
                     parse_html_links self text
                       "https://www.redpacketsecurity.com/"
                       "redpacketsecurity.com"
                 | None => ret []
                 end) ] [] w (Hxml _))
    as (l1 & w1 & -> & He1 & Hf1 & Hc1 & Hr1).
  destruct (scrape_round_frame "ransomware.live"
              "https://www.ransomware.live/sitemap.xml"
              false (fun text => parse_xml_sitemap self text "ransomware.live")
              [ ("redpacketsecurity.com",
                 let* content :=
                   fetch_url "https://www.redpacketsecurity.com/" true in
                 match has_content content with
                 | Some text =>
                     parse_html_links self text
                       "https://www.redpacketsecurity.com/"
                       "redpacketsecurity.com"
                 | None => ret []
                 end) ] (dict_set "dexpose.io" l1 []) w1 (Hxml _))
    as (l2 & w2 & -> & He2 & Hf2 & Hc2 & Hr2).
  destruct (scrape_round_frame "redpacketsecurity.com"
              "https://www.redpacketsecurity.com/" true
              (fun text => parse_html_links self text
                             "https://www.redpacketsecurity.com/"
                             "redpacketsecurity.com")
              [] (dict_set "ransomware.live" l2 (dict_set "dexpose.io" l1 []))
              w2 (Hhtml _ _))
    as (l3 & w3 & -> & He3 & Hf3 & Hc3 & Hr3).
  exists l1, l2, l3, w3. split; [reflexivity|].
  split_and!; try congruence; lia.
Qed.

(** A scraping run always ends well. Whatever the peers answer and
    whatever the parsers raise, [scrape_all_sources] raises nothing and
    returns one entry for each of the three sources, in their order. It
    changes neither the files nor the clock, and makes at least three
    requests and at most five: one for each source, and one more for each of
    the two sitemaps when it is denied. *)
Theorem scrape_all_sources_total self w :
  exists results w',
    scrape_all_sources self w = (Returned results, w') /\
    results.*1 = ["dexpose.io"; "ransomware.live"; "redpacketsecurity.com"] /\
    env w' = env w /\ files w' = files w /\
    clock_reads w' = clock_reads w /\
    requests w + 3 <= requests w' <= requests w + 5.
Proof.
  destruct (scrape_all_sources_frame self w)
    as (l1 & l2 & l3 & w' & Hrun & Hframe).
  by exists [ ("dexpose.io", l1); ("ransomware.live", l2);
              ("redpacketsecurity.com", l3) ], w'.
Qed.

End ScraperEdges.

(** ** Dates: order, zones and validity *)

Section DateEdges.

Import URLScraper.

Implicit Types (self : URLScraper.t) (url ts zone : string).

Lemma lex_compare_ge_trans (a : list Z) : forall b c,
  length a = length b -> length b = length c ->
  lex_compare a b <> Lt -> lex_compare b c <> Lt -> lex_compare a c <> Lt.
Proof.
  induction a as [|x a IH]; intros [|y b] [|z c]; cbn; try done.
  intros [= Hab] [= Hbc].
  destruct (Z.compare_spec x y), (Z.compare_spec y z), (Z.compare_spec x z);
    try done; try lia; eauto.
Qed.

Lemma not_before_trans d D2 D1 :
  not_before d D2 -> not_before D2 D1 -> not_before d D1.
Proof.
  unfold not_before, datetime_compare. by apply lex_compare_ge_trans.
Qed.

Lemma kept_later D1 D2 url lastmod :
  not_before D2 D1 -> kept D2 url lastmod = true -> kept D1 url lastmod = true.
Proof.
  intros HD. rewrite !kept_spec. intros H d Hd.
  by apply (not_before_trans d D2 D1); [apply H|].
Qed.

Lemma kept_locs_later D1 D2 tags :
  not_before D2 D1 -> kept_locs D2 tags `sublist_of` kept_locs D1 tags.
Proof.
  intros HD. induction tags as [|[[u|] lastmod] tags IH]; cbn; [done| |done].
  destruct (kept D2 u lastmod) eqn:H2.
  - rewrite (kept_later D1 D2 u lastmod HD H2). by apply sublist_skip.
  - destruct (kept D1 u lastmod); [by apply sublist_cons | done].
Qed.

(** A later cutoff keeps less. Let the cutoff of a second scraper be that
    of a first one or later. Every candidate the filter of the second
    scraper accepts is accepted by the filter of the first one, and the URLs
    the second scraper takes from a sitemap are, in their order, among those
    the first one takes from it. *)
Theorem later_cutoff_keeps_fewer self1 self2 xml_content source_name w :
  not_before (filter_date self2) (filter_date self1) ->
  (forall url lastmod,
     _filter_url_by_date self2 url lastmod = Returned true ->
     _filter_url_by_date self1 url lastmod = Returned true) /\
  exists l1 l2,
    parse_xml_sitemap self1 xml_content source_name w = (Returned l1, w) /\
    parse_xml_sitemap self2 xml_content source_name w = (Returned l2, w) /\
    l2 `sublist_of` l1.
Proof.
  intros HD. split.
  - intros url lastmod. rewrite !filter_url_by_date_spec.
    fold (kept (filter_date self1) url lastmod).
    fold (kept (filter_date self2) url lastmod).
    intros [= H]. f_equal. by apply (kept_later _ (filter_date self2)).
  - rewrite !parse_xml_sitemap_run. eexists _, _.
    split; [reflexivity|]. split; [reflexivity|].
    unfold sitemap_urls. destruct (env_sitemap (env w) xml_content); [|done].
    rewrite !sitemap_loop_kept. cbn [app]. by apply kept_locs_later.
Qed.

(** [later_cutoff_keeps_fewer] at the cutoffs 2025-01-14 and 2025-02-01 and
    the sitemap of the sample peer. *)
Lemma later_cutoff_keeps_fewer_witness :
  not_before (mkDatetime 2025 2 1 0 0 0) (filter_date sample_scraper) /\
  (forall url lastmod,
     _filter_url_by_date (mk 30 3 (mkDatetime 2025 2 1 0 0 0)) url lastmod
       = Returned true ->
     _filter_url_by_date sample_scraper url lastmod = Returned true) /\
  exists l1 l2,
    parse_xml_sitemap sample_scraper "sitemap of dexpose" "dexpose.io"
      (world_of content_env ∅) = (Returned l1, world_of content_env ∅) /\
    parse_xml_sitemap (mk 30 3 (mkDatetime 2025 2 1 0 0 0))
      "sitemap of dexpose" "dexpose.io"
      (world_of content_env ∅) = (Returned l2, world_of content_env ∅) /\
    l2 `sublist_of` l1.
Proof.
  assert (H : not_before (mkDatetime 2025 2 1 0 0 0)
                (filter_date sample_scraper)) by (vm_compute; discriminate).
  split; [exact H|].
  exact (later_cutoff_keeps_fewer sample_scraper
           (mk 30 3 (mkDatetime 2025 2 1 0 0 0)) "sitemap of dexpose"
           "dexpose.io" (world_of content_env ∅) H).
Defined.

(** The sitemap of the sample peer under the two cutoffs. *)
Example sitemap_two_cutoffs :
  sitemap_urls content_env sample_scraper "sitemap of dexpose"
    = ["https://dexpose.io/two"; "https://dexpose.io/three"] /\
  sitemap_urls content_env (mk 30 3 (mkDatetime 2025 2 1 0 0 0))
    "sitemap of dexpose" = ["https://dexpose.io/three"].
Proof. split; vm_compute; reflexivity. Qed.

Lemma split_head_found c (a b : string) :
  split_head c a <> a -> split_head c (a ++ b) = split_head c a.
Proof.
  induction a as [|x a IH]; simpl; [done|].
  destruct (Ascii.eqb x c); [done|]. intros H. rewrite IH; [done|].
  congruence.
Qed.

(** The text handed to [strptime] when a zone follows the timestamp. *)
Lemma cleaned_plus ts zone :
  split_head "Z" (split_head "+" (ts ++ String "+" zone))
  = split_head "Z" (split_head "+" ts).
Proof. by rewrite split_head_app. Qed.

Lemma cleaned_Z ts zone :
  split_head "Z" (split_head "+" (ts ++ String "Z" zone))
  = split_head "Z" (split_head "+" ts).
Proof.
  destruct (decide (split_head "+" ts = ts)) as [Heq|Hne].
  - rewrite (split_head_app_absent "+" ts _ Heq), Heq.
    change (split_head "+" (String "Z" zone))
      with (String "Z" (split_head "+" zone)).
    apply split_head_app.
  - by rewrite (split_head_found "+" ts _ Hne).
Qed.

Lemma parse_sitemap_date_cleaned (l1 l2 : string) :
  split_head "Z" (split_head "+" l1) = split_head "Z" (split_head "+" l2) ->
  _parse_sitemap_date l1 = _parse_sitemap_date l2.
Proof.
  intros Heq.
  assert (Hempty : forall l, l <> "" ->
            split_head "Z" (split_head "+" l) = "" ->
            _parse_sitemap_date l = Returned None).
  { intros l Hl Hc. rewrite parse_sitemap_date_unfold by done.
    cbv zeta. rewrite Hc. reflexivity. }
  destruct l1 as [|c1 l1], l2 as [|c2 l2]; [done| | |].
  - symmetry. by apply Hempty.
  - by apply Hempty.
  - rewrite !parse_sitemap_date_unfold by done. cbv zeta. by rewrite Heq.
Qed.

(** A zone is discarded, not applied. Whatever follows the first [+] or
    the first [Z] of a last-modified hint is cut off before the hint is
    parsed: the hint is read as the timestamp in front of it, without any
    shift, and the filter decides as it does for that timestamp. *)
Theorem parse_sitemap_date_drops_zone ts zone :
  _parse_sitemap_date (ts ++ String "+" zone) = _parse_sitemap_date ts /\
  _parse_sitemap_date (ts ++ String "Z" zone) = _parse_sitemap_date ts /\
  forall self url,
    _filter_url_by_date self url (Some (ts ++ String "+" zone))
      = _filter_url_by_date self url (Some ts) /\
    _filter_url_by_date self url (Some (ts ++ String "Z" zone))
      = _filter_url_by_date self url (Some ts).
Proof.
  assert (Hp : _parse_sitemap_date (ts ++ String "+" zone)
               = _parse_sitemap_date ts)
    by apply parse_sitemap_date_cleaned, cleaned_plus.
  assert (Hz : _parse_sitemap_date (ts ++ String "Z" zone)
               = _parse_sitemap_date ts)
    by apply parse_sitemap_date_cleaned, cleaned_Z.
  split; [exact Hp|]. split; [exact Hz|].
  intros self url. rewrite !filter_url_by_date_spec.
  unfold compared_date, parsed_hint. by rewrite Hp, Hz.
Qed.

(** The same wall-clock time in two zones is one date for the filter. *)
Example hint_zones_not_applied :
  _parse_sitemap_date "2025-01-13T23:00:00+09:00"
    = _parse_sitemap_date "2025-01-13T23:00:00Z" /\
  _parse_sitemap_date "2025-01-13T23:00:00Z"
    = Returned (Some (mkDatetime 2025 1 13 23 0 0)).
Proof. split; reflexivity. Qed.

End DateEdges.

(** ** The configuration *)

Section Configuration.

Import Config.

(** A configuration that loads is usable, and every failure is told
    apart. [load_config] returns a configuration exactly when the file holds
    a JSON object whose [smtp_server], [sender_email], [sender_password] and
    [receiver_emails] are present with a true value. The configuration
    returned takes its fields from the object, user and sender address both
    from [sender_email], with port 587, no SSL, a timeout of 30, 3 retries
    and the cutoff 2025-01-14 for the keys the object does not have, and the
    storage directory [data]. A file that is not found gives a
    [FileNotFoundError] that names the path; a file that is no JSON gives a
    [ValueError] with the message of the decoder, and no [JSONDecodeError]
    leaves the function; a document that is no object gives an
    [AttributeError]; any other exception of the reading passes unchanged.
    An object without a true value for a required key gives a [ValueError]
    that lists, in the order host, user, password, sender, the fields that
    are missing; with these in place and no receivers, a [ValueError] says
    so. *)
Theorem load_config_validates config_path loaded :
  (forall config, load_config config_path loaded = Ok config ->
     exists d,
       loaded = Ok (JDict d) /\
       truthy (smtp_host config) = true /\
       truthy (smtp_user config) = true /\
       truthy (smtp_password config) = true /\
       truthy (to_emails config) = true /\
       from_email config = smtp_user config /\
       storage_base_dir config = JStr "data" /\
       get (JDict d) "smtp_server" JNull = Ok (smtp_host config) /\
       get (JDict d) "smtp_port" (JInt 587) = Ok (smtp_port config) /\
       get (JDict d) "sender_email" JNull = Ok (smtp_user config) /\
       get (JDict d) "sender_password" JNull = Ok (smtp_password config) /\
       get (JDict d) "receiver_emails" (JList []) = Ok (to_emails config) /\
       get (JDict d) "use_ssl" (JBool false) = Ok (use_ssl config) /\
       get (JDict d) "timeout" (JInt 30) = Ok (timeout config) /\
       get (JDict d) "max_retries" (JInt 3) = Ok (max_retries config) /\
       get (JDict d) "filter_date" (JStr "2025-01-14")
         = Ok (filter_date config)) /\
  (forall d v1 v2 v3 v4,
     loaded = Ok (JDict d) ->
     get (JDict d) "smtp_server" JNull = Ok v1 -> truthy v1 = true ->
     get (JDict d) "sender_email" JNull = Ok v2 -> truthy v2 = true ->
     get (JDict d) "sender_password" JNull = Ok v3 -> truthy v3 = true ->
     get (JDict d) "receiver_emails" (JList []) = Ok v4 -> truthy v4 = true ->
     exists config, load_config config_path loaded = Ok config) /\
  (forall msg, loaded = Err (FileNotFoundError msg) ->
     load_config config_path loaded
     = Err (FileNotFoundError
              ("Configuration file not found: " ++ config_path))) /\
  (forall msg, loaded = Err (JSONDecodeError msg) ->
     load_config config_path loaded
     = Err (ValueError ("Invalid JSON in configuration file: " ++ msg))) /\
  (forall e, loaded = Err e ->
     (forall msg, e <> FileNotFoundError msg) ->
     (forall msg, e <> JSONDecodeError msg) ->
     load_config config_path loaded = Err e) /\
  (forall v, loaded = Ok v -> (forall d, v <> JDict d) ->
     load_config config_path loaded = Err AttributeError) /\
  (forall d v1 v2 v3,
     loaded = Ok (JDict d) ->
     get (JDict d) "smtp_server" JNull = Ok v1 ->
     get (JDict d) "sender_email" JNull = Ok v2 ->
     get (JDict d) "sender_password" JNull = Ok v3 ->
     truthy v1 && truthy v2 && truthy v3 = false ->
     load_config config_path loaded
     = Err (ValueError
              ("Missing required configuration: "
               ++ join ", "
                    ((if truthy v1 then [] else ["smtp_host"]) ++
                     (if truthy v2 then [] else ["smtp_user"]) ++
                     (if truthy v3 then [] else ["smtp_password"]) ++
                     (if truthy v2 then [] else ["from_email"]))%list))) /\
  (forall d v1 v2 v3 v4,
     loaded = Ok (JDict d) ->
     get (JDict d) "smtp_server" JNull = Ok v1 -> truthy v1 = true ->
     get (JDict d) "sender_email" JNull = Ok v2 -> truthy v2 = true ->
     get (JDict d) "sender_password" JNull = Ok v3 -> truthy v3 = true ->
     get (JDict d) "receiver_emails" (JList []) = Ok v4 -> truthy v4 = false ->
     load_config config_path loaded
     = Err (ValueError "No receiver emails configured in 'receiver_emails'")) /\
  (forall e msg, load_config config_path loaded = Err e ->
     e <> JSONDecodeError msg).
Proof.
  unfold load_config, load_config_body.
  destruct loaded as [v|e].
  2:{ split_and!; try done.
      - by destruct e.
      - by intros msg [= ->].
      - by intros msg [= ->].
      - intros e' [= <-] H1 H2. destruct e; cbn; try done.
        + by destruct (H1 msg).
        + by destruct (H2 msg).
      - intros e' msg. destruct e; cbn; by intros [= <-]. }
  destruct v as [|b|z|f|t0|l|d].
  1-6: split_and!; try done; intros e msg; cbn; by intros [= <-].
  cbn [rbind get].
  set (v1 := match MultiSourceStorage.dict_get "smtp_server" d with
             | Some v => v | None => JNull end).
  set (v2 := match MultiSourceStorage.dict_get "sender_email" d with
             | Some v => v | None => JNull end).
  set (v3 := match MultiSourceStorage.dict_get "sender_password" d with
             | Some v => v | None => JNull end).
  set (v4 := match MultiSourceStorage.dict_get "receiver_emails" d with
             | Some v => v | None => JList [] end).
  unfold missing. cbn [smtp_host smtp_user smtp_password from_email to_emails].
  split_and!; try done.
  - intros config.
    destruct (truthy v1) eqn:H1, (truthy v2) eqn:H2, (truthy v3) eqn:H3;
      cbn; try done.
    destruct (truthy v4) eqn:H4; cbn; [|done].
    intros [= <-]. exists d. cbn. by split_and!.
  - intros d' w1 w2 w3 w4 [= <-]. fold v1 v2 v3 v4.
    intros [= <-] -> [= <-] -> [= <-] -> [= <-] ->. cbn. eauto.
  - intros v' [= <-] Hd. by destruct (Hd d).
  - intros d' w1 w2 w3 [= <-]. fold v1 v2 v3.
    intros [= <-] [= <-] [= <-].
    by destruct (truthy v1), (truthy v2), (truthy v3).
  - intros d' w1 w2 w3 w4 [= <-]. fold v1 v2 v3 v4.
    by intros [= <-] -> [= <-] -> [= <-] -> [= <-] ->.
  - intros e msg.
    destruct (truthy v1), (truthy v2), (truthy v3); cbn;
      try (by intros [= <-]).
    destruct (truthy v4); cbn; [done | by intros [= <-]].
Qed.

(** A configuration with the required keys only: the defaults. *)
Example load_config_defaults :
  load_config "config/email_config.json"
    (Ok (JDict [ ("smtp_server", JStr "smtp.example.org");
                 ("sender_email", JStr "a@example.org");
                 ("sender_password", JStr "secret");
                 ("receiver_emails", JList [JStr "b@example.org"]) ]))
  = Ok (mk (JStr "smtp.example.org") (JInt 587) (JStr "a@example.org")
           (JStr "secret") (JStr "a@example.org")
           (JList [JStr "b@example.org"]) (JBool false) (JInt 30) (JInt 3)
           (JStr "2025-01-14") (JStr "data")).
Proof. reflexivity. Qed.

(** Without [sender_email] both the user and the sender address are
    missing; a key that is present with [null] does not get its default. *)
Example load_config_missing_sender :
  load_config "config/email_config.json"
    (Ok (JDict [ ("smtp_server", JStr "smtp.example.org");
                 ("sender_email", JNull);
                 ("sender_password", JStr "secret");
                 ("receiver_emails", JList [JStr "b@example.org"]) ]))
  = Err (ValueError
           "Missing required configuration: smtp_user, from_email").
Proof. reflexivity. Qed.

Example load_config_no_receivers :
  load_config "config/email_config.json"
    (Ok (JDict [ ("smtp_server", JStr "smtp.example.org");
                 ("sender_email", JStr "a@example.org");
                 ("sender_password", JStr "secret") ]))
  = Err (ValueError "No receiver emails configured in 'receiver_emails'").
Proof. reflexivity. Qed.

Example load_config_not_an_object :
  load_config "config/email_config.json" (Ok (JList [JStr "smtp.example.org"]))
  = Err AttributeError.
Proof. reflexivity. Qed.

Example load_config_invalid_json :
  load_config "config/email_config.json"
    (Err (JSONDecodeError "Expecting value: line 1 column 1 (char 0)"))
  = Err (ValueError
           "Invalid JSON in configuration file: Expecting value: line 1 column 1 (char 0)").
Proof. reflexivity. Qed.

Example load_config_not_found :
  load_config "config/email_config.json" (Err (FileNotFoundError "ENOENT"))
  = Err (FileNotFoundError
           "Configuration file not found: config/email_config.json").
Proof. reflexivity. Qed.

End Configuration.

(** ** The plain-text notification *)

Section Notification.

Import EmailSender.

Implicit Types (t s text : string) (items : list (string * list string)).

Lemma occurs_here t a b : occurs t (a ++ t ++ b).
Proof. by exists a, b. Qed.

Lemma occurs_app_l t s x : occurs t s -> occurs t (s ++ x).
Proof.
  intros (a & b & ->). exists a, (b ++ x). by rewrite !string_app_assoc.
Qed.

Lemma occurs_app_r t s x : occurs t s -> occurs t (x ++ s).
Proof.
  intros (a & b & ->). exists (x ++ a), b. by rewrite !string_app_assoc.
Qed.

Lemma occurs_end t a : occurs t (a ++ t).
Proof. exists a, "". by rewrite string_app_nil_r. Qed.

Lemma url_lines_keeps t urls_ : forall text,
  occurs t text -> occurs t (url_lines urls_ text).
Proof.
  induction urls_ as [|u urls_ IH]; intros text H; [done|].
  cbn [url_lines]. by apply IH, occurs_app_l.
Qed.

Lemma url_lines_occurs u urls_ : forall text,
  u ∈ urls_ -> occurs ("  • " ++ u ++ nl) (url_lines urls_ text).
Proof.
  induction urls_ as [|u' urls_ IH]; intros text Hin.
  - by apply elem_of_nil in Hin.
  - cbn [url_lines]. apply elem_of_cons in Hin as [->|Hin]; [|by apply IH].
    apply url_lines_keeps, occurs_end.
Qed.

Lemma sources_loop_keeps t items : forall text,
  occurs t text -> occurs t (sources_loop items text).
Proof.
  induction items as [|[src l] items IH]; intros text H; [done|].
  cbn [sources_loop]. destruct l as [|u l]; [by apply IH|].
  cbv zeta. apply IH, occurs_app_l, url_lines_keeps.
  by do 2 apply occurs_app_l.
Qed.

Lemma sources_loop_occurs items src l u : forall text,
  (src, l) ∈ items -> u ∈ l ->
  occurs (nl ++ src ++ nl ++ times "-" (len src) ++ nl ++
          str_nat (length l) ++ " new URL(s):" ++ nl ++ nl)
    (sources_loop items text) /\
  occurs ("  • " ++ u ++ nl) (sources_loop items text).
Proof.
  induction items as [|[src' l'] items IH]; intros text Hin Hu.
  - by apply elem_of_nil in Hin.
  - cbn [sources_loop]. apply elem_of_cons in Hin as [[= <- <-]|Hin].
    + destruct l as [|u0 l0]; [by apply elem_of_nil in Hu|]. cbv zeta. split.
      * apply sources_loop_keeps, occurs_app_l, url_lines_keeps.
        rewrite string_app_assoc.
        exists text, "". rewrite string_app_nil_r. f_equal.
        by rewrite !string_app_assoc.
      * by apply sources_loop_keeps, occurs_app_l, url_lines_occurs.
    + destruct l' as [|u0 l0]; by apply IH.
Qed.

Lemma total_len_pos items src l u :
  (src, l) ∈ items -> u ∈ l -> total_len items <> 0.
Proof.
  unfold total_len. induction items as [|[src' l'] items IH]; intros Hin Hu.
  - by apply elem_of_nil in Hin.
  - apply elem_of_cons in Hin as [[= <- <-]|Hin].
    + destruct l; [by apply elem_of_nil in Hu | done].
    + specialize (IH Hin Hu). rewrite map_cons. cbn [list_sum foldr].
      intros H0. apply IH. apply Nat.eq_add_0 in H0. apply H0.
Qed.

Lemma total_len_zero items :
  (forall src l, (src, l) ∈ items -> l = []) -> total_len items = 0.
Proof.
  unfold total_len. induction items as [|[src' l'] items IH]; intros H;
    [done|].
  cbn. rewrite (H src' l') by (by left). cbn. apply IH.
  intros src l Hin. apply (H src l). by right.
Qed.

(** The notification lists what is new. Take the text body for a report
    and its total, as [send_email] gets them from [main]. Every source of
    the report that has URLs has its section, with the name of the source,
    a rule of its length and the number of its URLs, and every URL of the
    report has its line. When the report has no URL, the body is the one of
    the empty report, and says that nothing new was discovered. *)
Theorem text_email_lists_new_urls now_ new_urls :
  let text := _create_text_email now_ new_urls
                (Z.of_nat (total_len new_urls)) in
  (forall src l u, (src, l) ∈ new_urls -> u ∈ l ->
     occurs (nl ++ src ++ nl ++ times "-" (len src) ++ nl ++
             str_nat (length l) ++ " new URL(s):" ++ nl ++ nl) text /\
     occurs ("  • " ++ u ++ nl) text) /\
  ((forall src l, (src, l) ∈ new_urls -> l = []) ->
   text = _create_text_email now_ [] 0 /\
   occurs (" No new URLs discovered since the last run." ++ nl) text).
Proof.
  cbv zeta. split.
  - intros src l u Hin Hu. unfold _create_text_email. cbv zeta.
    pose proof (total_len_pos _ _ _ _ Hin Hu) as Hpos.
    destruct (Z.eqb_spec (Z.of_nat (total_len new_urls)) 0) as [H0|_]; [lia|].
    destruct (sources_loop_occurs new_urls src l u
                (nl ++ " Daily Ransomware Links" ++ nl ++ times "=" 50 ++ nl
                 ++ nl ++ "Date: " ++ now_ ++ nl ++ "Total New URLs: "
                 ++ str_int (Z.of_nat (total_len new_urls)) ++ nl ++ nl)
                Hin Hu) as [H1 H2].
    split; by do 2 apply occurs_app_l.
  - intros Hall. rewrite (total_len_zero _ Hall). split; [reflexivity|].
    unfold _create_text_email. cbv zeta.
    change (Z.of_nat 0 =? 0)%Z with true. cbv iota.
    do 2 apply occurs_app_l. apply occurs_end.
Qed.

(** The body for a report of two URLs of one source. *)
Example text_email_sample :
  _create_text_email "2025-01-15 08:00:00"
    [("dexpose.io", ["https://dexpose.io/a"; "https://dexpose.io/b"])] 2
  = nl ++ " Daily Ransomware Links" ++ nl ++ times "=" 50 ++ nl ++ nl ++
    "Date: 2025-01-15 08:00:00" ++ nl ++
    "Total New URLs: 2" ++ nl ++ nl ++
    nl ++ "dexpose.io" ++ nl ++ "----------" ++ nl ++
    "2 new URL(s):" ++ nl ++ nl ++
    "  • https://dexpose.io/a" ++ nl ++
    "  • https://dexpose.io/b" ++ nl ++ nl ++
    nl ++ times "=" 50 ++ nl ++
    "This is an automated report from your Daily URL Scraper." ++ nl.
Proof. vm_compute. reflexivity. Qed.

End Notification.
